(** * The analytics dashboard: snapshot aggregation and presentation pipeline

    A shallow embedding of the dashboard script (the browser side of the
    analytics tracker): the held snapshot sequence, the metric cards, the six
    chart views, the data table, the export path and the event handlers that
    drive them.

    JavaScript numbers are binary64 floats ([PrimFloat.float]); the global
    variables and the page are one explicit [State]; a function that can raise
    (a property access on [null]) lives in a state-and-exception monad [M];
    an [async] function is cut at its [await] into the part that issues the
    request and the part that resumes on the response, so that responses of
    overlapping requests can be delivered in any order.

    The events start where the page is set up: the authentication check has
    set [currentUser] and the listeners are registered; the start of the
    page itself is modelled apart, under Starting the page. What the console
    prints is left out. The markup of the page is not part of the script: the
    elements it looks up may be missing ([getElementById] gives [null]), and
    which elements sit inside the two containers whose [innerHTML] the script
    replaces is a parameter. *)

From Stdlib Require Import Floats ZArith String DecimalString.
From stdpp Require Import gmap strings list.

Open Scope string_scope.

(** ** JavaScript numbers *)

Module Number.

(** The number an integer literal or a JSON integer denotes. *)
Definition of_Z (z : Z) : float :=
  SF2Prim (SpecFloat.binary_normalize prec emax z 0 false).

(** Truthiness of a number: [0], [-0] and [NaN] are falsy. *)
Definition truthy (x : float) : bool :=
  negb (PrimFloat.eqb x 0%float || PrimFloat.is_nan x).

(** Decimal digits of a natural number. *)
Definition digits (n : Z) : string :=
  NilZero.string_of_uint (N.to_uint (Z.to_N n)).

(** [tenths m e] is the integer [n] for which [n / 10] is closest to
    [m * 2^e], the larger one on a tie. *)
Definition tenths (m : positive) (e : Z) : Z :=
  if (0 <=? e)%Z then (10 * Z.pos m * 2 ^ e)%Z
  else ((20 * Z.pos m + 2 ^ (- e)) / 2 ^ (- e + 1))%Z.

(** [fixed1 neg n] writes [n / 10] with one digit after the point. *)
Definition fixed1 (neg : bool) (n : Z) : string :=
  (if neg then "-" else "") ++ digits (n / 10) ++ "." ++ digits (n mod 10).

Section ToFixed.

(** [Number::toString] of the language, used by [toFixed] from 1e21 on. *)
Variable numberToString : float -> string.

(** [x.toFixed(1)]. *)
Definition toFixed1 (x : float) : string :=
  match Prim2SF x with
  | S754_nan => "NaN"
  | S754_infinity false => "Infinity"
  | S754_infinity true => "-Infinity"
  | S754_zero _ => "0.0"
  | S754_finite neg m e =>
      if PrimFloat.leb 1e21%float (PrimFloat.abs x) then numberToString x
      else fixed1 neg (tenths m e)
  end.

End ToFixed.

End Number.

(** ** Data model *)

(** One snapshot as the snapshot endpoint serves it. [language_stats] is the
    object of language weights in its own key order ([None]: absent or null);
    [contribution_count] may be absent. *)
Record Snapshot := {
  snapshot_date : string;
  stars : float;
  followers : float;
  following : float;
  public_repos : float;
  total_commits : float;
  contribution_count : option float;
  language_stats : option (list (string * float));
}.

(** [x || 0] on an optional number. *)
Definition or_zero (x : option float) : float :=
  match x with
  | Some v => if Number.truthy v then v else 0%float
  | None => 0%float
  end.

(** [o || {}] on an optional object. *)
Definition or_empty_object (o : option (list (string * float))) : list (string * float) :=
  match o with
  | Some kvs => kvs
  | None => []
  end.

(** [Object.keys] and [Object.values]: both follow the object's key order. *)
Definition Object_keys (o : list (string * float)) : list string := map fst o.
Definition Object_values (o : list (string * float)) : list float := map snd o.

(** ** The page *)

(** The three markups the script assigns to an [innerHTML]: the empty string
    (table body), the No Analytics Data Available block (metrics grid) and the
    No Language Data block (parent of the language canvas). *)
Inductive Markup :=
  | EmptyMarkup
  | NoAnalyticsDataMarkup
  | NoLanguageDataMarkup.

(** The properties of an element that the script reads or writes.
    [innerHTML] is [None] while the element still has the markup of the page;
    [children] are the table rows appended by the script, as their cells. *)
Record Element := {
  textContent : string;
  className : string;
  value : string;
  display : string;
  innerHTML : option Markup;
  children : list (list string);
}.

Definition set_textContent (s : string) (e : Element) : Element :=
  {| textContent := s; className := className e; value := value e;
     display := display e; innerHTML := innerHTML e; children := children e |}.

Definition set_className (s : string) (e : Element) : Element :=
  {| textContent := textContent e; className := s; value := value e;
     display := display e; innerHTML := innerHTML e; children := children e |}.

Definition set_value (s : string) (e : Element) : Element :=
  {| textContent := textContent e; className := className e; value := s;
     display := display e; innerHTML := innerHTML e; children := children e |}.

Definition set_display (s : string) (e : Element) : Element :=
  {| textContent := textContent e; className := className e; value := value e;
     display := s; innerHTML := innerHTML e; children := children e |}.

(** Assigning [innerHTML] drops the children the element had. *)
Definition set_innerHTML (h : Markup) (e : Element) : Element :=
  {| textContent := textContent e; className := className e; value := value e;
     display := display e; innerHTML := Some h; children := [] |}.

Definition appendChild (row : list string) (e : Element) : Element :=
  {| textContent := textContent e; className := className e; value := value e;
     display := display e; innerHTML := innerHTML e; children := children e ++ [row] |}.

(** ** Charts *)

Inductive Colour :=
  | Solid (c : string)
  | Palette (cs : list string).

Record Dataset := {
  ds_label : option string;
  ds_data : list float;
  ds_backgroundColor : Colour;
  ds_borderColor : string;
  ds_borderWidth : Z;
  ds_fill : option bool;
  ds_tension : option float;
}.

(** [CommonOptions] is what [getChartOptions] returns (the same object for
    every title); [DoughnutOptions] is the literal of the language chart. *)
Inductive ChartOptions :=
  | CommonOptions
  | DoughnutOptions.

Record ChartConfig := {
  chart_type : string;
  chart_labels : list string;
  chart_datasets : list Dataset;
  chart_options : ChartOptions;
}.

(** What the charting library is asked to do, in order: [Created c canvas cfg]
    is [new Chart(ctx, cfg)] on the context of [canvas], returning the chart
    object [c]; [Destroyed c] is [c.destroy()]. *)
Inductive ChartEvent :=
  | Created (c : nat) (canvas : string) (cfg : ChartConfig)
  | Destroyed (c : nat).

Module COLORS.
Definition primary := "#6366f1".
Definition secondary := "#8b5cf6".
Definition success := "#10b981".
Definition warning := "#f59e0b".
Definition danger := "#ef4444".
Definition info := "#3b82f6".
Definition gradient := ["#6366f1"; "#8b5cf6"; "#ec4899"; "#f59e0b"; "#10b981"].
End COLORS.

(** ** Requests in flight *)

(** A request as [fetch] sends it; the export request remembers the format
    its continuation uses. *)
Inductive Fetch :=
  | FetchSnapshots (startDate endDate authorization : string)
  | FetchExport (format startDate endDate authorization : string).

(** The body of a snapshots response as [response.json()] gives it. *)
Inductive Json :=
  | JsonInvalid
  | JsonNull
  | JsonObject (snapshots : option (list Snapshot)).

(** How a request ends: [fetch] rejects, or a response arrives. *)
Inductive LoadResponse :=
  | LoadRejected
  | LoadResponded (ok : bool) (body : Json).

(** [blob] is [None] when reading the body fails. *)
Inductive ExportResponse :=
  | ExportRejected
  | ExportResponded (ok : bool) (blob : option string).

(** ** The state of the script and of its page *)

Record State := {
  currentUser : option string;
  analyticsData : list Snapshot;
  charts : gmap string nat;
  authToken : option string;
  document : gmap string Element;
  languageCard : option Markup;
  chartLog : list ChartEvent;
  alerts : list string;
  downloads : list (string * string);
  inflight : gmap nat Fetch;
  nextFetch : nat;
}.

Definition set_analyticsData (d : list Snapshot) (st : State) : State :=
  {| currentUser := currentUser st; analyticsData := d; charts := charts st;
     authToken := authToken st; document := document st;
     languageCard := languageCard st; chartLog := chartLog st;
     alerts := alerts st; downloads := downloads st; inflight := inflight st;
     nextFetch := nextFetch st |}.

Definition set_charts (c : gmap string nat) (st : State) : State :=
  {| currentUser := currentUser st; analyticsData := analyticsData st; charts := c;
     authToken := authToken st; document := document st;
     languageCard := languageCard st; chartLog := chartLog st;
     alerts := alerts st; downloads := downloads st; inflight := inflight st;
     nextFetch := nextFetch st |}.

Definition set_document (d : gmap string Element) (st : State) : State :=
  {| currentUser := currentUser st; analyticsData := analyticsData st;
     charts := charts st; authToken := authToken st; document := d;
     languageCard := languageCard st; chartLog := chartLog st;
     alerts := alerts st; downloads := downloads st; inflight := inflight st;
     nextFetch := nextFetch st |}.

Definition set_languageCard (h : option Markup) (st : State) : State :=
  {| currentUser := currentUser st; analyticsData := analyticsData st;
     charts := charts st; authToken := authToken st; document := document st;
     languageCard := h; chartLog := chartLog st;
     alerts := alerts st; downloads := downloads st; inflight := inflight st;
     nextFetch := nextFetch st |}.

Definition set_chartLog (l : list ChartEvent) (st : State) : State :=
  {| currentUser := currentUser st; analyticsData := analyticsData st;
     charts := charts st; authToken := authToken st; document := document st;
     languageCard := languageCard st; chartLog := l;
     alerts := alerts st; downloads := downloads st; inflight := inflight st;
     nextFetch := nextFetch st |}.

Definition set_alerts (l : list string) (st : State) : State :=
  {| currentUser := currentUser st; analyticsData := analyticsData st;
     charts := charts st; authToken := authToken st; document := document st;
     languageCard := languageCard st; chartLog := chartLog st;
     alerts := l; downloads := downloads st; inflight := inflight st;
     nextFetch := nextFetch st |}.

Definition set_downloads (l : list (string * string)) (st : State) : State :=
  {| currentUser := currentUser st; analyticsData := analyticsData st;
     charts := charts st; authToken := authToken st; document := document st;
     languageCard := languageCard st; chartLog := chartLog st;
     alerts := alerts st; downloads := l; inflight := inflight st;
     nextFetch := nextFetch st |}.

Definition set_inflight (m : gmap nat Fetch) (n : nat) (st : State) : State :=
  {| currentUser := currentUser st; analyticsData := analyticsData st;
     charts := charts st; authToken := authToken st; document := document st;
     languageCard := languageCard st; chartLog := chartLog st;
     alerts := alerts st; downloads := downloads st; inflight := m;
     nextFetch := n |}.

(** ** The monad of the script: state, and exceptions that keep the state *)

Inductive Exn :=
  | TypeError
  | SyntaxError
  | Error (message : string).

Inductive Res (A : Type) :=
  | Ok (a : A)
  | Throw (e : Exn).
Arguments Ok {A} a.
Arguments Throw {A} e.

Definition M (A : Type) : Type := State -> Res A * State.

#[global] Instance M_ret : MRet M := fun A a st => (Ok a, st).

#[global] Instance M_bind : MBind M := fun A B k m st =>
  match m st with
  | (Ok a, st') => k a st'
  | (Throw e, st') => (Throw e, st')
  end.

Definition throw {A} (e : Exn) : M A := fun st => (Throw e, st).

(** [try { body } catch (error) { handler }]. *)
Definition try_catch {A} (body : M A) (handler : Exn -> M A) : M A := fun st =>
  match body st with
  | (Ok a, st') => (Ok a, st')
  | (Throw e, st') => handler e st'
  end.

Definition gets {A} (f : State -> A) : M A := fun st => (Ok (f st), st).
Definition modify (f : State -> State) : M unit := fun st => (Ok tt, f st).

(** The state an event handler leaves: an exception that escapes it ends the
    handler and keeps what was written before. *)
Definition exec (m : M unit) (st : State) : State := snd (m st).

(** *** The document *)

(** [document.getElementById(id)]: the element, or [null]. *)
Definition getElementById (id : string) : M (option string) :=
  d ← gets document;
  mret (match d !! id with Some _ => Some id | None => None end).

(** Reading a property of [el]; a [TypeError] on [null]. *)
Definition get_prop {A} (el : option string) (f : Element -> A) : M A :=
  match el with
  | None => throw TypeError
  | Some id =>
      d ← gets document;
      match d !! id with
      | Some e => mret (f e)
      | None => throw TypeError
      end
  end.

(** Writing a property of [el]; a [TypeError] on [null]. *)
Definition set_prop (el : option string) (f : Element -> Element) : M unit :=
  match el with
  | None => throw TypeError
  | Some id => modify (fun st => set_document (alter f id (document st)) st)
  end.

(** [el.innerHTML = h]: the elements [inside] leave the document. *)
Definition assign_innerHTML (el : option string) (h : Markup) (inside : list string)
    : M unit :=
  match el with
  | None => throw TypeError
  | Some id =>
      modify (fun st =>
        set_document
          (alter (set_innerHTML h) id (foldr delete (document st) inside)) st)
  end.

(** [o.p] on an array item that may be [undefined]. *)
Definition field {A B} (o : option A) (f : A -> B) : M B :=
  match o with
  | Some x => mret (f x)
  | None => throw TypeError
  end.

(** [alert(message)]. *)
Definition alert (message : string) : M unit :=
  modify (fun st => set_alerts (alerts st ++ [message]) st).

(** [showSuccess] and [showError]: both alert the message. *)
Definition showSuccess (message : string) : M unit := alert message.
Definition showError (message : string) : M unit := alert message.

(** ** The script *)

(** The percent of a change indicator: the string [toFixed(1)] gives, or the
    number literal [0]. *)
Inductive Percent :=
  | PercentFixed (s : string)
  | PercentZero.

(** The percent inside a template literal. *)
Definition percent_text (p : Percent) : string :=
  match p with
  | PercentFixed s => s
  | PercentZero => "0"
  end.

Section Script.

(** The locale-dependent formatters and the conversions of the language that
    the script calls: [x.toLocaleString()],
    [new Date(s).toLocaleDateString()], [Number::toString] and
    [s.toUpperCase()]. *)
Variable toLocaleString : float -> string.
Variable toLocaleDateString : string -> string.
Variable numberToString : float -> string.
Variable toUpperCase : string -> string.

(** The markup of the page: the ids of the elements inside the metrics grid,
    and the ids of the elements that share the parent of the language canvas. *)
Variable grid_ids : list string.
Variable language_card_ids : list string.

(** *** Metric cards *)

(** The locals [change], [percentChange], [className] and [symbol] of
    [updateMetricChange]. *)
Definition change (oldValue newValue : float) : float :=
  (newValue - oldValue)%float.

Definition percentChange (oldValue newValue : float) : Percent :=
  if PrimFloat.ltb 0%float oldValue
  then PercentFixed
         (Number.toFixed1 numberToString (change oldValue newValue / oldValue * 100)%float)
  else PercentZero.

Definition className_of (change : float) : string :=
  if PrimFloat.ltb 0%float change then "positive"
  else if PrimFloat.ltb change 0%float then "negative"
  else "neutral".

Definition symbol_of (change : float) : string :=
  if PrimFloat.ltb 0%float change then "↑"
  else if PrimFloat.ltb change 0%float then "↓"
  else "→".

Definition change_text (oldValue newValue : float) : string :=
  symbol_of (change oldValue newValue) ++ " "
  ++ toLocaleString (PrimFloat.abs (change oldValue newValue))
  ++ " (" ++ percent_text (percentChange oldValue newValue) ++ "%)".

Definition updateMetricChange (metric : string) (oldValue newValue : float) : M unit :=
  changeEl ← getElementById ("metric-" ++ metric ++ "-change");
  set_prop changeEl
    (set_className ("metric-change " ++ className_of (change oldValue newValue)));;
  set_prop changeEl (set_textContent (change_text oldValue newValue)).

Definition updateMetrics : M unit :=
  data ← gets analyticsData;
  if (length data =? 0)%nat then mret tt else
  let latest := data !! (length data - 1)%nat in
  let first := data !! 0%nat in
  (el ← getElementById "metric-stars";
   v ← field latest stars; set_prop el (set_textContent (toLocaleString v)));;
  (el ← getElementById "metric-followers";
   v ← field latest followers; set_prop el (set_textContent (toLocaleString v)));;
  (el ← getElementById "metric-repos";
   v ← field latest public_repos; set_prop el (set_textContent (toLocaleString v)));;
  (el ← getElementById "metric-commits";
   v ← field latest total_commits; set_prop el (set_textContent (toLocaleString v)));;
  (o ← field first stars; n ← field latest stars; updateMetricChange "stars" o n);;
  (o ← field first followers; n ← field latest followers;
   updateMetricChange "followers" o n);;
  (o ← field first public_repos; n ← field latest public_repos;
   updateMetricChange "repos" o n);;
  (o ← field first total_commits; n ← field latest total_commits;
   updateMetricChange "commits" o n).

(** *** Charts *)

(** [document.getElementById(canvas).getContext('2d')]; the context stands
    for its canvas. *)
Definition getContext (canvas : string) : M string :=
  el ← getElementById canvas;
  match el with
  | Some id => mret id
  | None => throw TypeError
  end.

(** [if (charts.name) { charts.name.destroy(); }]. *)
Definition destroy_previous (name : string) : M unit :=
  cs ← gets charts;
  match cs !! name with
  | Some c => modify (fun st => set_chartLog (chartLog st ++ [Destroyed c]) st)
  | None => mret tt
  end.

(** [charts.name = new Chart(ctx, cfg)]; the new chart object is named by its
    place in the log. *)
Definition new_Chart (name ctx : string) (cfg : ChartConfig) : M unit :=
  modify (fun st =>
    let c := length (chartLog st) in
    set_charts (<[name := c]> (charts st))
      (set_chartLog (chartLog st ++ [Created c ctx cfg]) st)).

Definition getChartOptions (title : string) : ChartOptions := CommonOptions.

Definition date_labels (data : list Snapshot) : list string :=
  map (fun d => toLocaleDateString (snapshot_date d)) data.

Definition tension04 : float := 0x1.999999999999ap-2%float.

Definition renderStarsChart : M unit :=
  ctx ← getContext "stars-chart";
  chartType ← (el ← getElementById "stars-chart-type"; get_prop el value);
  destroy_previous "stars";;
  analyticsData ← gets analyticsData;
  let labels := date_labels analyticsData in
  let data := map stars analyticsData in
  new_Chart "stars" ctx
    {| chart_type := chartType;
       chart_labels := labels;
       chart_datasets :=
         [ {| ds_label := Some "Total Stars";
              ds_data := data;
              ds_backgroundColor :=
                Solid (if String.eqb chartType "bar" then COLORS.primary
                       else COLORS.primary ++ "20");
              ds_borderColor := COLORS.primary;
              ds_borderWidth := 2;
              ds_fill := Some (String.eqb chartType "line");
              ds_tension := Some tension04 |} ];
       chart_options := getChartOptions "Stars" |}.

Definition renderFollowersChart : M unit :=
  ctx ← getContext "followers-chart";
  chartType ← (el ← getElementById "followers-chart-type"; get_prop el value);
  destroy_previous "followers";;
  analyticsData ← gets analyticsData;
  let labels := date_labels analyticsData in
  let followersData := map followers analyticsData in
  let followingData := map following analyticsData in
  new_Chart "followers" ctx
    {| chart_type := chartType;
       chart_labels := labels;
       chart_datasets :=
         [ {| ds_label := Some "Followers";
              ds_data := followersData;
              ds_backgroundColor :=
                Solid (if String.eqb chartType "bar" then COLORS.success
                       else COLORS.success ++ "20");
              ds_borderColor := COLORS.success;
              ds_borderWidth := 2;
              ds_fill := Some (String.eqb chartType "line");
              ds_tension := Some tension04 |};
           {| ds_label := Some "Following";
              ds_data := followingData;
              ds_backgroundColor :=
                Solid (if String.eqb chartType "bar" then COLORS.info
                       else COLORS.info ++ "20");
              ds_borderColor := COLORS.info;
              ds_borderWidth := 2;
              ds_fill := Some (String.eqb chartType "line");
              ds_tension := Some tension04 |} ];
       chart_options := getChartOptions "Followers" |}.

Definition renderReposChart : M unit :=
  ctx ← getContext "repos-chart";
  destroy_previous "repos";;
  analyticsData ← gets analyticsData;
  let labels := date_labels analyticsData in
  let data := map public_repos analyticsData in
  new_Chart "repos" ctx
    {| chart_type := "line";
       chart_labels := labels;
       chart_datasets :=
         [ {| ds_label := Some "Public Repositories";
              ds_data := data;
              ds_backgroundColor := Solid (COLORS.secondary ++ "20");
              ds_borderColor := COLORS.secondary;
              ds_borderWidth := 2;
              ds_fill := Some true;
              ds_tension := Some tension04 |} ];
       chart_options := getChartOptions "Repositories" |}.

Definition renderCommitsChart : M unit :=
  ctx ← getContext "commits-chart";
  destroy_previous "commits";;
  analyticsData ← gets analyticsData;
  let labels := date_labels analyticsData in
  let data := map total_commits analyticsData in
  new_Chart "commits" ctx
    {| chart_type := "bar";
       chart_labels := labels;
       chart_datasets :=
         [ {| ds_label := Some "Total Commits";
              ds_data := data;
              ds_backgroundColor := Solid COLORS.warning;
              ds_borderColor := COLORS.warning;
              ds_borderWidth := 1;
              ds_fill := None;
              ds_tension := None |} ];
       chart_options := getChartOptions "Commits" |}.

Definition renderLanguageChart : M unit :=
  ctx ← getContext "language-chart";
  destroy_previous "language";;
  analyticsData ← gets analyticsData;
  let latest := analyticsData !! (length analyticsData - 1)%nat in
  stats ← field latest language_stats;
  let languageStats := or_empty_object stats in
  let labels := Object_keys languageStats in
  let data := Object_values languageStats in
  if (length labels =? 0)%nat then
    modify (fun st =>
      set_languageCard (Some NoLanguageDataMarkup)
        (set_document (foldr delete (document st) (ctx :: language_card_ids)) st))
  else
    new_Chart "language" ctx
      {| chart_type := "doughnut";
         chart_labels := labels;
         chart_datasets :=
           [ {| ds_label := None;
                ds_data := data;
                ds_backgroundColor := Palette COLORS.gradient;
                ds_borderColor := "#fff";
                ds_borderWidth := 2;
                ds_fill := None;
                ds_tension := None |} ];
         chart_options := DoughnutOptions |}.

Definition renderContributionChart : M unit :=
  ctx ← getContext "contribution-chart";
  destroy_previous "contribution";;
  analyticsData ← gets analyticsData;
  let labels := date_labels analyticsData in
  let data := map (fun d => or_zero (contribution_count d)) analyticsData in
  new_Chart "contribution" ctx
    {| chart_type := "line";
       chart_labels := labels;
       chart_datasets :=
         [ {| ds_label := Some "Contributions";
              ds_data := data;
              ds_backgroundColor := Solid (COLORS.danger ++ "20");
              ds_borderColor := COLORS.danger;
              ds_borderWidth := 2;
              ds_fill := Some true;
              ds_tension := Some tension04 |} ];
       chart_options := getChartOptions "Contributions" |}.

Definition renderCharts : M unit :=
  renderStarsChart;;
  renderFollowersChart;;
  renderReposChart;;
  renderCommitsChart;;
  renderLanguageChart;;
  renderContributionChart.

Definition updateChartType (chartName type : string) : M unit :=
  if String.eqb chartName "stars" then renderStarsChart
  else if String.eqb chartName "followers" then renderFollowersChart
  else mret tt.

(** *** Data table *)

Definition table_row (snapshot : Snapshot) : list string :=
  [ toLocaleDateString (snapshot_date snapshot);
    toLocaleString (stars snapshot);
    toLocaleString (followers snapshot);
    toLocaleString (following snapshot);
    toLocaleString (public_repos snapshot);
    toLocaleString (total_commits snapshot);
    toLocaleString (or_zero (contribution_count snapshot)) ].

(** [xs.forEach(f)]. *)
Fixpoint forEach {A} (xs : list A) (f : A -> M unit) : M unit :=
  match xs with
  | [] => mret tt
  | x :: xs' => f x;; forEach xs' f
  end.

Definition updateTable : M unit :=
  tbody ← getElementById "table-body";
  set_prop tbody (set_innerHTML EmptyMarkup);;
  analyticsData ← gets analyticsData;
  forEach analyticsData (fun snapshot => set_prop tbody (appendChild (table_row snapshot))).

Definition toggleTable : M unit :=
  container ← getElementById "table-container";
  d ← get_prop container display;
  set_prop container (set_display (if String.eqb d "none" then "block" else "none")).

(** *** Export *)

Definition showExportModal : M unit :=
  el ← getElementById "export-modal"; set_prop el (set_display "flex").

Definition hideExportModal : M unit :=
  el ← getElementById "export-modal"; set_prop el (set_display "none").

(** The [Authorization] header: the token inside a template literal. *)
Definition bearer (token : option string) : string :=
  "Bearer " ++ match token with Some t => t | None => "null" end.

(** [await fetch(request)]: the request leaves and the function is suspended
    until an event delivers its response. *)
Definition fetch (request : Fetch) : M unit :=
  modify (fun st =>
    set_inflight (<[nextFetch st := request]> (inflight st)) (S (nextFetch st)) st).

(** [exportData(format)] up to its [await fetch]. *)
Definition exportData (format : string) : M unit :=
  try_catch
    (startDate ← (el ← getElementById "start-date"; get_prop el value);
     endDate ← (el ← getElementById "end-date"; get_prop el value);
     token ← gets authToken;
     fetch (FetchExport format startDate endDate (bearer token)))
    (fun error => showError "Failed to export data. Please try again.").

(** [exportData(format)] from the response on; [now] is [Date.now()]. *)
Definition exportData_resume (format : string) (r : ExportResponse) (now : Z) : M unit :=
  try_catch
    (match r with
     | ExportRejected => throw TypeError
     | ExportResponded ok body =>
         if negb ok then throw (Error "Export failed") else
         match body with
         | None => throw TypeError
         | Some blob =>
             modify (fun st =>
               set_downloads
                 (downloads st
                  ++ [("analytics-export-" ++ Number.digits now ++ "." ++ format, blob)])
                 st);;
             hideExportModal;;
             showSuccess ("Data exported successfully as " ++ toUpperCase format)
         end
     end)
    (fun error => showError "Failed to export data. Please try again.").

(** *** Loading *)

Definition showEmptyState : M unit :=
  metricsGrid ← getElementById "metrics-grid";
  assign_innerHTML metricsGrid NoAnalyticsDataMarkup grid_ids.

(** [setDefaultDateRange(days)]: [startDate] and [endDate] are the two ISO
    dates the function computes from the clock, [days] apart. *)
Definition setDefaultDateRange (startDate endDate : string) : M unit :=
  (el ← getElementById "start-date"; set_prop el (set_value startDate));;
  (el ← getElementById "end-date"; set_prop el (set_value endDate)).

(** [loadAnalyticsData()] up to its [await fetch]. *)
Definition loadAnalyticsData : M unit :=
  user ← gets currentUser;
  match user with
  | None => mret tt
  | Some _ =>
      try_catch
        (startDate ← (el ← getElementById "start-date"; get_prop el value);
         endDate ← (el ← getElementById "end-date"; get_prop el value);
         if String.eqb startDate "" || String.eqb endDate "" then mret tt
         else
           token ← gets authToken;
           fetch (FetchSnapshots startDate endDate (bearer token)))
        (fun error => showError "Failed to load analytics data. Please try again.")
  end.

(** [loadAnalyticsData()] from the response on. *)
Definition loadAnalyticsData_resume (r : LoadResponse) : M unit :=
  try_catch
    (match r with
     | LoadRejected => throw TypeError
     | LoadResponded ok body =>
         if negb ok then throw (Error "Failed to fetch analytics data") else
         match body with
         | JsonInvalid => throw SyntaxError
         | JsonNull => throw TypeError
         | JsonObject snapshots =>
             modify (set_analyticsData (default [] snapshots));;
             data ← gets analyticsData;
             if (length data =? 0)%nat then showEmptyState
             else updateMetrics;; renderCharts;; updateTable
         end
     end)
    (fun error => showError "Failed to load analytics data. Please try again.").

(** ** Events *)

(** What the user and the network do to the page. A change event carries the
    value the user chose; a response event names the request it answers. *)
Inductive Event :=
  | ClickRange (startDate endDate : string)
  | ChangeStartDate (v : string)
  | ChangeEndDate (v : string)
  | ClickRefresh
  | ClickExport
  | ClickCloseExport
  | ClickExportOption (format : string)
  | ClickToggleTable
  | ChangeStarsChartType (v : string)
  | ChangeFollowersChartType (v : string)
  | SnapshotsArrive (id : nat) (r : LoadResponse)
  | ExportArrives (id : nat) (r : ExportResponse) (now : Z).

(** The user picks [v] in the input or select [id], then its change
    listener runs; nothing happens while the element is not on the page. *)
Definition on_change (id v : string) (listener : M unit) (st : State) : State :=
  match document st !! id with
  | Some _ => exec (set_prop (Some id) (set_value v);; listener) st
  | None => st
  end.

(** The listeners of [setupEventListeners], and the continuations of the two
    requests. *)
Definition step (ev : Event) (st : State) : State :=
  match ev with
  | ClickRange startDate endDate =>
      exec (setDefaultDateRange startDate endDate;; loadAnalyticsData) st
  | ChangeStartDate v => on_change "start-date" v loadAnalyticsData st
  | ChangeEndDate v => on_change "end-date" v loadAnalyticsData st
  | ClickRefresh => exec loadAnalyticsData st
  | ClickExport => exec showExportModal st
  | ClickCloseExport => exec hideExportModal st
  | ClickExportOption format => exec (exportData format) st
  | ClickToggleTable => exec toggleTable st
  | ChangeStarsChartType v =>
      on_change "stars-chart-type" v (updateChartType "stars" v) st
  | ChangeFollowersChartType v =>
      on_change "followers-chart-type" v (updateChartType "followers" v) st
  | SnapshotsArrive id r =>
      match inflight st !! id with
      | Some (FetchSnapshots _ _ _) =>
          exec (loadAnalyticsData_resume r)
            (set_inflight (delete id (inflight st)) (nextFetch st) st)
      | _ => st
      end
  | ExportArrives id r now =>
      match inflight st !! id with
      | Some (FetchExport format _ _ _) =>
          exec (exportData_resume format r now)
            (set_inflight (delete id (inflight st)) (nextFetch st) st)
      | _ => st
      end
  end.

(** The state after the events of [evs], in order. *)
Definition run (evs : list Event) (st : State) : State :=
  foldl (fun s ev => step ev s) st evs.

End Script.

(** ** A concrete page and runtime

    The page as the dashboard markup lays it out (every element the script
    looks up is present, the metric cards sit inside the metrics grid), and a
    runtime whose formatters are simple enough to compute with. *)

Module Sample.

Definition toLocaleString (x : float) : string :=
  match Prim2SF x with
  | S754_finite neg m e =>
      (if neg then "-" else "")
      ++ Number.digits (if (0 <=? e)%Z then Z.pos m * 2 ^ e else Z.pos m / 2 ^ (- e))
  | S754_zero _ => "0"
  | _ => "NaN"
  end.

Definition toLocaleDateString (s : string) : string := s.
Definition numberToString (x : float) : string := "1e+21".
Definition toUpperCase (s : string) : string := s.

Definition grid_ids : list string :=
  [ "metric-stars"; "metric-followers"; "metric-repos"; "metric-commits";
    "metric-stars-change"; "metric-followers-change"; "metric-repos-change";
    "metric-commits-change" ].

Definition language_card_ids : list string := [].

Definition blank : Element :=
  {| textContent := ""; className := ""; value := ""; display := "";
     innerHTML := None; children := [] |}.

Definition page : gmap string Element :=
  list_to_map
    ([ ("metrics-grid", blank); ("table-body", blank); ("table-container", blank);
       ("export-modal", blank);
       ("start-date", set_value "2024-01-01" blank);
       ("end-date", set_value "2024-01-31" blank);
       ("stars-chart-type", set_value "line" blank);
       ("followers-chart-type", set_value "line" blank);
       ("stars-chart", blank); ("followers-chart", blank); ("repos-chart", blank);
       ("commits-chart", blank); ("language-chart", blank);
       ("contribution-chart", blank) ]
     ++ map (fun id => (id, blank)) grid_ids).

(** The dashboard of a signed-in user before the first load. *)
Definition init : State :=
  {| currentUser := Some "octocat"; analyticsData := []; charts := ∅;
     authToken := Some "token"; document := page; languageCard := None;
     chartLog := []; alerts := []; downloads := []; inflight := ∅;
     nextFetch := 0 |}.

Definition snapshot (date : string) (n : Z) : Snapshot :=
  {| snapshot_date := date;
     stars := Number.of_Z n; followers := Number.of_Z (2 * n);
     following := Number.of_Z (3 * n); public_repos := Number.of_Z n;
     total_commits := Number.of_Z (4 * n);
     contribution_count := None;
     language_stats := Some [("JavaScript", 70%float); ("CSS", 30%float)] |}.

Definition step :=
  step toLocaleString toLocaleDateString numberToString toUpperCase grid_ids
    language_card_ids.
Definition run :=
  run toLocaleString toLocaleDateString numberToString toUpperCase grid_ids
    language_card_ids.

(** A snapshot that carries no language statistics. *)
Definition no_languages : Snapshot :=
  {| snapshot_date := "2024-03-01"; stars := 1; followers := 1; following := 1;
     public_repos := 1; total_commits := 1; contribution_count := Some 2%float;
     language_stats := None |}.

(** Two snapshots of January. *)
Definition january : list Snapshot :=
  [snapshot "2024-01-01" 10; snapshot "2024-01-31" 25].

(** January and one snapshot of February. *)
Definition january_february : list Snapshot :=
  january ++ [snapshot "2024-02-29" 40].

(** The dashboard after the first load has drawn January. *)
Definition loaded : State :=
  run [ClickRefresh; SnapshotsArrive 0 (LoadResponded true (JsonObject (Some january)))]
    init.

(** Two overlapping loads: a refresh for January (request 0), then the end
    date moved to the end of February (request 1), neither answered yet. *)
Definition two_loads : State :=
  run [ClickRefresh; ChangeEndDate "2024-02-29"] init.

(** One export requested from the loaded dashboard (request 1). *)
Definition exporting : State := step (ClickExportOption "csv") loaded.

End Sample.

(** * Notions used in the statements *)

(** The four tracked metrics: the name the ids of a metric card are built
    from, the field of a snapshot it reads, and the ids of its value and of
    its change indicator. *)
Inductive Metric := Stars | Followers | Repos | Commits.

Definition metric_name (m : Metric) : string :=
  match m with
  | Stars => "stars"
  | Followers => "followers"
  | Repos => "repos"
  | Commits => "commits"
  end.

Definition metric_of (m : Metric) : Snapshot -> float :=
  match m with
  | Stars => stars
  | Followers => followers
  | Repos => public_repos
  | Commits => total_commits
  end.

Definition value_id (m : Metric) : string := "metric-" ++ metric_name m.
Definition change_id (m : Metric) : string := "metric-" ++ metric_name m ++ "-change".

(** The page has the value element and the change indicator of every metric
    card. *)
Definition metric_cards_present (st : State) : Prop :=
  forall m,
    is_Some (document st !! value_id m) /\ is_Some (document st !! change_id m).

(** [n] tenths is the decimal with one digit closest to [m * 2^e], the larger
    one when two are as close: [n - 1/2 <= 10 * m * 2^e < n + 1/2]. *)
Definition nearest_tenths (m : positive) (e n : Z) : Prop :=
  if (0 <=? e)%Z then n = (10 * Z.pos m * 2 ^ e)%Z
  else (2 ^ (- e) * (2 * n - 1) <= 20 * Z.pos m < 2 ^ (- e) * (2 * n + 1))%Z.

(** The six chart views: the key of a view in the chart registry, its canvas
    and the function that renders it. *)
Inductive View :=
  | StarsView
  | FollowersView
  | ReposView
  | CommitsView
  | LanguageView
  | ContributionView.

Definition view_key (v : View) : string :=
  match v with
  | StarsView => "stars"
  | FollowersView => "followers"
  | ReposView => "repos"
  | CommitsView => "commits"
  | LanguageView => "language"
  | ContributionView => "contribution"
  end.

Definition view_canvas (v : View) : string := view_key v ++ "-chart".

Definition render (toLocaleDateString : string -> string)
    (language_card_ids : list string) (v : View) : M unit :=
  match v with
  | StarsView => renderStarsChart toLocaleDateString
  | FollowersView => renderFollowersChart toLocaleDateString
  | ReposView => renderReposChart toLocaleDateString
  | CommitsView => renderCommitsChart toLocaleDateString
  | LanguageView => renderLanguageChart language_card_ids
  | ContributionView => renderContributionChart toLocaleDateString
  end.

(** The series of a chart configuration, without its display attributes: the
    labels and the values of each dataset. *)
Definition series_of (cfg : ChartConfig) : list string * list (list float) :=
  (chart_labels cfg, map ds_data (chart_datasets cfg)).

(** The series drawn so far, each with its canvas. *)
Definition drawn_series (log : list ChartEvent)
    : list (string * (list string * list (list float))) :=
  omap (fun ev =>
          match ev with
          | Created _ canvas cfg => Some (canvas, series_of cfg)
          | Destroyed _ => None
          end) log.

(** What [if (charts.name) charts.name.destroy()] adds to the chart log. *)
Definition destroyed_previous (st : State) (name : string) : list ChartEvent :=
  match charts st !! name with
  | Some c => [Destroyed c]
  | None => []
  end.

(** What [updateMetrics] writes on the page for one metric. *)
Definition write_value (toLocaleString : float -> string) (latest : Snapshot)
    (m : Metric) (d : gmap string Element) : gmap string Element :=
  alter (set_textContent (toLocaleString (metric_of m latest))) (value_id m) d.

Definition write_change (toLocaleString numberToString : float -> string)
    (first latest : Snapshot) (m : Metric) (d : gmap string Element)
    : gmap string Element :=
  alter
    (set_textContent
       (change_text toLocaleString numberToString (metric_of m first) (metric_of m latest)))
    (change_id m)
    (alter
       (set_className
          ("metric-change "
           ++ className_of (change (metric_of m first) (metric_of m latest))))
       (change_id m) d).

(** A response that is not a success: [fetch] rejected, or [response.ok] is
    false. *)
Definition export_ok (r : ExportResponse) : bool :=
  match r with
  | ExportRejected => false
  | ExportResponded ok _ => ok
  end.

Definition load_ok (r : LoadResponse) : bool :=
  match r with
  | LoadRejected => false
  | LoadResponded ok _ => ok
  end.

(** [keeps f m]: running [m] never changes the component [f] of the state,
    whether [m] returns or throws. *)
Definition keeps {A B} (f : State -> B) (m : M A) : Prop :=
  forall st, f (m st).2 = f st.

(** A component of the state that no rendering touches: it does not depend on
    the page, the chart registry, the chart log or the alerts. *)
Record unrendered {B} (f : State -> B) : Prop := {
  unrendered_document : forall d st, f (set_document d st) = f st;
  unrendered_languageCard : forall h st, f (set_languageCard h st) = f st;
  unrendered_charts : forall c st, f (set_charts c st) = f st;
  unrendered_chartLog : forall l st, f (set_chartLog l st) = f st;
  unrendered_alerts : forall l st, f (set_alerts l st) = f st;
}.

(** * Notions used for the rest of the script *)

(** A chart object is live on a canvas when it was created there and has not
    been destroyed since. *)
Definition live (log : list ChartEvent) (c : nat) (canvas : string) : Prop :=
  (exists cfg, Created c canvas cfg ∈ log) /\ Destroyed c ∉ log.

(** Every live chart is the one the registry holds for the view of its
    canvas. *)
Definition registry_covers (cs : gmap string nat) (log : list ChartEvent) : Prop :=
  forall c canvas, live log c canvas ->
    exists v, canvas = view_canvas v /\ cs !! view_key v = Some c.

(** No chart was created on a canvas that had a live chart at that moment. *)
Definition created_on_free_canvas (log : list ChartEvent) : Prop :=
  forall i c canvas cfg, log !! i = Some (Created c canvas cfg) ->
    forall c0, ~ live (take i log) c0 canvas.

Definition charts_well_kept (st : State) : Prop :=
  registry_covers (charts st) (chartLog st) /\ created_on_free_canvas (chartLog st).

(** Every dataset of a chart has one value for each label. *)
Definition aligned (cfg : ChartConfig) : Prop :=
  Forall (fun ds => length (ds_data ds) = length (chart_labels cfg)) (chart_datasets cfg).

Definition all_aligned (log : list ChartEvent) : Prop :=
  forall c canvas cfg, Created c canvas cfg ∈ log -> aligned cfg.

(** What one render of a view can do to the registry and to the chart log:
    nothing, release the registered chart, or release it and register the
    chart it creates on the canvas of the view. *)
Inductive rendered (v : View) (st st' : State) : Prop :=
  | rendered_nothing :
      charts st' = charts st -> chartLog st' = chartLog st -> rendered v st st'
  | rendered_release :
      charts st' = charts st ->
      chartLog st' = (chartLog st ++ destroyed_previous st (view_key v))%list ->
      rendered v st st'
  | rendered_replace c' cfg :
      charts st' = <[view_key v := c']> (charts st) ->
      chartLog st'
      = (chartLog st ++ destroyed_previous st (view_key v)
         ++ [Created c' (view_canvas v) cfg])%list ->
      rendered v st st'.

(** [preserves I m]: [m] keeps the invariant [I], whether it returns or
    throws. *)
Definition preserves {A} (I : State -> Prop) (m : M A) : Prop :=
  forall st, I st -> I (m st).2.

(** The series each view draws from a sequence: the dates of the snapshots
    with one value sequence for each metric of the view, and for the language
    view the keys and the values of the language object of the last
    snapshot. *)
Definition view_series (toLocaleDateString : string -> string) (v : View)
    (data : list Snapshot) : list string * list (list float) :=
  match v with
  | StarsView => (date_labels toLocaleDateString data, [map stars data])
  | FollowersView =>
      (date_labels toLocaleDateString data, [map followers data; map following data])
  | ReposView => (date_labels toLocaleDateString data, [map public_repos data])
  | CommitsView => (date_labels toLocaleDateString data, [map total_commits data])
  | LanguageView =>
      let languageStats :=
        or_empty_object (default None (language_stats <$> last data)) in
      (Object_keys languageStats, [Object_values languageStats])
  | ContributionView =>
      (date_labels toLocaleDateString data,
       [map (fun d => or_zero (contribution_count d)) data])
  end.

(** The metric of a view that draws one value sequence over the dates. *)
Definition single_metric (v : View) : option (Snapshot -> float) :=
  match v with
  | StarsView => Some stars
  | ReposView => Some public_repos
  | CommitsView => Some total_commits
  | ContributionView => Some (fun d => or_zero (contribution_count d))
  | FollowersView | LanguageView => None
  end.

(** The views in the order [renderCharts] draws them. *)
Definition views_in_order : list View :=
  [StarsView; FollowersView; ReposView; CommitsView; LanguageView; ContributionView].

(** The page has what a render of [v] looks up: its canvas, and for the stars
    and followers views the select of the display type. *)
Definition can_render (v : View) (st : State) : Prop :=
  is_Some (document st !! view_canvas v)
  /\ match v with
     | StarsView | FollowersView => is_Some (document st !! (view_canvas v ++ "-type"))
     | _ => True
     end.

(** [st'] differs from [st] in the chart registry and the chart log only. *)
Definition same_but_charts (st st' : State) : Prop :=
  currentUser st' = currentUser st
  /\ analyticsData st' = analyticsData st
  /\ authToken st' = authToken st
  /\ document st' = document st
  /\ languageCard st' = languageCard st
  /\ alerts st' = alerts st
  /\ downloads st' = downloads st
  /\ inflight st' = inflight st
  /\ nextFetch st' = nextFetch st.

(** The element after [rows] were appended to it one by one. *)
Definition rows_appended (rows : list (list string)) (e : Element) : Element :=
  foldl (fun e row => appendChild row e) e rows.

(** The table body after [updateTable]: emptied, then filled with [rows]. *)
Definition table_filled (rows : list (list string)) (e : Element) : Element :=
  rows_appended rows (set_innerHTML EmptyMarkup e).

(** The page has everything a load that brings snapshots looks up: the metric
    cards, what each of the six renders needs, and the table body. *)
Definition page_complete (st : State) : Prop :=
  metric_cards_present st
  /\ (forall v, can_render v st)
  /\ is_Some (document st !! "table-body").

(** The last snapshot of [data] names at least one language. *)
Definition has_languages (data : list Snapshot) : Prop :=
  Object_keys (or_empty_object (default None (language_stats <$> last data))) <> [].

(** No request for snapshots is waiting for its response. *)
Definition no_snapshots_request (st : State) : Prop :=
  forall id s e a, inflight st !! id <> Some (FetchSnapshots s e a).

(** Signed out, with no request for snapshots on its way, holding [data]. *)
Definition signed_out_idle (data : list Snapshot) (st : State) : Prop :=
  currentUser st = None /\ no_snapshots_request st /\ analyticsData st = data.

(** The events whose listener is [loadAnalyticsData]. *)
Definition asks_for_snapshots (ev : Event) : bool :=
  match ev with
  | ClickRange _ _ | ChangeStartDate _ | ChangeEndDate _ | ClickRefresh => true
  | _ => false
  end.

(** What the input [id] shows. *)
Definition input_value (id : string) (st : State) : option string :=
  value <$> document st !! id.

(** The three messages of the script: the two failures, and the success of
    an export with the format in upper case. *)
Definition script_alert (toUpperCase : string -> string) (message : string) : Prop :=
  message = "Failed to load analytics data. Please try again."
  \/ message = "Failed to export data. Please try again."
  \/ exists format, message = "Data exported successfully as " ++ toUpperCase format.

(** [alerts_only P m]: whatever [m] alerts satisfies [P], and it removes no
    alert. *)
Definition alerts_only {A} (P : string -> Prop) (m : M A) : Prop :=
  forall st, exists l, alerts (m st).2 = (alerts st ++ l)%list /\ Forall P l.

(** * Starting the page

    What runs before the listeners exist: the authentication check with its
    warning, the registration of the listeners and the first load. The check
    is cut at its [await fetch] like the two other requests. *)

Definition set_currentUser (u : option string) (st : State) : State :=
  {| currentUser := u; analyticsData := analyticsData st; charts := charts st;
     authToken := authToken st; document := document st;
     languageCard := languageCard st; chartLog := chartLog st; alerts := alerts st;
     downloads := downloads st; inflight := inflight st; nextFetch := nextFetch st |}.

(** The body of a profile response as [response.json()] gives it; [None] is a
    value that counts as false, such as [null]. *)
Inductive ProfileJson :=
  | ProfileInvalid
  | ProfileValue (user : option string).

Inductive ProfileResponse :=
  | ProfileRejected
  | ProfileResponded (ok : bool) (body : ProfileJson).

(** The listeners of the page, by the statement of [setupEventListeners] that
    registers them. *)
Inductive Listener :=
  | OnRangeClick
  | OnStartDateChange
  | OnEndDateChange
  | OnRefreshClick
  | OnExportClick
  | OnCloseExportClick
  | OnExportOptionClick
  | OnToggleTableClick
  | OnStarsTypeChange
  | OnFollowersTypeChange.

(** The statements of [setupEventListeners] in order: the element a listener
    is added to, looked up by id, or [None] for the listeners that
    [querySelectorAll(...).forEach] adds to every matching element. *)
Definition registrations : list (option string * Listener) :=
  [ (None, OnRangeClick);
    (Some "start-date", OnStartDateChange);
    (Some "end-date", OnEndDateChange);
    (Some "refresh-data-btn", OnRefreshClick);
    (Some "export-data-btn", OnExportClick);
    (Some "close-export-modal", OnCloseExportClick);
    (None, OnExportOptionClick);
    (Some "toggle-table-btn", OnToggleTableClick);
    (Some "stars-chart-type", OnStarsTypeChange);
    (Some "followers-chart-type", OnFollowersTypeChange) ].

(** Running the registrations [rs] on the page [d]: the listeners added, and
    how the run ends. [getElementById(id).addEventListener] raises a
    [TypeError] on a missing element; what was added before stays. *)
Fixpoint register (d : gmap string Element) (rs : list (option string * Listener))
    : list Listener * Res unit :=
  match rs with
  | [] => ([], Ok tt)
  | (target, l) :: rs' =>
      match target with
      | Some id =>
          match d !! id with
          | Some _ => let '(ls, r) := register d rs' in (l :: ls, r)
          | None => ([], Throw TypeError)
          end
      | None => let '(ls, r) := register d rs' in (l :: ls, r)
      end
  end.

Definition setupEventListeners (d : gmap string Element) : list Listener * Res unit :=
  register d registrations.

(** [!token]: no stored token, or an empty one. *)
Definition no_token (token : option string) : bool :=
  match token with
  | None => true
  | Some t => String.eqb t ""
  end.

(** How the [DOMContentLoaded] handler ends: the listeners it registered,
    whether it returned, and the state it leaves. *)
Record Started := {
  registered : list Listener;
  outcome : Res unit;
  started_state : State;
}.

Section Startup.

(** The markup of the page: the keys under which [document] holds the first
    element of class [charts-grid], [table-card] and [date-range-card]. *)
Variable charts_grid table_card date_range_card : string.

(** [document.querySelector(selector)] for one of these three classes: the
    element, or [null]. *)
Definition querySelector (key : string) : M (option string) := getElementById key.

Definition showAuthWarning : M unit :=
  warning ← getElementById "auth-warning";
  (match warning with
   | Some _ => set_prop warning (set_display "flex")
   | None => mret tt
   end);;
  (el ← getElementById "metrics-grid"; set_prop el (set_display "none"));;
  (el ← querySelector charts_grid; set_prop el (set_display "none"));;
  (el ← querySelector table_card; set_prop el (set_display "none"));;
  (el ← querySelector date_range_card; set_prop el (set_display "none")).

Definition hideAuthWarning : M unit :=
  warning ← getElementById "auth-warning";
  match warning with
  | Some _ => set_prop warning (set_display "none")
  | None => mret tt
  end.

(** [checkAuthentication()] up to its [await fetch]: [Some a] when the
    profile request has left with the [Authorization] header [a], [None]
    when the function has returned. *)
Definition checkAuthentication : M (option string) :=
  try_catch
    (token ← gets authToken;
     if no_token token then showAuthWarning;; mret None
     else mret (Some (bearer token)))
    (fun error => showAuthWarning;; mret None).

(** [checkAuthentication()] from the response on. *)
Definition checkAuthentication_resume (r : ProfileResponse) : M unit :=
  try_catch
    (match r with
     | ProfileRejected => throw TypeError
     | ProfileResponded ok body =>
         if ok then
           match body with
           | ProfileInvalid => throw SyntaxError
           | ProfileValue user => modify (set_currentUser user);; hideAuthWarning
           end
         else showAuthWarning
     end)
    (fun error => showAuthWarning).

(** The [DOMContentLoaded] handler after [await checkAuthentication()];
    [startDate] and [endDate] are the dates [setDefaultDateRange(30)]
    computes. *)
Definition after_authentication (startDate endDate : string) (st : State) : Started :=
  let '(ls, r) := setupEventListeners (document st) in
  match r with
  | Throw e => {| registered := ls; outcome := Throw e; started_state := st |}
  | Ok _ =>
      let '(r', st') :=
        (setDefaultDateRange startDate endDate;;
         user ← gets currentUser;
         match user with
         | Some _ => loadAnalyticsData
         | None => mret tt
         end) st in
      {| registered := ls; outcome := r'; started_state := st' |}
  end.

(** The [DOMContentLoaded] handler up to the response of the profile request:
    it has ended, or it waits for the response of the request it sent with
    the given [Authorization] header. No listener exists while it waits. *)
Definition DOMContentLoaded (startDate endDate : string) (st : State)
    : Started + string * State :=
  match checkAuthentication st with
  | (Throw e, st1) => inl {| registered := []; outcome := Throw e; started_state := st1 |}
  | (Ok None, st1) => inl (after_authentication startDate endDate st1)
  | (Ok (Some a), st1) => inr (a, st1)
  end.

(** The handler from the response of the profile request on. *)
Definition DOMContentLoaded_resume (r : ProfileResponse) (startDate endDate : string)
    (st : State) : Started :=
  match checkAuthentication_resume r st with
  | (Throw e, st1) => {| registered := []; outcome := Throw e; started_state := st1 |}
  | (Ok _, st1) => after_authentication startDate endDate st1
  end.

(** The page has the four sections that [showAuthWarning] hides. *)
Definition content_present (st : State) : Prop :=
  is_Some (document st !! "metrics-grid")
  /\ is_Some (document st !! charts_grid)
  /\ is_Some (document st !! table_card)
  /\ is_Some (document st !! date_range_card).

(** The page after [showAuthWarning]: the warning shown if there is one, the
    four sections hidden. *)
Definition content_hidden (d : gmap string Element) : gmap string Element :=
  alter (set_display "none") date_range_card
    (alter (set_display "none") table_card
       (alter (set_display "none") charts_grid
          (alter (set_display "none") "metrics-grid"
             (alter (set_display "flex") "auth-warning" d)))).

End Startup.

(** A run of statements [getElementById(k).style.display = 'none'], one for
    each key of [ks]: the page it leaves and how it ends. *)
Fixpoint hide_each (ks : list string) (d : gmap string Element)
    : gmap string Element * Res unit :=
  match ks with
  | [] => (d, Ok tt)
  | k :: ks' =>
      match d !! k with
      | Some _ => hide_each ks' (alter (set_display "none") k d)
      | None => (d, Throw TypeError)
      end
  end.

(** The ids [setupEventListeners] looks up, and the listeners it registers
    when it returns. *)
Definition listener_ids : list string := omap fst registrations.
Definition all_listeners : list Listener := map snd registrations.

(** The page has every element that [setupEventListeners] looks up. *)
Definition controls_present (st : State) : Prop :=
  Forall (fun id => is_Some (document st !! id)) listener_ids.

(** The page after [setDefaultDateRange(startDate, endDate)]. *)
Definition dates_set (startDate endDate : string) (d : gmap string Element)
    : gmap string Element :=
  alter (set_value endDate) "end-date" (alter (set_value startDate) "start-date" d).

(** A profile response that makes the check show the warning: [fetch]
    rejected, a status that is not a success, or a body that is not JSON. *)
Definition profile_failed (r : ProfileResponse) : bool :=
  match r with
  | ProfileRejected => true
  | ProfileResponded ok body =>
      negb ok || match body with ProfileInvalid => true | ProfileValue _ => false end
  end.

(** ** More states of the sample page *)

Module Scene.

(** The sample dashboard while nobody is signed in. *)
Definition signed_out : State :=
  {| currentUser := None; analyticsData := []; charts := ∅;
     authToken := None; document := Sample.page; languageCard := None;
     chartLog := []; alerts := []; downloads := []; inflight := ∅;
     nextFetch := 0 |}.

(** The sample dashboard after a load that brought an empty sequence. *)
Definition emptied : State :=
  Sample.run
    [ClickRefresh; SnapshotsArrive 0 (LoadResponded true (JsonObject (Some [])))]
    Sample.init.

(** The sample dashboard after a load that brought one snapshot. *)
Definition one_snapshot : State :=
  Sample.run
    [ClickRefresh;
     SnapshotsArrive 0
       (LoadResponded true (JsonObject (Some [Sample.snapshot "2024-01-01" 10])))]
    Sample.init.

(** A load of January, then the stars chart switched to bars. *)
Definition stars_as_bars : list Event :=
  [ClickRefresh;
   SnapshotsArrive 0 (LoadResponded true (JsonObject (Some Sample.january)));
   ChangeStarsChartType "bar"].

(** The sample page with the warning, the three sections found by class and
    the buttons. *)
Definition full_page : gmap string Element :=
  list_to_map
    (map (fun id => (id, Sample.blank))
       [ "auth-warning"; "charts-grid"; "table-card"; "date-range-card";
         "refresh-data-btn"; "export-data-btn"; "close-export-modal";
         "toggle-table-btn" ])
  ∪ Sample.page.

(** The script as it is loaded on the full page, with and without a stored
    token: no user, nothing held, nothing drawn. *)
Definition fresh (token : option string) : State :=
  {| currentUser := None; analyticsData := []; charts := ∅;
     authToken := token; document := full_page; languageCard := None;
     chartLog := []; alerts := []; downloads := []; inflight := ∅;
     nextFetch := 0 |}.

Definition DOMContentLoaded := DOMContentLoaded "charts-grid" "table-card" "date-range-card".
Definition DOMContentLoaded_resume :=
  DOMContentLoaded_resume "charts-grid" "table-card" "date-range-card".

End Scene.

(** * Frame reasoning *)

Section Keeps.
Context {B : Type} (f : State -> B).

Lemma keeps_ret {A} (a : A) : keeps f (mret a).
Proof. intros st. reflexivity. Qed.

Lemma keeps_throw {A} e : keeps f (@throw A e).
Proof. intros st. reflexivity. Qed.

Lemma keeps_gets {A} (g : State -> A) : keeps f (gets g).
Proof. intros st. reflexivity. Qed.

Lemma keeps_modify (g : State -> State) :
  (forall st, f (g st) = f st) -> keeps f (modify g).
Proof. intros H st. apply H. Qed.

Lemma keeps_bind {A C} (m : M A) (k : A -> M C) :
  keeps f m -> (forall a, keeps f (k a)) -> keeps f (m ≫= k).
Proof.
  intros Hm Hk st. unfold mbind, M_bind. specialize (Hm st).
  destruct (m st) as [[a|e] st1]; cbn in *; [|exact Hm].
  rewrite Hk. exact Hm.
Qed.

Lemma keeps_try_catch {A} (m : M A) (h : Exn -> M A) :
  keeps f m -> (forall e, keeps f (h e)) -> keeps f (try_catch m h).
Proof.
  intros Hm Hh st. unfold try_catch. specialize (Hm st).
  destruct (m st) as [[a|e] st1]; cbn in *; [exact Hm|].
  rewrite Hh. exact Hm.
Qed.

Lemma keeps_forEach {A} (xs : list A) (g : A -> M unit) :
  (forall x, keeps f (g x)) -> keeps f (forEach xs g).
Proof.
  intros Hg. induction xs as [|x xs IH]; cbn [forEach].
  - apply keeps_ret.
  - apply keeps_bind; [apply Hg | intros _; exact IH].
Qed.

End Keeps.

Lemma unrendered_analyticsData : unrendered analyticsData.
Proof. split; reflexivity. Qed.

Lemma unrendered_inflight : unrendered inflight.
Proof. split; reflexivity. Qed.

(** Splits a [keeps] goal along the structure of the program; a write is
    discharged from the [unrendered] hypothesis in the context. *)
Ltac keeps_write H :=
  intros ?; cbv beta;
  repeat first
    [ rewrite (unrendered_document _ H) | rewrite (unrendered_languageCard _ H)
    | rewrite (unrendered_charts _ H) | rewrite (unrendered_chartLog _ H)
    | rewrite (unrendered_alerts _ H) ];
  reflexivity.

Ltac keeps_step H :=
  lazymatch goal with
  | |- keeps _ (mret _) => apply keeps_ret
  | |- keeps _ (throw _) => apply keeps_throw
  | |- keeps _ (gets _) => apply keeps_gets
  | |- keeps _ (modify _) => apply keeps_modify; keeps_write H
  | |- keeps _ (mbind _ _) => apply keeps_bind; [|intros ?]
  | |- keeps _ (try_catch _ _) => apply keeps_try_catch; [|intros ?]
  | |- keeps _ (forEach _ _) => apply keeps_forEach; intros ?
  | |- keeps _ (match ?x with _ => _ end) => destruct x
  end.

Ltac keeps_auto H :=
  repeat (repeat keeps_step H;
          unfold getElementById, get_prop, set_prop, assign_innerHTML, field, alert,
            showError, showSuccess, getContext, destroy_previous, new_Chart).

(** * Properties *)

(** Runs the monadic primitives of a goal as far as the state is known. *)
Ltac mrun :=
  cbv beta iota zeta delta
    [mbind M_bind mret M_ret gets modify throw try_catch field getElementById
     get_prop set_prop assign_innerHTML alert showError showSuccess exec getContext
     new_Chart fetch];
  cbn [fst snd currentUser analyticsData charts authToken document languageCard
       chartLog alerts downloads inflight nextFetch set_analyticsData set_charts
       set_document set_languageCard set_chartLog set_alerts set_downloads
       set_inflight].

Section Properties.

Context (toLocaleString : float -> string) (toLocaleDateString : string -> string)
  (numberToString : float -> string) (toUpperCase : string -> string)
  (grid_ids language_card_ids : list string).

Abbreviation step :=
  (step toLocaleString toLocaleDateString numberToString toUpperCase grid_ids
     language_card_ids).
Abbreviation run :=
  (run toLocaleString toLocaleDateString numberToString toUpperCase grid_ids
     language_card_ids).
Abbreviation write_value := (write_value toLocaleString).
Abbreviation write_change := (write_change toLocaleString numberToString).

(** ** What rendering leaves alone *)

Lemma keeps_updateMetrics {B} (f : State -> B) :
  unrendered f -> keeps f (updateMetrics toLocaleString numberToString).
Proof. intros H. unfold updateMetrics, updateMetricChange. keeps_auto H. Qed.

Lemma keeps_renderCharts {B} (f : State -> B) :
  unrendered f -> keeps f (renderCharts toLocaleDateString language_card_ids).
Proof.
  intros H.
  unfold renderCharts, renderStarsChart, renderFollowersChart, renderReposChart,
    renderCommitsChart, renderLanguageChart, renderContributionChart.
  keeps_auto H.
Qed.

Lemma keeps_updateTable {B} (f : State -> B) :
  unrendered f -> keeps f (updateTable toLocaleString toLocaleDateString).
Proof. intros H. unfold updateTable. keeps_auto H. Qed.

Lemma keeps_showEmptyState {B} (f : State -> B) :
  unrendered f -> keeps f (showEmptyState grid_ids).
Proof. intros H. unfold showEmptyState. keeps_auto H. Qed.

Lemma keeps_loadAnalyticsData_resume {B} (f : State -> B) (r : LoadResponse) :
  unrendered f -> (forall d st, f (set_analyticsData d st) = f st) ->
  keeps f
    (loadAnalyticsData_resume toLocaleString toLocaleDateString numberToString
       grid_ids language_card_ids r).
Proof.
  intros H Hd. unfold loadAnalyticsData_resume.
  apply keeps_try_catch; [|intros e; keeps_auto H].
  destruct r as [|[] [| |snapshots]]; cbn [negb]; try solve [keeps_auto H].
  apply keeps_bind; [apply keeps_modify; intros st; apply Hd|intros _].
  apply keeps_bind; [apply keeps_gets|intros data].
  destruct (length data =? 0)%nat.
  - apply keeps_showEmptyState, H.
  - apply keeps_bind; [apply keeps_updateMetrics, H|intros _].
    apply keeps_bind; [apply keeps_renderCharts, H|intros _].
    apply keeps_updateTable, H.
Qed.

(** ** Loading *)

(** After a successful response the held sequence is the one it carried,
    whatever the rendering that follows does. *)
Lemma loaded_sequence_is_held (st : State) (snapshots : option (list Snapshot)) :
  analyticsData
    (exec
       (loadAnalyticsData_resume toLocaleString toLocaleDateString numberToString
          grid_ids language_card_ids (LoadResponded true (JsonObject snapshots)))
       st)
  = default [] snapshots.
Proof.
  unfold exec, loadAnalyticsData_resume. cbn [negb].
  set (rest := gets analyticsData ≫= _).
  set (handler := fun _ : Exn => showError _).
  change (analyticsData
            (try_catch rest handler (set_analyticsData (default [] snapshots) st)).2
          = default [] snapshots).
  assert (Hk : keeps analyticsData (try_catch rest handler)).
  { apply keeps_try_catch; [|intros e; unfold handler; keeps_auto unrendered_analyticsData].
    unfold rest. apply keeps_bind; [apply keeps_gets|intros data].
    destruct (length data =? 0)%nat.
    - apply keeps_showEmptyState, unrendered_analyticsData.
    - apply keeps_bind; [apply keeps_updateMetrics, unrendered_analyticsData|intros _].
      apply keeps_bind; [apply keeps_renderCharts, unrendered_analyticsData|intros _].
      apply keeps_updateTable, unrendered_analyticsData. }
  rewrite Hk. reflexivity.
Qed.

(** C9: when a snapshot load fails (the request is rejected, or its response
    is not ok), the held sequence is what it was, and so are the page and the
    charts; the user is shown the error message. *)
Theorem load_failure_keeps_sequence (st : State) (id : nat)
    (startDate endDate authorization : string) (r : LoadResponse) :
  inflight st !! id = Some (FetchSnapshots startDate endDate authorization) ->
  load_ok r = false ->
  let st' := step (SnapshotsArrive id r) st in
  analyticsData st' = analyticsData st
  /\ alerts st' = (alerts st ++ ["Failed to load analytics data. Please try again."])%list
  /\ document st' = document st
  /\ languageCard st' = languageCard st
  /\ charts st' = charts st
  /\ chartLog st' = chartLog st.
Proof.
  intros Hreq Hfail. cbn [step]. rewrite Hreq.
  destruct r as [|ok body]; cbn in Hfail; subst; cbn; repeat split; reflexivity.
Qed.

(** ** The empty result *)

(** The state a load with no snapshot leaves: the held sequence is empty and
    the metrics grid shows the empty state. *)
Lemma empty_load_state (st : State) (id : nat) (s e a : string)
    (snapshots : option (list Snapshot)) (grid : Element) :
  inflight st !! id = Some (FetchSnapshots s e a) ->
  default [] snapshots = [] ->
  document st !! "metrics-grid" = Some grid ->
  step (SnapshotsArrive id (LoadResponded true (JsonObject snapshots))) st
  = set_document
      (alter (set_innerHTML NoAnalyticsDataMarkup) "metrics-grid"
         (foldr delete (document st) grid_ids))
      (set_analyticsData []
         (set_inflight (delete id (inflight st)) (nextFetch st) st)).
Proof.
  intros Hreq Hemp Hgrid. cbn [step]. rewrite Hreq.
  unfold loadAnalyticsData_resume, showEmptyState. cbn [negb]. mrun.
  rewrite Hemp. cbn [length Nat.eqb]. mrun. rewrite Hgrid. reflexivity.
Qed.

(** C6: a load that returns no snapshot is not an error and renders the empty
    state: the metrics grid gets the empty-state markup, no alert is raised,
    no chart is destroyed or created and the chart registry is untouched, and
    no element of the page other than the grid is written (every element
    still on the page is as it was). On the emptied sequence the aggregator
    itself returns at once, without an error and without a write. *)
Theorem empty_load_renders_empty_state (st : State) (id : nat) (s e a : string)
    (snapshots : option (list Snapshot)) (grid : Element) :
  inflight st !! id = Some (FetchSnapshots s e a) ->
  default [] snapshots = [] ->
  document st !! "metrics-grid" = Some grid ->
  "metrics-grid" ∉ grid_ids ->
  let st' := step (SnapshotsArrive id (LoadResponded true (JsonObject snapshots))) st in
  document st' !! "metrics-grid" = Some (set_innerHTML NoAnalyticsDataMarkup grid)
  /\ alerts st' = alerts st
  /\ chartLog st' = chartLog st
  /\ charts st' = charts st
  /\ languageCard st' = languageCard st
  /\ (forall i el, i <> "metrics-grid" ->
        document st' !! i = Some el -> document st !! i = Some el)
  /\ updateMetrics toLocaleString numberToString st' = (Ok tt, st').
Proof.
  intros Hreq Hemp Hgrid Hout st'. unfold st'.
  rewrite (empty_load_state st id s e a snapshots grid Hreq Hemp Hgrid).
  split; [|split; [|split; [|split; [|split; [|split]]]]];
    try reflexivity;
    cbn [document set_document alerts chartLog charts languageCard set_analyticsData
         set_inflight].
  - rewrite lookup_alter_eq, lookup_foldr_delete_not_elem_of, Hgrid by exact Hout.
    reflexivity.
  - intros i el Hi. rewrite lookup_alter_ne by congruence.
    rewrite lookup_foldr_delete_Some. intros [_ H]. exact H.
Qed.

(** C10: a load that succeeds with zero snapshots replaces the held sequence
    by the empty one and rewrites the metrics grid only: the chart registry
    and the chart log are unchanged (no chart is destroyed or drawn again),
    and every element outside the grid, the rows of the data table among
    them, is as the previous load left it. *)
Theorem empty_load_leaves_charts_and_table (st : State) (id : nat) (s e a : string)
    (snapshots : option (list Snapshot)) (grid : Element) :
  inflight st !! id = Some (FetchSnapshots s e a) ->
  default [] snapshots = [] ->
  document st !! "metrics-grid" = Some grid ->
  let st' := step (SnapshotsArrive id (LoadResponded true (JsonObject snapshots))) st in
  analyticsData st' = []
  /\ document st' !! "metrics-grid"
     = (if decide ("metrics-grid" ∈ grid_ids) then None
        else Some (set_innerHTML NoAnalyticsDataMarkup grid))
  /\ charts st' = charts st
  /\ chartLog st' = chartLog st
  /\ languageCard st' = languageCard st
  /\ (forall i, i <> "metrics-grid" -> i ∉ grid_ids ->
        document st' !! i = document st !! i)
  /\ ("table-body" ∉ grid_ids ->
        children <$> document st' !! "table-body"
        = children <$> document st !! "table-body").
Proof.
  intros Hreq Hemp Hgrid st'. unfold st'.
  rewrite (empty_load_state st id s e a snapshots grid Hreq Hemp Hgrid).
  cbn [document set_document analyticsData alerts chartLog charts languageCard
       set_analyticsData set_inflight].
  assert (Hframe : forall i, i <> "metrics-grid" -> i ∉ grid_ids ->
    alter (set_innerHTML NoAnalyticsDataMarkup) "metrics-grid"
      (foldr delete (document st) grid_ids) !! i = document st !! i).
  { intros i Hi Hni. rewrite lookup_alter_ne by congruence.
    apply lookup_foldr_delete_not_elem_of, Hni. }
  repeat split.
  - rewrite lookup_alter_eq. case_decide as Hin.
    + rewrite lookup_foldr_delete by exact Hin. reflexivity.
    + rewrite lookup_foldr_delete_not_elem_of, Hgrid by exact Hin. reflexivity.
  - exact Hframe.
  - intros Hni. rewrite Hframe; [reflexivity|discriminate|exact Hni].
Qed.

(** ** Metric cards *)

Lemma updateMetricChange_run (metric : string) (o n : float) (st : State) (e : Element) :
  document st !! ("metric-" ++ metric ++ "-change") = Some e ->
  updateMetricChange toLocaleString numberToString metric o n st =
  (Ok tt, set_document
     (alter (set_textContent (change_text toLocaleString numberToString o n))
        ("metric-" ++ metric ++ "-change")
        (alter (set_className ("metric-change " ++ className_of (change o n)))
           ("metric-" ++ metric ++ "-change") (document st))) st).
Proof. intros H. unfold updateMetricChange. mrun. rewrite H. reflexivity. Qed.

(** On a non-empty sequence and a page that has the eight elements of the
    metric cards, [updateMetrics] returns, and the page it leaves is known. *)
Lemma updateMetrics_run (st : State) (first latest : Snapshot) :
  head (analyticsData st) = Some first ->
  last (analyticsData st) = Some latest ->
  metric_cards_present st ->
  updateMetrics toLocaleString numberToString st =
  (Ok tt, set_document
     (write_change first latest Commits (write_change first latest Repos
       (write_change first latest Followers (write_change first latest Stars
       (write_value latest Commits (write_value latest Repos
       (write_value latest Followers (write_value latest Stars (document st)))))))))
     st).
Proof.
  intros Hf Hl Hel.
  rewrite head_lookup in Hf. rewrite last_lookup, <- Nat.sub_1_r in Hl.
  assert (Hn : (length (analyticsData st) =? 0)%nat = false).
  { destruct (analyticsData st); [done|reflexivity]. }
  destruct (Hel Stars) as [[v1 Hv1] [c1 Hc1]], (Hel Followers) as [[v2 Hv2] [c2 Hc2]],
    (Hel Repos) as [[v3 Hv3] [c3 Hc3]], (Hel Commits) as [[v4 Hv4] [c4 Hc4]].
  vm_compute value_id in Hv1, Hv2, Hv3, Hv4.
  vm_compute change_id in Hc1, Hc2, Hc3, Hc4.
  unfold updateMetrics. mrun. rewrite Hn, Hl, Hf.
  repeat (mrun; rewrite ?lookup_alter_ne by done; rewrite ?Hv1, ?Hv2, ?Hv3, ?Hv4).
  erewrite (updateMetricChange_run "stars")
    by (cbn [document set_document]; rewrite ?lookup_alter_ne by done; exact Hc1).
  mrun.
  erewrite (updateMetricChange_run "followers")
    by (cbn [document set_document]; rewrite ?lookup_alter_ne by done; exact Hc2).
  mrun.
  erewrite (updateMetricChange_run "repos")
    by (cbn [document set_document]; rewrite ?lookup_alter_ne by done; exact Hc3).
  mrun.
  erewrite (updateMetricChange_run "commits")
    by (cbn [document set_document]; rewrite ?lookup_alter_ne by done; exact Hc4).
  reflexivity.
Qed.

(** Replaces the ids of the metric cards by their literals. *)
Ltac literal_ids :=
  repeat match goal with
  | |- context [value_id ?m] =>
      let s := eval vm_compute in (value_id m) in change (value_id m) with s
  | |- context [change_id ?m] =>
      let s := eval vm_compute in (change_id m) in change (change_id m) with s
  end.

Lemma updateMetrics_value (st : State) (first latest : Snapshot) (m : Metric) :
  is_Some (document st !! value_id m) ->
  textContent <$>
    write_change first latest Commits (write_change first latest Repos
      (write_change first latest Followers (write_change first latest Stars
      (write_value latest Commits (write_value latest Repos
      (write_value latest Followers (write_value latest Stars (document st))))))))
    !! value_id m
  = Some (toLocaleString (metric_of m latest)).
Proof.
  intros [v Hv]. unfold write_change, write_value.
  destruct m; literal_ids; vm_compute value_id in Hv;
    rewrite ?lookup_alter_ne by done; rewrite lookup_alter_eq;
    rewrite ?lookup_alter_ne by done; rewrite Hv; reflexivity.
Qed.

Lemma updateMetrics_change (st : State) (first latest : Snapshot) (m : Metric) :
  is_Some (document st !! change_id m) ->
  let d :=
    write_change first latest Commits (write_change first latest Repos
      (write_change first latest Followers (write_change first latest Stars
      (write_value latest Commits (write_value latest Repos
      (write_value latest Followers (write_value latest Stars (document st)))))))) in
  className <$> d !! change_id m
  = Some ("metric-change "
          ++ className_of (change (metric_of m first) (metric_of m latest)))
  /\ textContent <$> d !! change_id m
     = Some (change_text toLocaleString numberToString
               (metric_of m first) (metric_of m latest)).
Proof.
  intros [c Hc]. unfold write_change, write_value.
  destruct m; literal_ids; vm_compute change_id in Hc;
    rewrite ?lookup_alter_ne by done; rewrite !lookup_alter_eq;
    rewrite ?lookup_alter_ne by done; rewrite Hc; split; reflexivity.
Qed.

(** C3: on a non-empty sequence, for each tracked metric, the aggregator
    takes the current value from the last snapshot, the baseline from the
    first and their difference as the delta: the value element shows the
    current value, and the change indicator gets the direction, the size and
    the percent of [current - baseline]. *)
Theorem updateMetrics_first_and_last (st : State) (first latest : Snapshot) (m : Metric) :
  head (analyticsData st) = Some first ->
  last (analyticsData st) = Some latest ->
  metric_cards_present st ->
  let current := metric_of m latest in
  let baseline := metric_of m first in
  let delta := (current - baseline)%float in
  exists st',
    updateMetrics toLocaleString numberToString st = (Ok tt, st')
    /\ textContent <$> document st' !! value_id m = Some (toLocaleString current)
    /\ className <$> document st' !! change_id m
       = Some ("metric-change "
               ++ (if PrimFloat.ltb 0 delta then "positive"
                   else if PrimFloat.ltb delta 0 then "negative" else "neutral"))
    /\ textContent <$> document st' !! change_id m
       = Some ((if PrimFloat.ltb 0 delta then "↑"
                else if PrimFloat.ltb delta 0 then "↓" else "→")
               ++ " " ++ toLocaleString (PrimFloat.abs delta)
               ++ " (" ++ percent_text (percentChange numberToString baseline current)
               ++ "%)").
Proof.
  intros Hf Hl Hel current baseline delta.
  eexists. split; [apply (updateMetrics_run st first latest Hf Hl Hel)|].
  cbn [document set_document].
  split; [exact (updateMetrics_value st first latest m (proj1 (Hel m)))|].
  exact (updateMetrics_change st first latest m (proj2 (Hel m))).
Qed.

(** ** The percent of a change *)

Lemma string_app_assoc (s t u : string) : (s ++ t) ++ u = s ++ (t ++ u).
Proof.
  induction s as [|c s IH]; [reflexivity|].
  change (String c ((s ++ t) ++ u) = String c (s ++ (t ++ u))).
  f_equal. exact IH.
Qed.

Lemma tenths_nearest (m : positive) (e : Z) : nearest_tenths m e (Number.tenths m e).
Proof.
  unfold nearest_tenths, Number.tenths. destruct (0 <=? e)%Z eqn:He; [reflexivity|].
  apply Z.leb_gt in He.
  assert (Hp : (0 < 2 ^ (- e))%Z) by (apply Z.pow_pos_nonneg; lia).
  replace (- e + 1)%Z with (Z.succ (- e)) by lia. rewrite Z.pow_succ_r by lia.
  set (P := (2 ^ (- e))%Z) in *. set (a := (20 * Z.pos m + P)%Z).
  pose proof (Z.mul_div_le a (2 * P) ltac:(lia)) as Hlo.
  pose proof (Z.mul_succ_div_gt a (2 * P) ltac:(lia)) as Hhi.
  set (n := (a / (2 * P))%Z) in *. unfold a in *. split; nia.
Qed.

Lemma toFixed1_finite (x : float) (neg : bool) (m : positive) (e : Z) :
  Prim2SF x = S754_finite neg m e ->
  PrimFloat.leb 1e21%float (PrimFloat.abs x) = false ->
  Number.toFixed1 numberToString x = Number.fixed1 neg (Number.tenths m e).
Proof. intros Hx Hbig. unfold Number.toFixed1. rewrite Hx, Hbig. reflexivity. Qed.

(** A number equal to zero ([0] or [-0]) is not greater than zero. *)
Lemma zero_not_positive (x : float) :
  PrimFloat.eqb x 0%float = true -> PrimFloat.ltb 0%float x = false.
Proof.
  rewrite FloatAxioms.eqb_spec, FloatAxioms.ltb_spec. change (Prim2SF 0%float) with (S754_zero false).
  destruct (Prim2SF x) as [[]|[]| |[] m e]; cbn; congruence.
Qed.

(** C2, as the code has it: for each tracked metric of a non-empty sequence,
    when the baseline is greater than zero the percent of the change
    indicator is the string [toFixed(1)] makes of the double
    [(delta / baseline) * 100]. For a finite ratio below 1e21 in magnitude
    this is the magnitude of the ratio rounded to the nearest tenth, a tie
    going to the larger magnitude, with the sign of the ratio in front; it is
    [0.0] for a ratio that is zero, what [Number::toString] gives from 1e21
    on, and [Infinity], [-Infinity] or [NaN] when the ratio is. When the
    baseline equals zero the percent is the number [0], whatever the current
    value; and that percent is what the change indicator shows between its
    parentheses. *)
Theorem percent_change_rounded_or_zero (st : State) (first latest : Snapshot)
    (m : Metric) :
  head (analyticsData st) = Some first ->
  last (analyticsData st) = Some latest ->
  metric_cards_present st ->
  let current := metric_of m latest in
  let baseline := metric_of m first in
  let delta := (current - baseline)%float in
  let ratio := (delta / baseline * 100)%float in
  (PrimFloat.ltb 0 baseline = true ->
     percentChange numberToString baseline current
     = PercentFixed (Number.toFixed1 numberToString ratio)
     /\ match Prim2SF ratio with
        | S754_finite neg mant e =>
            if PrimFloat.leb 1e21%float (PrimFloat.abs ratio)
            then Number.toFixed1 numberToString ratio = numberToString ratio
            else exists n, Number.toFixed1 numberToString ratio = Number.fixed1 neg n
                           /\ nearest_tenths mant e n
        | S754_zero _ => Number.toFixed1 numberToString ratio = "0.0"
        | S754_infinity neg =>
            Number.toFixed1 numberToString ratio
            = if neg then "-Infinity" else "Infinity"
        | S754_nan => Number.toFixed1 numberToString ratio = "NaN"
        end)
  /\ (PrimFloat.eqb baseline 0 = true ->
      percentChange numberToString baseline current = PercentZero)
  /\ exists st' shown,
       updateMetrics toLocaleString numberToString st = (Ok tt, st')
       /\ textContent <$> document st' !! change_id m
          = Some (shown ++ " ("
                  ++ percent_text (percentChange numberToString baseline current)
                  ++ "%)").
Proof.
  intros Hf Hl Hel current baseline delta ratio. split; [|split].
  - intros Hpos. unfold percentChange. rewrite Hpos. split; [reflexivity|].
    destruct (Prim2SF ratio) as [s|[]| |neg mant e] eqn:Hx.
    + unfold Number.toFixed1. rewrite Hx. reflexivity.
    + unfold Number.toFixed1. rewrite Hx. reflexivity.
    + unfold Number.toFixed1. rewrite Hx. reflexivity.
    + unfold Number.toFixed1. rewrite Hx. reflexivity.
    + destruct (PrimFloat.leb 1e21%float (PrimFloat.abs ratio)) eqn:Hbig.
      * unfold Number.toFixed1. rewrite Hx, Hbig. reflexivity.
      * exists (Number.tenths mant e).
        split; [exact (toFixed1_finite _ _ _ _ Hx Hbig)|apply tenths_nearest].
  - intros Hzero. unfold percentChange.
    rewrite (zero_not_positive _ Hzero). reflexivity.
  - eexists.
    exists (symbol_of (change baseline current) ++ " "
            ++ toLocaleString (PrimFloat.abs (change baseline current))).
    split; [exact (updateMetrics_run st first latest Hf Hl Hel)|].
    cbn [document set_document].
    rewrite (proj2 (updateMetrics_change st first latest m (proj2 (Hel m)))).
    unfold change_text. rewrite !string_app_assoc. reflexivity.
Qed.

(** ** Charts *)

Lemma lookup_map {A C} (g : A -> C) (l : list A) (i : nat) :
  map g l !! i = g <$> l !! i.
Proof.
  revert i. induction l as [|x l IH]; intros [|i]; try reflexivity. apply IH.
Qed.

Lemma zip_keys_values (o : list (string * float)) :
  zip (Object_keys o) (Object_values o) = o.
Proof.
  unfold Object_keys, Object_values.
  induction o as [|[k v] o IH]; [reflexivity|]. cbn. rewrite IH. reflexivity.
Qed.

Lemma destroy_previous_run (st : State) (name : string) :
  destroy_previous name st
  = (Ok tt, set_chartLog (chartLog st ++ destroyed_previous st name) st).
Proof.
  unfold destroy_previous, destroyed_previous. mrun.
  destruct (charts st !! name); [reflexivity|]. mrun.
  rewrite app_nil_r. destruct st; reflexivity.
Qed.

(** C5: the followers chart gets one label sequence and two value sequences,
    Followers and Following, each as long as the snapshot sequence, and at
    every index the label, the followers value and the following value are
    those of the snapshot at that index. *)
Theorem followers_series_aligned (st : State) (canvas select : Element) :
  document st !! "followers-chart" = Some canvas ->
  document st !! "followers-chart-type" = Some select ->
  exists st' c cfg fds gds,
    renderFollowersChart toLocaleDateString st = (Ok tt, st')
    /\ last (chartLog st') = Some (Created c "followers-chart" cfg)
    /\ charts st' !! "followers" = Some c
    /\ chart_datasets cfg = [fds; gds]
    /\ ds_label fds = Some "Followers"
    /\ ds_label gds = Some "Following"
    /\ length (chart_labels cfg) = length (analyticsData st)
    /\ length (ds_data fds) = length (analyticsData st)
    /\ length (ds_data gds) = length (analyticsData st)
    /\ forall i d, analyticsData st !! i = Some d ->
         chart_labels cfg !! i = Some (toLocaleDateString (snapshot_date d))
         /\ ds_data fds !! i = Some (followers d)
         /\ ds_data gds !! i = Some (following d).
Proof.
  intros Hcanvas Hselect. unfold renderFollowersChart.
  mrun. rewrite Hcanvas. mrun. rewrite Hselect. mrun. rewrite Hselect. mrun.
  rewrite destroy_previous_run. mrun.
  do 5 eexists. split; [reflexivity|]. cbn [chartLog charts set_charts set_chartLog].
  split; [apply last_snoc|]. split; [apply lookup_insert_eq|].
  cbn [chart_datasets chart_labels ds_label ds_data].
  repeat (split; [first [reflexivity | unfold date_labels; apply length_map]|]).
  intros i d Hd. unfold date_labels. cbn [ds_data]. rewrite !lookup_map, Hd.
  repeat split.
Qed.

(** While its canvas is on the page, the language chart is built from the
    last snapshot only. With [languageStats] its [language_stats] object, or
    the empty object when it has none: if [languageStats] has no key, the
    function returns without an exception and without an alert, puts the No
    Language Data markup in place of the canvas, which leaves the page, and
    creates no chart; otherwise it creates one doughnut chart whose labels
    and values, paired in order, are the entries of [languageStats]. *)
Lemma renderLanguageChart_on_canvas (st : State) (latest : Snapshot)
    (canvas : Element) :
  last (analyticsData st) = Some latest ->
  document st !! "language-chart" = Some canvas ->
  let languageStats := or_empty_object (language_stats latest) in
  exists st',
    renderLanguageChart language_card_ids st = (Ok tt, st')
    /\ alerts st' = alerts st
    /\ match languageStats with
       | [] =>
           languageCard st' = Some NoLanguageDataMarkup
           /\ chartLog st' = (chartLog st ++ destroyed_previous st "language")%list
           /\ charts st' = charts st
           /\ document st' !! "language-chart" = None
       | _ :: _ =>
           exists c cfg ds,
             chartLog st'
             = (chartLog st ++ destroyed_previous st "language"
                ++ [Created c "language-chart" cfg])%list
             /\ charts st' !! "language" = Some c
             /\ chart_type cfg = "doughnut"
             /\ chart_datasets cfg = [ds]
             /\ zip (chart_labels cfg) (ds_data ds) = languageStats
             /\ languageCard st' = languageCard st
       end.
Proof.
  intros Hl Hcanvas languageStats.
  rewrite last_lookup, <- Nat.sub_1_r in Hl.
  unfold renderLanguageChart. mrun. rewrite Hcanvas. mrun.
  rewrite destroy_previous_run. mrun. rewrite Hl. mrun.
  fold languageStats. destruct languageStats as [|kv rest] eqn:Hstats.
  - cbn [Object_keys map length Nat.eqb]. mrun.
    eexists. split; [reflexivity|]. repeat split.
    cbn [document set_document set_languageCard foldr]. apply lookup_delete_eq.
  - cbn [Object_keys map length Nat.eqb]. mrun.
    eexists. split; [reflexivity|]. split; [reflexivity|].
    do 3 eexists. cbn [chartLog charts set_charts set_chartLog languageCard].
    split; [symmetry; apply app_assoc|]. split; [apply lookup_insert_eq|].
    cbn [chart_type chart_datasets chart_labels ds_data].
    repeat split. apply (zip_keys_values (kv :: rest)).
Qed.

(** Once the canvas has left the page, every render of the language chart
    raises a [TypeError] before it reads the sequence. *)
Lemma renderLanguageChart_without_canvas (st : State) :
  document st !! "language-chart" = None ->
  renderLanguageChart language_card_ids st = (Throw TypeError, st).
Proof. intros H. unfold renderLanguageChart. mrun. rewrite H. reflexivity. Qed.

(** So the empty state of the language chart can be shown once only: on a
    page that has the canvas and a sequence whose last snapshot has no
    language, the first render shows it, and the render after it throws. *)
Lemma renderLanguageChart_twice (st : State) (latest : Snapshot) (canvas : Element) :
  last (analyticsData st) = Some latest ->
  document st !! "language-chart" = Some canvas ->
  or_empty_object (language_stats latest) = [] ->
  exists st',
    renderLanguageChart language_card_ids st = (Ok tt, st')
    /\ languageCard st' = Some NoLanguageDataMarkup
    /\ renderLanguageChart language_card_ids st' = (Throw TypeError, st').
Proof.
  intros Hl Hcanvas Hempty.
  destruct (renderLanguageChart_on_canvas st latest canvas Hl Hcanvas)
    as (st' & Hrun & _ & H).
  rewrite Hempty in H. destruct H as (Hcard & _ & _ & Hgone).
  exists st'. split; [exact Hrun|]. split; [exact Hcard|].
  apply renderLanguageChart_without_canvas, Hgone.
Qed.

(** A change of display type is the selection of the value followed by a
    re-render of the view. *)
Lemma change_stars_type_is_render (st : State) (t : string) (el : Element) :
  document st !! "stars-chart-type" = Some el ->
  step (ChangeStarsChartType t) st
  = (render toLocaleDateString language_card_ids StarsView
       (set_document (alter (set_value t) "stars-chart-type" (document st)) st)).2.
Proof. intros H. cbn [step]. unfold on_change. rewrite H. reflexivity. Qed.

Lemma change_followers_type_is_render (st : State) (t : string) (el : Element) :
  document st !! "followers-chart-type" = Some el ->
  step (ChangeFollowersChartType t) st
  = (render toLocaleDateString language_card_ids FollowersView
       (set_document (alter (set_value t) "followers-chart-type" (document st)) st)).2.
Proof. intros H. cbn [step]. unfold on_change. rewrite H. reflexivity. Qed.

Lemma change_stars_type_series (st : State) (t : string) :
  analyticsData (step (ChangeStarsChartType t) st) = analyticsData st
  /\ drawn_series (chartLog (step (ChangeStarsChartType t) st))
     = (drawn_series (chartLog st)
        ++ match document st !! "stars-chart-type", document st !! "stars-chart" with
           | Some _, Some _ =>
               [("stars-chart",
                 (date_labels toLocaleDateString (analyticsData st),
                  [map stars (analyticsData st)]))]
           | _, _ => []
           end)%list.
Proof.
  cbn [step]. unfold on_change.
  destruct (document st !! "stars-chart-type") as [sel|] eqn:Hsel;
    [|split; [reflexivity|symmetry; apply app_nil_r]].
  unfold updateChartType. change ("stars" =? "stars")%string with true. cbv iota.
  unfold renderStarsChart. mrun. rewrite lookup_alter_ne by done.
  destruct (document st !! "stars-chart") as [canvas|];
    [|mrun; split; [reflexivity|symmetry; apply app_nil_r]].
  repeat (mrun; rewrite ?lookup_alter_eq, ?Hsel; cbn [fmap option_fmap option_map]).
  rewrite destroy_previous_run. mrun. split; [reflexivity|].
  unfold drawn_series, destroyed_previous. rewrite !omap_app. cbn [charts set_document].
  destruct (charts st !! "stars"); cbn; rewrite ?app_nil_r; reflexivity.
Qed.

Lemma change_followers_type_series (st : State) (t : string) :
  analyticsData (step (ChangeFollowersChartType t) st) = analyticsData st
  /\ drawn_series (chartLog (step (ChangeFollowersChartType t) st))
     = (drawn_series (chartLog st)
        ++ match document st !! "followers-chart-type",
                 document st !! "followers-chart" with
           | Some _, Some _ =>
               [("followers-chart",
                 (date_labels toLocaleDateString (analyticsData st),
                  [map followers (analyticsData st);
                   map following (analyticsData st)]))]
           | _, _ => []
           end)%list.
Proof.
  cbn [step]. unfold on_change.
  destruct (document st !! "followers-chart-type") as [sel|] eqn:Hsel;
    [|split; [reflexivity|symmetry; apply app_nil_r]].
  unfold updateChartType. change ("followers" =? "stars")%string with false.
  change ("followers" =? "followers")%string with true. cbv iota.
  unfold renderFollowersChart. mrun. rewrite lookup_alter_ne by done.
  destruct (document st !! "followers-chart") as [canvas|];
    [|mrun; split; [reflexivity|symmetry; apply app_nil_r]].
  repeat (mrun; rewrite ?lookup_alter_eq, ?Hsel; cbn [fmap option_fmap option_map]).
  rewrite destroy_previous_run. mrun. split; [reflexivity|].
  unfold drawn_series, destroyed_previous. rewrite !omap_app. cbn [charts set_document].
  destruct (charts st !! "followers"); cbn; rewrite ?app_nil_r; reflexivity.
Qed.

(** A render on a page that has what it looks up (and, for the language
    view, on a sequence whose last snapshot names a language) returns: it
    releases the registered chart, then creates the next chart on the canvas
    of the view from the series of the view, and registers it. The stars and
    the followers chart take their type from their select. *)
Lemma render_replaces (v : View) (st : State) :
  can_render v st ->
  (v = LanguageView -> has_languages (analyticsData st)) ->
  let released := (chartLog st ++ destroyed_previous st (view_key v))%list in
  exists cfg,
    render toLocaleDateString language_card_ids v st
    = (Ok tt,
       set_charts (<[view_key v := length released]> (charts st))
         (set_chartLog (released ++ [Created (length released) (view_canvas v) cfg]) st))
    /\ series_of cfg = view_series toLocaleDateString v (analyticsData st)
    /\ (forall sel,
          v = StarsView \/ v = FollowersView ->
          document st !! (view_canvas v ++ "-type") = Some sel ->
          chart_type cfg = value sel).
Proof.
  intros [[canvas Hcanvas] Hsel] Hlang released. subst released.
  destruct v; cbn [render view_key] in *;
    unfold renderStarsChart, renderFollowersChart, renderReposChart,
      renderCommitsChart, renderLanguageChart, renderContributionChart;
    vm_compute view_canvas in Hcanvas;
    mrun; rewrite Hcanvas; mrun;
    try (lazymatch type of Hsel with
         | is_Some _ =>
             destruct Hsel as [sel Hsel]; vm_compute (view_canvas _ ++ _) in Hsel;
             rewrite Hsel; mrun; rewrite Hsel; mrun
         end);
    rewrite destroy_previous_run; mrun.
  1-2: eexists; split; [reflexivity|]; split; [reflexivity|];
    intros sel' _ Hsel'; vm_compute (view_canvas _ ++ _) in Hsel';
    rewrite Hsel in Hsel'; injection Hsel' as <-; reflexivity.
  1-2, 4: eexists; split; [reflexivity|]; split; [reflexivity|];
    intros sel' [Hv|Hv] _; discriminate Hv.
  specialize (Hlang eq_refl). unfold has_languages in Hlang.
  rewrite last_lookup, <- Nat.sub_1_r in Hlang.
  destruct (analyticsData st !! _) as [latest|] eqn:Hlast;
    [|exfalso; apply Hlang; reflexivity].
  cbn [fmap option_fmap option_map default] in Hlang. unfold id in Hlang. mrun.
  destruct (Object_keys (or_empty_object (language_stats latest))) as [|k ks] eqn:Hkeys;
    [exfalso; apply Hlang; reflexivity|].
  cbn [length Nat.eqb]. mrun.
  eexists; split; [reflexivity|]; split; [|intros sel' [Hv|Hv] _; discriminate Hv].
  cbn [view_series series_of chart_labels chart_datasets map ds_data].
  rewrite last_lookup, <- Nat.sub_1_r, Hlast.
  cbn [fmap option_fmap option_map default]. unfold id. rewrite Hkeys. reflexivity.
Qed.

(** A render on a page that lacks its canvas, or the select of the stars or
    followers view, raises before it touches anything. *)
Lemma render_stops (v : View) (st : State) :
  ~ can_render v st ->
  render toLocaleDateString language_card_ids v st = (Throw TypeError, st).
Proof.
  intros Hno.
  destruct v; cbn [render];
    unfold renderStarsChart, renderFollowersChart, renderReposChart,
      renderCommitsChart, renderLanguageChart, renderContributionChart;
    mrun;
    lazymatch goal with
    | |- context [document st !! ?canvas] =>
        destruct (document st !! canvas) as [el|] eqn:Hcanvas; [|mrun; reflexivity]
    end;
    mrun;
    try lazymatch goal with
    | |- context [document st !! ?select] =>
        destruct (document st !! select) as [sel|] eqn:Hselect; [|mrun; reflexivity];
        exfalso; apply Hno; split; [exists el; exact Hcanvas|exists sel; exact Hselect]
    end;
    (exfalso; apply Hno; split; [exists el; exact Hcanvas|exact I]).
Qed.

(** The language view on a page that has its canvas, when the last snapshot
    names no language (or there is no snapshot): the registered chart is
    released and no chart is created. *)
Lemma render_language_releases (st : State) :
  can_render LanguageView st ->
  ~ has_languages (analyticsData st) ->
  let st' := (render toLocaleDateString language_card_ids LanguageView st).2 in
  chartLog st' = (chartLog st ++ destroyed_previous st "language")%list
  /\ charts st' = charts st.
Proof.
  intros [[canvas Hcanvas] _] Hlang. vm_compute view_canvas in Hcanvas.
  unfold has_languages in Hlang. rewrite last_lookup, <- Nat.sub_1_r in Hlang.
  cbn [render]. unfold renderLanguageChart.
  mrun. rewrite Hcanvas. mrun. rewrite destroy_previous_run. mrun.
  destruct (analyticsData st !! _) as [latest|] eqn:Hlast; mrun;
    [|split; reflexivity].
  cbn [fmap option_fmap option_map default] in Hlang. unfold id in Hlang.
  destruct (Object_keys (or_empty_object (language_stats latest))) as [|k ks] eqn:Hkeys;
    [|exfalso; apply Hlang; discriminate].
  cbn [length Nat.eqb]. mrun. split; reflexivity.
Qed.

Lemma can_render_dec (v : View) (st : State) : can_render v st \/ ~ can_render v st.
Proof.
  unfold can_render.
  destruct (document st !! view_canvas v) as [el|];
    [|right; intros [[x Hx] _]; discriminate Hx].
  destruct v; try (left; split; [eexists; reflexivity|exact I]);
    (destruct (document st !! (_ ++ "-type")) as [sel|];
     [left; split; eexists; reflexivity|right; intros [_ [x Hx]]; discriminate Hx]).
Qed.

Lemma has_languages_dec (data : list Snapshot) : has_languages data \/ ~ has_languages data.
Proof.
  unfold has_languages. destruct (Object_keys _); [right; intros H; apply H; reflexivity|].
  left. discriminate.
Qed.

(** C8: a re-render of a view whose chart object [c] is registered. On a
    page that has what the render looks up it destroys [c] and then creates
    the replacement on the canvas of the view, from the series of the held
    sequence, and registers it: these two events, in this order, are all it
    adds to the chart log. It adds nothing when an element it looks up is
    missing, and only the release of [c] when the language view has no
    language to draw: a chart is never created before the previous one is
    destroyed. A change of display type on a page that has the canvas and
    the select is such a re-render of the stars or of the followers view:
    the replacement has the chosen type and the series of the held
    sequence, which the change leaves as it is, so that the series drawn
    are the same whatever type is chosen. *)
Theorem rerender_destroys_previous (v : View) (st : State) (c : nat) (t1 t2 : string) :
  charts st !! view_key v = Some c ->
  (let st' := (render toLocaleDateString language_card_ids v st).2 in
   exists evs,
     chartLog st' = (chartLog st ++ evs)%list
     /\ ((~ can_render v st /\ evs = [] /\ charts st' = charts st)
         \/ (can_render v st /\ v = LanguageView /\ ~ has_languages (analyticsData st)
             /\ evs = [Destroyed c] /\ charts st' = charts st)
         \/ (can_render v st /\ (v = LanguageView -> has_languages (analyticsData st))
             /\ exists c' cfg,
                  evs = [Destroyed c; Created c' (view_canvas v) cfg]
                  /\ charts st' !! view_key v = Some c'
                  /\ series_of cfg
                     = view_series toLocaleDateString v (analyticsData st))))
  /\ (v = StarsView ->
      can_render v st ->
      let st' := step (ChangeStarsChartType t1) st in
      exists c' cfg,
        chartLog st' = (chartLog st ++ [Destroyed c; Created c' "stars-chart" cfg])%list
        /\ charts st' !! "stars" = Some c'
        /\ chart_type cfg = t1
        /\ series_of cfg = view_series toLocaleDateString StarsView (analyticsData st))
  /\ (v = FollowersView ->
      can_render v st ->
      let st' := step (ChangeFollowersChartType t1) st in
      exists c' cfg,
        chartLog st'
        = (chartLog st ++ [Destroyed c; Created c' "followers-chart" cfg])%list
        /\ charts st' !! "followers" = Some c'
        /\ chart_type cfg = t1
        /\ series_of cfg
           = view_series toLocaleDateString FollowersView (analyticsData st))
  /\ analyticsData (step (ChangeStarsChartType t1) st) = analyticsData st
  /\ analyticsData (step (ChangeFollowersChartType t1) st) = analyticsData st
  /\ drawn_series (chartLog (step (ChangeStarsChartType t1) st))
     = drawn_series (chartLog (step (ChangeStarsChartType t2) st))
  /\ drawn_series (chartLog (step (ChangeFollowersChartType t1) st))
     = drawn_series (chartLog (step (ChangeFollowersChartType t2) st)).
Proof.
  intros Hc.
  assert (Hprev : forall st0, charts st0 = charts st ->
            destroyed_previous st0 (view_key v) = [Destroyed c]).
  { intros st0 H0. unfold destroyed_previous. rewrite H0, Hc. reflexivity. }
  assert (Hchange : forall (select : string) (sel : Element),
            document st !! select = Some sel ->
            view_canvas v ++ "-type" = select ->
            v = StarsView \/ v = FollowersView ->
            can_render v st ->
            let st0 := set_document (alter (set_value t1) select (document st)) st in
            exists c' cfg,
              chartLog (render toLocaleDateString language_card_ids v st0).2
              = (chartLog st ++ [Destroyed c; Created c' (view_canvas v) cfg])%list
              /\ charts (render toLocaleDateString language_card_ids v st0).2
                 !! view_key v = Some c'
              /\ chart_type cfg = t1
              /\ series_of cfg = view_series toLocaleDateString v (analyticsData st)).
  { intros select sel Hsel Hkey Hv [Hcanvas Hselect] st0.
    assert (Hpage0 : can_render v st0).
    { split.
      - apply lookup_alter_is_Some. exact Hcanvas.
      - destruct v; try exact I; apply lookup_alter_is_Some; exact Hselect. }
    destruct (render_replaces v st0 Hpage0) as (cfg & Hrun & Hseries & Htype).
    { intros ->. destruct Hv as [Hv|Hv]; discriminate Hv. }
    rewrite Hrun, (Hprev st0 eq_refl).
    cbn [snd chartLog charts set_charts set_chartLog]. eexists _, cfg.
    split; [rewrite <- app_assoc; reflexivity|].
    split; [apply lookup_insert_eq|]. split; [|exact Hseries].
    rewrite (Htype (set_value t1 sel) Hv); [reflexivity|].
    rewrite Hkey. subst st0. cbn [document set_document].
    rewrite lookup_alter_eq, Hsel. reflexivity. }
  split; [|split; [|split]].
  - cbv zeta. destruct (can_render_dec v st) as [Hpage|Hpage].
    + assert (Hl : (v = LanguageView -> has_languages (analyticsData st))
                   \/ (v = LanguageView /\ ~ has_languages (analyticsData st))).
      { destruct (has_languages_dec (analyticsData st)) as [H|H];
          [left; intros _; exact H|].
        destruct v; try (left; intros Hv; discriminate Hv).
        right. split; [reflexivity|exact H]. }
      destruct Hl as [Hlang|[-> Hlang]].
      * destruct (render_replaces v st Hpage Hlang) as (cfg & Hrun & Hseries & _).
        rewrite Hrun, (Hprev st eq_refl).
        cbn [snd chartLog charts set_charts set_chartLog].
        exists [Destroyed c;
                Created (length (chartLog st ++ [Destroyed c])) (view_canvas v) cfg].
        split; [rewrite <- app_assoc; reflexivity|].
        right; right. split; [exact Hpage|]. split; [exact Hlang|].
        eexists _, cfg. split; [reflexivity|]. split; [apply lookup_insert_eq|].
        exact Hseries.
      * destruct (render_language_releases st Hpage Hlang) as [Hlog Hreg].
        exists [Destroyed c]. rewrite Hlog, Hreg.
        change "language" with (view_key LanguageView). rewrite (Hprev st eq_refl).
        split; [reflexivity|]. right; left.
        split; [exact Hpage|]. split; [reflexivity|]. split; [exact Hlang|].
        split; reflexivity.
    + rewrite (render_stops v st Hpage). exists []. cbn [snd].
      split; [symmetry; apply app_nil_r|]. left.
      split; [exact Hpage|split; reflexivity].
  - intros -> Hpage st'. pose proof Hpage as [_ [sel Hsel]].
    vm_compute (view_canvas _ ++ _) in Hsel.
    subst st'. rewrite (change_stars_type_is_render st t1 sel Hsel).
    exact (Hchange "stars-chart-type" sel Hsel eq_refl (or_introl eq_refl) Hpage).
  - intros -> Hpage st'. pose proof Hpage as [_ [sel Hsel]].
    vm_compute (view_canvas _ ++ _) in Hsel.
    subst st'. rewrite (change_followers_type_is_render st t1 sel Hsel).
    exact (Hchange "followers-chart-type" sel Hsel eq_refl (or_intror eq_refl) Hpage).
  - split; [exact (proj1 (change_stars_type_series st t1))|].
    split; [exact (proj1 (change_followers_type_series st t1))|].
    split.
    + rewrite (proj2 (change_stars_type_series st t1)),
        (proj2 (change_stars_type_series st t2)). reflexivity.
    + rewrite (proj2 (change_followers_type_series st t1)),
        (proj2 (change_followers_type_series st t2)). reflexivity.
Qed.

(** ** Export *)

(** C7: when the response to an export request is not a success, the user is
    told that the export failed, and the held snapshot sequence, the page
    (with the date range and the chart type selections), the charts and the
    downloads are what they were; only the answered request leaves the set of
    requests in flight. *)
Theorem export_failure_keeps_state (st : State) (id : nat)
    (format startDate endDate authorization : string) (r : ExportResponse) (now : Z) :
  inflight st !! id = Some (FetchExport format startDate endDate authorization) ->
  export_ok r = false ->
  let st' := step (ExportArrives id r now) st in
  alerts st' = (alerts st ++ ["Failed to export data. Please try again."])%list
  /\ analyticsData st' = analyticsData st
  /\ document st' = document st
  /\ charts st' = charts st
  /\ chartLog st' = chartLog st
  /\ languageCard st' = languageCard st
  /\ downloads st' = downloads st
  /\ currentUser st' = currentUser st
  /\ authToken st' = authToken st
  /\ inflight st' = delete id (inflight st).
Proof.
  intros Hreq Hfail. cbn [step]. rewrite Hreq.
  destruct r as [|ok body]; cbn in Hfail; subst; cbn; repeat split; reflexivity.
Qed.

End Properties.

(** * The end-to-end scenarios, and where the code departs from a claim *)

(** C1, as stated, fails: request 0 asks for January and is issued first,
    request 1 asks for January and February and is issued second; the
    response of request 1 arrives first. The sequence held at the end, and
    the rows of the table, are those of request 0, not of request 1. *)
Lemma overlapping_loads_counterexample :
  let r1 := LoadResponded true (JsonObject (Some Sample.january)) in
  let r2 := LoadResponded true (JsonObject (Some Sample.january_february)) in
  let st := Sample.run [SnapshotsArrive 1 r2; SnapshotsArrive 0 r1] Sample.two_loads in
  (inflight Sample.two_loads !! 0%nat
   = Some (FetchSnapshots "2024-01-01" "2024-01-31" "Bearer token")
   /\ inflight Sample.two_loads !! 1%nat
      = Some (FetchSnapshots "2024-01-01" "2024-02-29" "Bearer token"))
  /\ analyticsData st = Sample.january
  /\ analyticsData st <> Sample.january_february
  /\ (length <$> (children <$> document st !! "table-body")) = Some 2%nat.
Proof.
  cbv zeta. split; [split; vm_compute; reflexivity|].
  split; [vm_compute; reflexivity|]. split; [|vm_compute; reflexivity].
  intros H. apply (f_equal length) in H. vm_compute in H. discriminate H.
Qed.

(** C2, as stated, fails: with baseline 3 and current 4 the percent is the
    string 33.3, that is 333 tenths, which is neither the double
    [(1 / 3) * 100] (4691249611844266 * 2^-47) nor the quotient 100 / 3. *)
Lemma percent_change_counterexample :
  percentChange Sample.numberToString 3 4 = PercentFixed "33.3"
  /\ Number.fixed1 false 333 = "33.3"
  /\ Prim2SF ((4 - 3) / 3 * 100)%float = S754_finite false 4691249611844266 (-47)
  /\ (333 * 2 ^ 47 <> 10 * 4691249611844266)%Z
  /\ (333 * 3 <> 10 * ((4 - 3) * 100))%Z.
Proof. repeat split; try (vm_compute; reflexivity); vm_compute; discriminate. Qed.

(** The rounding is of the magnitude: from 16 to 15 the ratio is -6.25 and
    the percent is -6.3. With a baseline above zero the percent need not be
    finite: a tiny baseline gives [Infinity], an infinite one [NaN]. *)
Example percent_change_edge_scenarios :
  percentChange Sample.numberToString 16 15 = PercentFixed "-6.3"
  /\ Prim2SF ((15 - 16) / 16 * 100)%float = S754_finite true 7036874417766400 (-50)
  /\ nearest_tenths 7036874417766400 (-50) 63
  /\ percentChange Sample.numberToString 0x1p-1000 0x1p1000 = PercentFixed "Infinity"
  /\ percentChange Sample.numberToString infinity 1 = PercentFixed "NaN".
Proof.
  repeat split; try (vm_compute; reflexivity); vm_compute; intros H; discriminate H.
Qed.

(** The sample page keeps its metric cards through a load that has data. *)
Lemma loaded_metric_cards : metric_cards_present Sample.loaded.
Proof. intros []; split; vm_compute; eexists; reflexivity. Defined.

(** The scenario of the specification: stars 10 then 25 gives current 25,
    delta 15, 150.0 percent, direction positive. *)
Lemma updateMetrics_first_and_last_witness :
  exists st',
    updateMetrics Sample.toLocaleString Sample.numberToString Sample.loaded = (Ok tt, st')
    /\ textContent <$> document st' !! "metric-stars" = Some "25"
    /\ className <$> document st' !! "metric-stars-change" = Some "metric-change positive"
    /\ textContent <$> document st' !! "metric-stars-change" = Some "↑ 15 (150.0%)".
Proof.
  exact (updateMetrics_first_and_last Sample.toLocaleString Sample.numberToString
           Sample.loaded (Sample.snapshot "2024-01-01" 10) (Sample.snapshot "2024-01-31" 25)
           Stars ltac:(vm_compute; reflexivity) ltac:(vm_compute; reflexivity)
           loaded_metric_cards).
Defined.

(** The same scenario, for the percent alone. *)
Lemma percent_change_rounded_or_zero_witness :
  percentChange Sample.numberToString 10 25 = PercentFixed "150.0"
  /\ exists st' shown,
       updateMetrics Sample.toLocaleString Sample.numberToString Sample.loaded
       = (Ok tt, st')
       /\ textContent <$> document st' !! "metric-stars-change"
          = Some (shown ++ " (150.0%)").
Proof.
  destruct (percent_change_rounded_or_zero Sample.toLocaleString Sample.numberToString
              Sample.loaded (Sample.snapshot "2024-01-01" 10)
              (Sample.snapshot "2024-01-31" 25) Stars
              ltac:(vm_compute; reflexivity) ltac:(vm_compute; reflexivity)
              loaded_metric_cards) as (Hpos & _ & Hshown).
  exact (conj (proj1 (Hpos eq_refl)) Hshown).
Defined.

(** The scenario of the specification: stars 0 then 5 gives 0 percent, not
    infinity and not NaN, direction positive. *)
Example zero_baseline_scenario :
  percentChange Sample.numberToString 0 5 = PercentZero
  /\ change_text Sample.toLocaleString Sample.numberToString 0 5 = "↑ 5 (0%)"
  /\ className_of (change 0 5) = "positive".
Proof. repeat split; vm_compute; reflexivity. Qed.

(** On a page whose metric cards sit inside the metrics grid, the empty state
    removes them: the load after an empty one raises a [TypeError] in
    [updateMetrics], holds the new sequence and draws nothing of it. Whether
    the cards sit there is a fact of the page markup. *)
Example empty_state_removes_sample_metric_cards :
  let empty := LoadResponded true (JsonObject (Some [])) in
  let data := LoadResponded true (JsonObject (Some Sample.january)) in
  let st :=
    Sample.run [ClickRefresh; SnapshotsArrive 0 empty; ClickRefresh; SnapshotsArrive 1 data]
      Sample.init in
  document st !! "metric-stars" = None
  /\ analyticsData st = Sample.january
  /\ alerts st = ["Failed to load analytics data. Please try again."]
  /\ chartLog st = [].
Proof. repeat split; vm_compute; reflexivity. Qed.

(** C4: the empty state of the language chart, shown once, breaks the next
    load. The first load ends on a snapshot without language statistics: the
    No Language Data markup replaces the canvas, without an alert. The second
    load ends on such a snapshot too: the render of the language chart
    raises a [TypeError] on the missing canvas, the load reports the general
    error, and the contribution chart and the table (still one row) are not
    drawn again. The claim asks for the empty-language signal whenever the
    mapping is empty. *)
Theorem language_empty_state_breaks_next_load :
  let empty := LoadResponded true (JsonObject (Some [Sample.no_languages])) in
  let again :=
    LoadResponded true (JsonObject (Some [Sample.no_languages; Sample.no_languages])) in
  let first := Sample.run [ClickRefresh; SnapshotsArrive 0 empty] Sample.init in
  let second := Sample.run [ClickRefresh; SnapshotsArrive 1 again] first in
  (languageCard first = Some NoLanguageDataMarkup
   /\ alerts first = []
   /\ document first !! "language-chart" = None)
  /\ renderLanguageChart Sample.language_card_ids
       (set_analyticsData [Sample.no_languages; Sample.no_languages] first)
     = (Throw TypeError,
        set_analyticsData [Sample.no_languages; Sample.no_languages] first)
  /\ alerts second = ["Failed to load analytics data. Please try again."]
  /\ length (analyticsData second) = 2%nat
  /\ length <$> (children <$> document second !! "table-body") = Some 1%nat
  /\ map fst (drawn_series (chartLog second))
     = [ "stars-chart"; "followers-chart"; "repos-chart"; "commits-chart";
         "contribution-chart";
         "stars-chart"; "followers-chart"; "repos-chart"; "commits-chart" ].
Proof.
  cbv zeta. split; [repeat split; vm_compute; reflexivity|].
  split; [apply renderLanguageChart_without_canvas; vm_compute; reflexivity|].
  repeat split; vm_compute; reflexivity.
Qed.

(** The language chart of a last snapshot that has languages. *)
Example language_chart_scenario :
  exists st' c cfg ds,
    renderLanguageChart Sample.language_card_ids Sample.loaded = (Ok tt, st')
    /\ last (chartLog st') = Some (Created c "language-chart" cfg)
    /\ chart_datasets cfg = [ds]
    /\ chart_labels cfg = ["JavaScript"; "CSS"]
    /\ ds_data ds = [70%float; 30%float].
Proof. do 4 eexists. vm_compute. repeat split. Qed.

(** The followers chart of January: the second label, followers value and
    following value are those of the second snapshot. *)
Lemma followers_series_aligned_witness :
  exists st' c cfg fds gds,
    renderFollowersChart Sample.toLocaleDateString Sample.loaded = (Ok tt, st')
    /\ last (chartLog st') = Some (Created c "followers-chart" cfg)
    /\ chart_datasets cfg = [fds; gds]
    /\ chart_labels cfg !! 1%nat = Some "2024-01-31"
    /\ ds_data fds !! 1%nat = Some 50%float
    /\ ds_data gds !! 1%nat = Some 75%float.
Proof.
  destruct (followers_series_aligned Sample.toLocaleDateString Sample.loaded
              Sample.blank (set_value "line" Sample.blank)
              ltac:(vm_compute; reflexivity) ltac:(vm_compute; reflexivity))
    as (st' & c & cfg & fds & gds & Hrun & Hlast & _ & Hds & _ & _ & _ & _ & _ & Hall).
  exists st', c, cfg, fds, gds.
  exact (conj Hrun (conj Hlast (conj Hds
           (Hall 1%nat (Sample.snapshot "2024-01-31" 25) eq_refl)))).
Defined.

(** The scenario of the specification: an empty sequence for a valid range. *)
Lemma empty_load_renders_empty_state_witness :
  let st := Sample.step ClickRefresh Sample.loaded in
  let st' := Sample.step (SnapshotsArrive 1 (LoadResponded true (JsonObject (Some [])))) st in
  document st' !! "metrics-grid"
  = Some (set_innerHTML NoAnalyticsDataMarkup Sample.blank)
  /\ alerts st' = alerts st
  /\ chartLog st' = chartLog st
  /\ charts st' = charts st.
Proof.
  destruct (empty_load_renders_empty_state Sample.toLocaleString
              Sample.toLocaleDateString Sample.numberToString Sample.toUpperCase
              Sample.grid_ids Sample.language_card_ids
              (Sample.step ClickRefresh Sample.loaded) 1
              "2024-01-01" "2024-01-31" "Bearer token" (Some []) Sample.blank
              ltac:(vm_compute; reflexivity) eq_refl ltac:(vm_compute; reflexivity)
              ltac:(apply (bool_decide_unpack _); vm_compute; exact I))
    as (Hgrid & Halerts & Hlog & Hcharts & _).
  exact (conj Hgrid (conj Halerts (conj Hlog Hcharts))).
Defined.

(** The same, for a response that has no snapshots array at all. *)
Lemma empty_load_leaves_charts_and_table_witness :
  let st := Sample.step ClickRefresh Sample.loaded in
  let st' := Sample.step (SnapshotsArrive 1 (LoadResponded true (JsonObject None))) st in
  analyticsData st' = []
  /\ charts st' = charts st
  /\ chartLog st' = chartLog st
  /\ children <$> document st' !! "table-body" = children <$> document st !! "table-body".
Proof.
  destruct (empty_load_leaves_charts_and_table Sample.toLocaleString
              Sample.toLocaleDateString Sample.numberToString Sample.toUpperCase
              Sample.grid_ids Sample.language_card_ids
              (Sample.step ClickRefresh Sample.loaded) 1
              "2024-01-01" "2024-01-31" "Bearer token" None Sample.blank
              ltac:(vm_compute; reflexivity) eq_refl ltac:(vm_compute; reflexivity))
    as (Hdata & _ & Hcharts & Hlog & _ & _ & Htable).
  exact (conj Hdata (conj Hcharts (conj Hlog
           (Htable ltac:(apply (bool_decide_unpack _); vm_compute; exact I))))).
Defined.

(** A refresh answered by a non-success status keeps January. *)
Lemma load_failure_keeps_sequence_witness :
  let st := Sample.step ClickRefresh Sample.loaded in
  let st' := Sample.step (SnapshotsArrive 1 (LoadResponded false JsonInvalid)) st in
  analyticsData st' = Sample.january
  /\ alerts st' = ["Failed to load analytics data. Please try again."].
Proof.
  destruct (load_failure_keeps_sequence Sample.toLocaleString
              Sample.toLocaleDateString Sample.numberToString Sample.toUpperCase
              Sample.grid_ids Sample.language_card_ids
              (Sample.step ClickRefresh Sample.loaded) 1
              "2024-01-01" "2024-01-31" "Bearer token"
              (LoadResponded false JsonInvalid) ltac:(vm_compute; reflexivity) eq_refl)
    as (Hdata & Halerts & _).
  exact (conj Hdata Halerts).
Defined.

(** The stars chart of the loaded sample page drawn again: chart 0 is
    destroyed, then the replacement is created on the same canvas with the
    series of January; switched to bars it has the type bar, and bar or line
    draw the same series. *)
Lemma rerender_destroys_previous_witness :
  (exists c' cfg,
     chartLog (renderStarsChart Sample.toLocaleDateString Sample.loaded).2
     = (chartLog Sample.loaded ++ [Destroyed 0; Created c' "stars-chart" cfg])%list
     /\ charts (renderStarsChart Sample.toLocaleDateString Sample.loaded).2
        !! "stars" = Some c'
     /\ series_of cfg
        = view_series Sample.toLocaleDateString StarsView
            (analyticsData Sample.loaded))
  /\ (exists c' cfg,
        chartLog (Sample.step (ChangeStarsChartType "bar") Sample.loaded)
        = (chartLog Sample.loaded ++ [Destroyed 0; Created c' "stars-chart" cfg])%list
        /\ chart_type cfg = "bar")
  /\ drawn_series (chartLog (Sample.step (ChangeStarsChartType "bar") Sample.loaded))
     = drawn_series (chartLog (Sample.step (ChangeStarsChartType "line") Sample.loaded)).
Proof.
  assert (Hpage : can_render StarsView Sample.loaded)
    by (split; vm_compute; eexists; reflexivity).
  destruct (rerender_destroys_previous Sample.toLocaleString
              Sample.toLocaleDateString Sample.numberToString Sample.toUpperCase
              Sample.grid_ids Sample.language_card_ids
              StarsView Sample.loaded 0 "bar" "line" ltac:(vm_compute; reflexivity))
    as (Hlog & Hbar & _ & _ & _ & Hseries & _).
  split; [|split; [|exact Hseries]].
  - destruct Hlog as (evs & Hevs & [(Hno & _)|[(_ & Hv & _)|(_ & _ & Hnew)]]).
    + exfalso. exact (Hno Hpage).
    + discriminate Hv.
    + destruct Hnew as (c' & cfg & Hev & Hreg & Hser). exists c', cfg.
      rewrite Hev in Hevs. exact (conj Hevs (conj Hreg Hser)).
  - destruct (Hbar eq_refl Hpage) as (c' & cfg & Hevs & _ & Htype & _).
    exists c', cfg. exact (conj Hevs Htype).
Defined.

(** The scenario of the specification: an export answered by a non-success
    status. *)
Lemma export_failure_keeps_state_witness :
  let st := Sample.exporting in
  let st' := Sample.step (ExportArrives 1 (ExportResponded false None) 1700000000000) st in
  alerts st' = ["Failed to export data. Please try again."]
  /\ analyticsData st' = Sample.january
  /\ document st' = document st
  /\ downloads st' = [].
Proof.
  destruct (export_failure_keeps_state Sample.toLocaleString
              Sample.toLocaleDateString Sample.numberToString Sample.toUpperCase
              Sample.grid_ids Sample.language_card_ids Sample.exporting 1
              "csv" "2024-01-01" "2024-01-31" "Bearer token"
              (ExportResponded false None) 1700000000000
              ltac:(vm_compute; reflexivity) eq_refl)
    as (Ha & Hd & Hdoc & _ & _ & _ & Hdl & _).
  exact (conj Ha (conj Hd (conj Hdoc Hdl))).
Defined.

(** * The rest of the script *)

(** ** Programs that keep an invariant *)

Lemma preserves_bind {A C} (I : State -> Prop) (m : M A) (k : A -> M C) :
  preserves I m -> (forall a, preserves I (k a)) -> preserves I (m ≫= k).
Proof.
  intros Hm Hk st HI. unfold mbind, M_bind. specialize (Hm st HI).
  destruct (m st) as [[a|e] st1]; cbn in *; [|exact Hm].
  apply Hk, Hm.
Qed.

Lemma preserves_try_catch {A} (I : State -> Prop) (m : M A) (h : Exn -> M A) :
  preserves I m -> (forall e, preserves I (h e)) -> preserves I (try_catch m h).
Proof.
  intros Hm Hh st HI. unfold try_catch. specialize (Hm st HI).
  destruct (m st) as [[a|e] st1]; cbn in *; [exact Hm|].
  apply Hh, Hm.
Qed.

(** A [keeps] goal about one field of the state: every write is to another
    field. *)
Ltac keeps_field_step :=
  lazymatch goal with
  | |- keeps _ (mret _) => apply keeps_ret
  | |- keeps _ (throw _) => apply keeps_throw
  | |- keeps _ (gets _) => apply keeps_gets
  | |- keeps _ (modify _) => apply keeps_modify; intros ?; reflexivity
  | |- keeps _ (mbind _ _) => apply keeps_bind; [|intros ?]
  | |- keeps _ (try_catch _ _) => apply keeps_try_catch; [|intros ?]
  | |- keeps _ (forEach _ _) => apply keeps_forEach; intros ?
  | |- keeps _ (match ?x with _ => _ end) => destruct x
  end.

Ltac keeps_field :=
  repeat (repeat keeps_field_step;
          unfold getElementById, get_prop, set_prop, assign_innerHTML, field, alert,
            showError, showSuccess, getContext, fetch).

(** ** Charts: one live chart for each canvas *)

Lemma live_app_inv (l evs : list ChartEvent) (c : nat) (canvas : string) :
  (forall c' cv cfg, Created c' cv cfg ∉ evs) ->
  live (l ++ evs) c canvas -> live l c canvas.
Proof.
  intros Hevs [[cfg Hin] Hnd]. split.
  - exists cfg. apply elem_of_app in Hin as [Hin|Hin]; [exact Hin|].
    exfalso. exact (Hevs _ _ _ Hin).
  - intros H. apply Hnd, elem_of_app. left. exact H.
Qed.

Lemma destroyed_previous_no_created (st : State) (name : string) c cv cfg :
  Created c cv cfg ∉ destroyed_previous st name.
Proof.
  unfold destroyed_previous. destruct (charts st !! name).
  - intros H. apply list_elem_of_singleton in H. discriminate H.
  - apply not_elem_of_nil.
Qed.

Lemma view_canvas_inj (v w : View) : view_canvas v = view_canvas w -> v = w.
Proof. destruct v, w; intros H; try reflexivity; vm_compute in H; discriminate H. Qed.

Lemma view_key_inj (v w : View) : view_key v = view_key w -> v = w.
Proof. destruct v, w; intros H; try reflexivity; vm_compute in H; discriminate H. Qed.

Lemma destroyed_previous_destroys (st : State) (name : string) (c : nat) :
  charts st !! name = Some c -> Destroyed c ∈ destroyed_previous st name.
Proof. intros H. unfold destroyed_previous. rewrite H. apply list_elem_of_singleton. reflexivity. Qed.

(** A live chart on the canvas of [v] does not survive the release that a
    render of [v] starts with. *)
Lemma released_canvas_is_free (v : View) (st : State) (c0 : nat) :
  registry_covers (charts st) (chartLog st) ->
  ~ live (chartLog st ++ destroyed_previous st (view_key v)) c0 (view_canvas v).
Proof.
  intros Hreg Hlive. pose proof Hlive as [_ Hnd].
  apply live_app_inv in Hlive; [|intros; apply destroyed_previous_no_created].
  destruct (Hreg _ _ Hlive) as (w & Hcv & Hw).
  apply view_canvas_inj in Hcv. subst w.
  apply Hnd, elem_of_app. right. apply destroyed_previous_destroys, Hw.
Qed.

Lemma rendered_keeps_charts (v : View) (st st' : State) :
  rendered v st st' -> charts_well_kept st -> charts_well_kept st'.
Proof.
  intros Hr [Hreg Hfree]. destruct Hr as [Hc Hl|Hc Hl|c' cfg Hc Hl].
  - unfold charts_well_kept. rewrite Hc, Hl. split; assumption.
  - unfold charts_well_kept. rewrite Hc, Hl. split.
    + intros c canvas Hlive. apply Hreg.
      apply live_app_inv in Hlive; [exact Hlive|].
      intros; apply destroyed_previous_no_created.
    + intros i c canvas cfg Hi c0.
      apply lookup_app_Some in Hi as [Hi|[_ Hi]].
      * rewrite take_app_le by (apply Nat.lt_le_incl, (lookup_lt_Some _ _ _ Hi)).
        exact (Hfree _ _ _ _ Hi c0).
      * apply list_elem_of_lookup_2 in Hi.
        exfalso. exact (destroyed_previous_no_created _ _ _ _ _ Hi).
  - unfold charts_well_kept. rewrite Hc, Hl. split.
    + intros c canvas [[cfg0 Hin] Hnd].
      apply elem_of_app in Hin as [Hin|Hin].
      * assert (Hlive : live (chartLog st) c canvas).
        { split; [exists cfg0; exact Hin|].
          intros H. apply Hnd, elem_of_app. left. exact H. }
        destruct (Hreg _ _ Hlive) as (w & Hcv & Hw). exists w. split; [exact Hcv|].
        destruct (decide (view_key v = view_key w)) as [Heq|Hne].
        -- exfalso. apply Hnd, elem_of_app. right. apply elem_of_app. left.
           apply destroyed_previous_destroys. rewrite Heq. exact Hw.
        -- rewrite lookup_insert_ne by exact Hne. exact Hw.
      * apply elem_of_app in Hin as [Hin|Hin].
        -- exfalso. exact (destroyed_previous_no_created _ _ _ _ _ Hin).
        -- apply list_elem_of_singleton in Hin. injection Hin as -> -> _.
           exists v. split; [reflexivity|apply lookup_insert_eq].
    + intros i c canvas cfg0 Hi c0.
      apply lookup_app_Some in Hi as [Hi|[Hge Hi]].
      * rewrite take_app_le by (apply Nat.lt_le_incl, (lookup_lt_Some _ _ _ Hi)).
        exact (Hfree _ _ _ _ Hi c0).
      * apply lookup_app_Some in Hi as [Hi|[Hge' Hi]].
        { apply list_elem_of_lookup_2 in Hi.
          exfalso. exact (destroyed_previous_no_created _ _ _ _ _ Hi). }
        apply list_lookup_singleton_Some in Hi as [Hidx Hi].
        injection Hi as <- <- _.
        assert (Hi' : i = length (chartLog st ++ destroyed_previous st (view_key v))).
        { rewrite length_app. lia. }
        rewrite app_assoc, Hi', take_app_length.
        exact (released_canvas_is_free v st c0 Hreg).
Qed.

Section Coverage.

Context (toLocaleString : float -> string) (toLocaleDateString : string -> string)
  (numberToString : float -> string) (toUpperCase : string -> string)
  (grid_ids language_card_ids : list string).

Abbreviation step :=
  (step toLocaleString toLocaleDateString numberToString toUpperCase grid_ids
     language_card_ids).
Abbreviation run :=
  (run toLocaleString toLocaleDateString numberToString toUpperCase grid_ids
     language_card_ids).
Abbreviation render := (render toLocaleDateString language_card_ids).

Lemma render_outcome (v : View) (st : State) : rendered v st (render v st).2.
Proof.
  destruct v; cbn [render view_key];
    unfold renderStarsChart, renderFollowersChart, renderReposChart,
      renderCommitsChart, renderLanguageChart, renderContributionChart;
    mrun;
    lazymatch goal with
    | |- context [document st !! ?canvas] =>
        destruct (document st !! canvas) as [el|] eqn:Hcanvas;
        [|mrun; apply rendered_nothing; reflexivity]
    end;
    mrun;
    try lazymatch goal with
    | |- context [document st !! ?select] =>
        destruct (document st !! select) as [sel|] eqn:Hselect;
        [|mrun; apply rendered_nothing; reflexivity];
        mrun; rewrite Hselect; mrun
    end;
    rewrite destroy_previous_run; mrun.
  1-4, 6: eapply rendered_replace; cbn [charts chartLog set_charts set_chartLog];
    [reflexivity|symmetry; apply app_assoc].
  destruct (analyticsData st !! _) as [latest|]; mrun;
    [|apply rendered_release; reflexivity].
  destruct (length _ =? 0)%nat; mrun.
  - apply rendered_release; reflexivity.
  - eapply rendered_replace; cbn [charts chartLog set_charts set_chartLog];
      [reflexivity|symmetry; apply app_assoc].
Qed.

Lemma preserves_render (v : View) : preserves charts_well_kept (render v).
Proof. intros st HI. exact (rendered_keeps_charts v st _ (render_outcome v st) HI). Qed.

(** An invariant of the chart registry and the chart log that every render
    keeps is kept by every listener and every continuation. *)
Section Chart_invariant.

Variable I : State -> Prop.
Hypothesis I_charts :
  forall st st', charts st' = charts st -> chartLog st' = chartLog st -> I st -> I st'.
Hypothesis I_render : forall v, preserves I (render v).

Lemma preserves_of_keeps {A} (m : M A) :
  keeps charts m -> keeps chartLog m -> preserves I m.
Proof. intros Hc Hl st HI. exact (I_charts st _ (Hc st) (Hl st) HI). Qed.

Lemma preserves_renderCharts :
  preserves I (renderCharts toLocaleDateString language_card_ids).
Proof.
  unfold renderCharts.
  apply preserves_bind; [exact (I_render StarsView)|intros _].
  apply preserves_bind; [exact (I_render FollowersView)|intros _].
  apply preserves_bind; [exact (I_render ReposView)|intros _].
  apply preserves_bind; [exact (I_render CommitsView)|intros _].
  apply preserves_bind; [exact (I_render LanguageView)|intros _].
  exact (I_render ContributionView).
Qed.

Lemma preserves_updateChartType (chartName type : string) :
  preserves I (updateChartType toLocaleDateString chartName type).
Proof.
  unfold updateChartType. destruct (chartName =? "stars")%string.
  - exact (I_render StarsView).
  - destruct (chartName =? "followers")%string.
    + exact (I_render FollowersView).
    + apply preserves_of_keeps; apply keeps_ret.
Qed.

Lemma preserves_loadAnalyticsData_resume (r : LoadResponse) :
  preserves I
    (loadAnalyticsData_resume toLocaleString toLocaleDateString numberToString
       grid_ids language_card_ids r).
Proof.
  unfold loadAnalyticsData_resume.
  apply preserves_try_catch;
    [|intros e; apply preserves_of_keeps; keeps_field].
  destruct r as [|[] [| |snapshots]]; cbn [negb];
    try solve [apply preserves_of_keeps; keeps_field].
  apply preserves_bind; [apply preserves_of_keeps; keeps_field|intros _].
  apply preserves_bind; [apply preserves_of_keeps; keeps_field|intros data].
  destruct (length data =? 0)%nat.
  - apply preserves_of_keeps; unfold showEmptyState; keeps_field.
  - apply preserves_bind;
      [apply preserves_of_keeps;
       unfold updateMetrics, updateMetricChange; keeps_field|intros _].
    apply preserves_bind; [exact preserves_renderCharts|intros _].
    apply preserves_of_keeps; unfold updateTable; keeps_field.
Qed.

Lemma step_preserves (ev : Event) (st : State) : I st -> I (step ev st).
Proof.
  intros HI.
  assert (Hk : forall m : M unit, keeps charts m -> keeps chartLog m -> I (exec m st)).
  { intros m Hc Hl. exact (preserves_of_keeps m Hc Hl st HI). }
  destruct ev; cbn [step]; unfold on_change.
  - apply Hk; unfold setDefaultDateRange, loadAnalyticsData; keeps_field.
  - destruct (document st !! "start-date"); [|exact HI].
    apply Hk; unfold loadAnalyticsData; keeps_field.
  - destruct (document st !! "end-date"); [|exact HI].
    apply Hk; unfold loadAnalyticsData; keeps_field.
  - apply Hk; unfold loadAnalyticsData; keeps_field.
  - apply Hk; unfold showExportModal; keeps_field.
  - apply Hk; unfold hideExportModal; keeps_field.
  - apply Hk; unfold exportData; keeps_field.
  - apply Hk; unfold toggleTable; keeps_field.
  - destruct (document st !! "stars-chart-type"); [|exact HI].
    apply (preserves_bind I); [|intros _; apply preserves_updateChartType|exact HI].
    apply preserves_of_keeps; keeps_field.
  - destruct (document st !! "followers-chart-type"); [|exact HI].
    apply (preserves_bind I); [|intros _; apply preserves_updateChartType|exact HI].
    apply preserves_of_keeps; keeps_field.
  - destruct (inflight st !! id) as [[]|]; try exact HI.
    apply preserves_loadAnalyticsData_resume.
    apply (I_charts st); [reflexivity ..|exact HI].
  - destruct (inflight st !! id) as [[]|]; try exact HI.
    apply (preserves_of_keeps (exportData_resume toUpperCase format r now));
      [unfold exportData_resume, hideExportModal; keeps_field ..|].
    apply (I_charts st); [reflexivity ..|exact HI].
Qed.

Lemma run_preserves (evs : list Event) (st : State) : I st -> I (run evs st).
Proof.
  revert st. induction evs as [|ev evs IH]; intros st HI; [exact HI|].
  cbn [run foldl]. apply IH, step_preserves, HI.
Qed.

End Chart_invariant.

Lemma charts_well_kept_charts (st st' : State) :
  charts st' = charts st -> chartLog st' = chartLog st ->
  charts_well_kept st -> charts_well_kept st'.
Proof. unfold charts_well_kept. intros -> ->. trivial. Qed.

(** X1: from a dashboard that has drawn no chart yet, whatever the user and
    the network do, a canvas never holds two live charts, and no chart is
    ever created on a canvas that still holds a live one. *)
Theorem one_live_chart_per_canvas (evs : list Event) (st : State) :
  chartLog st = [] ->
  let log := chartLog (run evs st) in
  (forall canvas c1 c2, live log c1 canvas -> live log c2 canvas -> c1 = c2)
  /\ (forall i c canvas cfg, log !! i = Some (Created c canvas cfg) ->
        forall c0, ~ live (take i log) c0 canvas).
Proof.
  intros Hempty log.
  assert (HI : charts_well_kept st).
  { split.
    - intros c canvas [[cfg Hin] _]. rewrite Hempty in Hin.
      exfalso. exact (not_elem_of_nil _ Hin).
    - intros i c canvas cfg Hi. rewrite Hempty in Hi. discriminate Hi. }
  destruct (run_preserves charts_well_kept charts_well_kept_charts preserves_render
              evs st HI) as [Hreg Hfree].
  fold log in Hreg, Hfree.
  split; [|exact Hfree].
  intros canvas c1 c2 H1 H2.
  destruct (Hreg _ _ H1) as (v1 & Hv1 & Hc1), (Hreg _ _ H2) as (v2 & Hv2 & Hc2).
  rewrite Hv1 in Hv2. apply view_canvas_inj in Hv2. subst v2.
  rewrite Hc1 in Hc2. injection Hc2 as ->. reflexivity.
Qed.

(** ** Charts: one value for each label *)

Lemma all_aligned_released (st : State) (name : string) :
  all_aligned (chartLog st) ->
  all_aligned (chartLog st ++ destroyed_previous st name).
Proof.
  intros H c canvas cfg Hin. apply elem_of_app in Hin as [Hin|Hin].
  - exact (H _ _ _ Hin).
  - exfalso. exact (destroyed_previous_no_created _ _ _ _ _ Hin).
Qed.

Lemma all_aligned_created (st : State) (name canvas : string) (c : nat)
    (cfg : ChartConfig) :
  all_aligned (chartLog st) -> aligned cfg ->
  all_aligned ((chartLog st ++ destroyed_previous st name) ++ [Created c canvas cfg]).
Proof.
  intros H Hcfg c' canvas' cfg' Hin. apply elem_of_app in Hin as [Hin|Hin].
  - exact (all_aligned_released st name H _ _ _ Hin).
  - apply list_elem_of_singleton in Hin. injection Hin as _ _ ->. exact Hcfg.
Qed.

Lemma render_aligned (v : View) :
  preserves (fun st => all_aligned (chartLog st)) (render v).
Proof.
  intros st HI.
  destruct v; cbn [render];
    unfold renderStarsChart, renderFollowersChart, renderReposChart,
      renderCommitsChart, renderLanguageChart, renderContributionChart;
    mrun;
    lazymatch goal with
    | |- context [document st !! ?canvas] =>
        destruct (document st !! canvas) as [el|] eqn:Hcanvas; [|mrun; exact HI]
    end;
    mrun;
    try lazymatch goal with
    | |- context [document st !! ?select] =>
        destruct (document st !! select) as [sel|] eqn:Hselect; [|mrun; exact HI];
        mrun; rewrite Hselect; mrun
    end;
    rewrite destroy_previous_run; mrun.
  1-4, 6: apply all_aligned_created; [exact HI|];
    unfold aligned, date_labels; cbn [chart_datasets chart_labels ds_data];
    repeat constructor; cbn [ds_data]; rewrite !length_map; reflexivity.
  destruct (analyticsData st !! _) as [latest|]; mrun;
    [|apply all_aligned_released, HI].
  destruct (length _ =? 0)%nat; mrun.
  - apply all_aligned_released, HI.
  - apply all_aligned_created; [exact HI|].
    unfold aligned, Object_keys, Object_values.
    cbn [chart_datasets chart_labels ds_data].
    repeat constructor. cbn [ds_data]. rewrite !length_map. reflexivity.
Qed.

(** X2: no chart is ever drawn with a dataset that has more or fewer values
    than the chart has labels. If this holds of the charts drawn so far, it
    holds after any sequence of user events and responses, for the six
    views alike. *)
Theorem charts_stay_aligned (evs : list Event) (st : State) :
  all_aligned (chartLog st) -> all_aligned (chartLog (run evs st)).
Proof.
  apply (run_preserves (fun st => all_aligned (chartLog st))).
  - intros st1 st2 _ ->. trivial.
  - exact render_aligned.
Qed.

(** ** What each view draws *)

Lemma drawn_series_destroyed_previous (st : State) (name : string) :
  drawn_series (destroyed_previous st name) = [].
Proof. unfold destroyed_previous. destruct (charts st !! name); reflexivity. Qed.

Lemma same_but_charts_drawn (st : State) (cs : gmap string nat) (log : list ChartEvent) :
  same_but_charts st (set_charts cs (set_chartLog log st)).
Proof. repeat split. Qed.

(** A render on a page that has what it looks up (and, for the language
    view, on a sequence whose last snapshot has a language) returns, changes
    the registry and the log only, and draws the series of its view. *)
Lemma render_draws (v : View) (st : State) :
  can_render v st ->
  (v = LanguageView -> (view_series toLocaleDateString v (analyticsData st)).1 <> []) ->
  exists st',
    render v st = (Ok tt, st')
    /\ same_but_charts st st'
    /\ drawn_series (chartLog st')
       = (drawn_series (chartLog st)
          ++ [(view_canvas v, view_series toLocaleDateString v (analyticsData st))])%list.
Proof.
  intros [[canvas Hcanvas] Hsel] Hlang.
  assert (Hdraw : forall cs c cfg,
    series_of cfg = view_series toLocaleDateString v (analyticsData st) ->
    exists st',
      (Ok tt, set_charts cs
                (set_chartLog
                   ((chartLog st ++ destroyed_previous st (view_key v))
                    ++ [Created c (view_canvas v) cfg]) st))
      = (Ok tt, st')
      /\ same_but_charts st st'
      /\ drawn_series (chartLog st')
         = (drawn_series (chartLog st)
            ++ [(view_canvas v,
                 view_series toLocaleDateString v (analyticsData st))])%list).
  { intros cs c cfg Hcfg. eexists. split; [reflexivity|].
    split; [apply same_but_charts_drawn|].
    cbn [chartLog set_charts set_chartLog]. unfold drawn_series.
    rewrite !omap_app. fold (drawn_series (chartLog st)).
    fold (drawn_series (destroyed_previous st (view_key v))).
    rewrite drawn_series_destroyed_previous, app_nil_r. cbn. rewrite Hcfg.
    reflexivity. }
  destruct v; cbn [render view_key] in *;
    unfold renderStarsChart, renderFollowersChart, renderReposChart,
      renderCommitsChart, renderLanguageChart, renderContributionChart;
    vm_compute view_canvas in Hcanvas;
    mrun; rewrite Hcanvas; mrun;
    try (lazymatch type of Hsel with
         | is_Some _ =>
             destruct Hsel as [sel Hsel]; vm_compute (view_canvas _ ++ _) in Hsel;
             rewrite Hsel; mrun; rewrite Hsel; mrun
         end);
    rewrite destroy_previous_run; mrun.
  1-4, 6: apply Hdraw; reflexivity.
  specialize (Hlang eq_refl). cbn [view_series fst] in Hlang.
  rewrite last_lookup, <- Nat.sub_1_r in Hlang.
  destruct (analyticsData st !! _) as [latest|] eqn:Hlast;
    [|exfalso; apply Hlang; reflexivity].
  cbn [fmap option_fmap option_map default] in Hlang. unfold id in Hlang. mrun.
  destruct (Object_keys (or_empty_object (language_stats latest))) as [|k ks] eqn:Hkeys;
    [exfalso; apply Hlang; reflexivity|].
  cbn [length Nat.eqb]. mrun. apply Hdraw.
  cbn [view_series series_of chart_labels chart_datasets map ds_data].
  rewrite last_lookup, <- Nat.sub_1_r, Hlast.
  cbn [fmap option_fmap option_map default]. unfold id. rewrite Hkeys. reflexivity.
Qed.

(** ** The data table *)

Lemma set_document_same (st : State) : set_document (document st) st = st.
Proof. destruct st; reflexivity. Qed.

Lemma children_rows_appended (rows : list (list string)) (e : Element) :
  children (rows_appended rows e) = (children e ++ rows)%list.
Proof.
  unfold rows_appended. revert e.
  induction rows as [|row rows IH]; intros e; cbn [foldl].
  - symmetry; apply app_nil_r.
  - rewrite IH. cbn [appendChild children]. rewrite <- app_assoc. reflexivity.
Qed.

Lemma forEach_appendChild {A} (xs : list A) (row : A -> list string) (k : string)
    (st : State) :
  forEach xs (fun x => set_prop (Some k) (appendChild (row x))) st
  = (Ok tt, set_document (alter (rows_appended (map row xs)) k (document st)) st).
Proof.
  revert st. induction xs as [|x xs IH]; intros st; cbn [forEach map].
  - mrun. rewrite alter_id by (intros; reflexivity).
    rewrite set_document_same. reflexivity.
  - mrun. rewrite IH. cbn [document set_document].
    rewrite alter_alter_eq. reflexivity.
Qed.

Lemma updateTable_run (st : State) (tbody : Element) :
  document st !! "table-body" = Some tbody ->
  updateTable toLocaleString toLocaleDateString st
  = (Ok tt,
     set_document
       (alter (table_filled
                 (map (table_row toLocaleString toLocaleDateString) (analyticsData st)))
          "table-body" (document st)) st).
Proof.
  intros H.
  transitivity
    (forEach (analyticsData st)
       (fun x => set_prop (Some "table-body")
                   (appendChild (table_row toLocaleString toLocaleDateString x)))
       (set_document (alter (set_innerHTML EmptyMarkup) "table-body" (document st)) st)).
  - unfold updateTable. mrun. rewrite H. reflexivity.
  - rewrite forEach_appendChild. cbn [document set_document].
    rewrite alter_alter_eq. destruct st; reflexivity.
Qed.

Lemma table_filled_eq (rows : list (list string)) (e : Element) :
  table_filled rows e
  = {| textContent := textContent e; className := className e; value := value e;
       display := display e; innerHTML := Some EmptyMarkup; children := rows |}.
Proof.
  unfold table_filled.
  assert (forall e', rows_appended rows e'
    = {| textContent := textContent e'; className := className e'; value := value e';
         display := display e'; innerHTML := innerHTML e';
         children := (children e' ++ rows)%list |}) as ->.
  { unfold rows_appended. induction rows as [|row rows IH]; intros e'; cbn [foldl].
    - rewrite app_nil_r. destruct e'; reflexivity.
    - rewrite IH. cbn [appendChild textContent className value display innerHTML
                       children].
      rewrite <- app_assoc. reflexivity. }
  reflexivity.
Qed.

(** X3: [updateTable] rebuilds the table from the held sequence: whatever rows
    the table body had, it ends with one row for each snapshot, in order;
    its other properties, the other elements and the rest of the state are
    as they were, and a second run changes nothing. Without a table body
    it raises a [TypeError] and writes nothing. *)
Theorem updateTable_rebuilds_rows (st : State) :
  match document st !! "table-body" with
  | Some tbody =>
      exists st' tbody',
        updateTable toLocaleString toLocaleDateString st = (Ok tt, st')
        /\ document st' !! "table-body" = Some tbody'
        /\ children tbody'
           = map (table_row toLocaleString toLocaleDateString) (analyticsData st)
        /\ length (children tbody') = length (analyticsData st)
        /\ (textContent tbody', className tbody', value tbody', display tbody')
           = (textContent tbody, className tbody, value tbody, display tbody)
        /\ (forall i, i <> "table-body" -> document st' !! i = document st !! i)
        /\ st' = set_document (document st') st
        /\ updateTable toLocaleString toLocaleDateString st' = (Ok tt, st')
  | None =>
      updateTable toLocaleString toLocaleDateString st = (Throw TypeError, st)
  end.
Proof.
  destruct (document st !! "table-body") as [tbody|] eqn:H.
  - exists (set_document
              (alter (table_filled
                        (map (table_row toLocaleString toLocaleDateString)
                           (analyticsData st)))
                 "table-body" (document st)) st),
           (table_filled
              (map (table_row toLocaleString toLocaleDateString) (analyticsData st))
              tbody).
    split; [exact (updateTable_run st tbody H)|].
    cbn [document set_document].
    split; [rewrite lookup_alter_eq, H; reflexivity|].
    rewrite table_filled_eq. cbn [children textContent className value display].
    split; [reflexivity|]. split; [apply length_map|]. split; [reflexivity|].
    split; [intros i Hi; apply lookup_alter_ne; congruence|].
    split; [destruct st; reflexivity|].
    erewrite updateTable_run
      by (cbn [document set_document]; rewrite lookup_alter_eq, H; reflexivity).
    cbn [document set_document analyticsData]. rewrite alter_alter_eq.
    match goal with
    | |- context [alter (?F ∘ ?F) ?k ?d] =>
        replace (alter (F ∘ F) k d) with (alter F k d)
          by (apply alter_ext; intros e _; cbn [compose];
              rewrite !table_filled_eq; reflexivity)
    end.
    destruct st; reflexivity.
  - unfold updateTable. mrun. rewrite H. reflexivity.
Qed.

Lemma alter_as_insert (f : Element -> Element) (k : string) (d : gmap string Element)
    (e : Element) :
  d !! k = Some e -> alter f k d = <[k := f e]> d.
Proof.
  intros H. apply map_eq. intros i. destruct (decide (i = k)) as [->|Hne].
  - rewrite lookup_alter_eq, lookup_insert_eq, H. reflexivity.
  - rewrite lookup_alter_ne, lookup_insert_ne by congruence. reflexivity.
Qed.

Lemma toggleTable_run (st : State) (e : Element) :
  document st !! "table-container" = Some e ->
  toggleTable st
  = (Ok tt,
     set_document
       (<["table-container" :=
            set_display (if String.eqb (display e) "none" then "block" else "none") e]>
          (document st)) st).
Proof.
  intros H. unfold toggleTable. mrun. rewrite H. mrun. rewrite H. mrun.
  rewrite (alter_as_insert _ _ _ e H). reflexivity.
Qed.

(** X4: [toggleTable] settles into two states. The first click hides the
    table unless its inline display is [none], in which case it shows it as
    [block]; from then on every click undoes the one before, so that a third
    click gives the state of the first. Two clicks give back the starting
    state exactly when the container started as [none] or [block]; only the
    container changes. *)
Theorem toggleTable_alternates (st : State) (e : Element) :
  document st !! "table-container" = Some e ->
  exists st1 st2 e1 e2,
    toggleTable st = (Ok tt, st1)
    /\ toggleTable st1 = (Ok tt, st2)
    /\ toggleTable st2 = (Ok tt, st1)
    /\ document st1 !! "table-container" = Some e1
    /\ document st2 !! "table-container" = Some e2
    /\ display e1 = (if String.eqb (display e) "none" then "block" else "none")
    /\ display e2 = (if String.eqb (display e) "none" then "none" else "block")
    /\ (st2 = st <-> display e = "none" \/ display e = "block")
    /\ (forall i, i <> "table-container" -> document st1 !! i = document st !! i)
    /\ st1 = set_document (document st1) st.
Proof.
  intros H.
  pose proof (toggleTable_run st e H) as H1.
  set (e1 := set_display (if String.eqb (display e) "none" then "block" else "none") e)
    in *.
  set (st1 := set_document (<["table-container" := e1]> (document st)) st) in *.
  assert (document st1 !! "table-container" = Some e1) as He1
    by (subst st1; cbn [document set_document]; apply lookup_insert_eq).
  pose proof (toggleTable_run st1 e1 He1) as H2.
  set (e2 := set_display (if String.eqb (display e1) "none" then "block" else "none") e1)
    in *.
  set (st2 := set_document (<["table-container" := e2]> (document st1)) st1) in *.
  assert (document st2 !! "table-container" = Some e2) as He2
    by (subst st2; cbn [document set_document]; apply lookup_insert_eq).
  pose proof (toggleTable_run st2 e2 He2) as H3.
  assert (display e2 = (if String.eqb (display e) "none" then "none" else "block"))
    as Hd2.
  { subst e2 e1. cbn [display set_display].
    destruct (String.eqb (display e) "none"); reflexivity. }
  assert (e2 = set_display (display e2) e) as Hee2.
  { subst e2 e1. destruct e; reflexivity. }
  assert (document st2 = <["table-container" := e2]> (document st)) as Hdoc2.
  { subst st2 st1. cbn [document set_document]. apply insert_insert_eq. }
  exists st1, st2, e1, e2.
  split; [exact H1|]. split; [exact H2|]. split.
  { rewrite H3. f_equal. subst st2 st1. cbn [document set_document].
    rewrite !insert_insert_eq.
    replace (set_display (if String.eqb (display e2) "none" then "block" else "none") e2)
      with e1; [destruct st; reflexivity|].
    rewrite Hd2. subst e2 e1. cbn [display set_display].
    destruct (String.eqb (display e) "none"); destruct e; reflexivity. }
  split; [exact He1|]. split; [exact He2|].
  split; [reflexivity|]. split; [exact Hd2|]. split.
  { split.
    - intros Hst. assert (Some e2 = Some e) as Hsome by (rewrite <- He2, Hst; exact H).
      injection Hsome as Hsome. rewrite <- Hsome at 1 2. rewrite Hd2.
      destruct (String.eqb (display e) "none"); [left|right]; reflexivity.
    - intros Hd. assert (e2 = e) as ->.
      { rewrite Hee2, Hd2.
        destruct Hd as [Hd|Hd]; rewrite Hd; cbn [String.eqb Ascii.eqb Bool.eqb];
          rewrite <- Hd; destruct e; reflexivity. }
      subst st2 st1. cbn [document set_document]. rewrite insert_insert_eq.
      rewrite insert_id by exact H. destruct st; reflexivity. }
  split; [intros i Hi; subst st1; cbn [document set_document];
          apply lookup_insert_ne; congruence|].
  subst st1. destruct st; reflexivity.
Qed.

(** ** A load that brings snapshots *)

Lemma bind_ok {A B} (m : M A) (k : A -> M B) (st st' : State) (a : A) :
  m st = (Ok a, st') -> (m ≫= k) st = k a st'.
Proof. intros H. cbv [mbind M_bind]. rewrite H. reflexivity. Qed.

Lemma modify_bind {B} (f : State -> State) (k : unit -> M B) (st : State) :
  (modify f ≫= k) st = k tt (f st).
Proof. reflexivity. Qed.

Lemma gets_bind {A B} (g : State -> A) (k : A -> M B) (st : State) :
  (gets g ≫= k) st = k (g st) st.
Proof. reflexivity. Qed.

Lemma try_catch_ok {A} (m : M A) (h : Exn -> M A) (st st' : State) (a : A) :
  m st = (Ok a, st') -> try_catch m h st = (Ok a, st').
Proof. intros H. cbv [try_catch]. rewrite H. reflexivity. Qed.

Lemma same_but_charts_trans (st1 st2 st3 : State) :
  same_but_charts st1 st2 -> same_but_charts st2 st3 -> same_but_charts st1 st3.
Proof. unfold same_but_charts. intuition congruence. Qed.

Lemma can_render_same_document (v : View) (st st' : State) :
  document st' = document st -> can_render v st -> can_render v st'.
Proof. unfold can_render. intros ->. trivial. Qed.

(** [renderCharts] on a page that has the six canvases and the two selects,
    with a sequence whose last snapshot names a language: the six series are
    drawn in the order of the calls, and only the registry and the log
    change. *)
Lemma renderCharts_draws (st : State) :
  (forall v, can_render v st) ->
  has_languages (analyticsData st) ->
  exists st',
    renderCharts toLocaleDateString language_card_ids st = (Ok tt, st')
    /\ same_but_charts st st'
    /\ drawn_series (chartLog st')
       = (drawn_series (chartLog st)
          ++ map (fun v => (view_canvas v,
                            view_series toLocaleDateString v (analyticsData st)))
               views_in_order)%list.
Proof.
  intros Hpage Hlang.
  assert (Hnext : forall v st1,
    same_but_charts st st1 ->
    exists st2,
      render v st1 = (Ok tt, st2)
      /\ same_but_charts st st2
      /\ drawn_series (chartLog st2)
         = (drawn_series (chartLog st1)
            ++ [(view_canvas v, view_series toLocaleDateString v (analyticsData st))])%list).
  { intros v st1 Hsame.
    pose proof Hsame as (_ & Hdata & _ & Hdoc & _).
    destruct (render_draws v st1) as (st2 & Hrun & Hsame2 & Hlog).
    - apply (can_render_same_document v st); [exact Hdoc|apply Hpage].
    - intros ->. rewrite Hdata. exact Hlang.
    - exists st2. split; [exact Hrun|]. split.
      + exact (same_but_charts_trans _ _ _ Hsame Hsame2).
      + rewrite Hlog, Hdata. reflexivity. }
  assert (Hrefl : same_but_charts st st) by (repeat split).
  destruct (Hnext StarsView st Hrefl) as (st1 & H1 & S1 & L1).
  destruct (Hnext FollowersView st1 S1) as (st2 & H2 & S2 & L2).
  destruct (Hnext ReposView st2 S2) as (st3 & H3 & S3 & L3).
  destruct (Hnext CommitsView st3 S3) as (st4 & H4 & S4 & L4).
  destruct (Hnext LanguageView st4 S4) as (st5 & H5 & S5 & L5).
  destruct (Hnext ContributionView st5 S5) as (st6 & H6 & S6 & L6).
  exists st6. split; [|split; [exact S6|]].
  - unfold renderCharts. cbn [render] in H1, H2, H3, H4, H5, H6.
    rewrite (bind_ok _ _ _ _ _ H1), (bind_ok _ _ _ _ _ H2), (bind_ok _ _ _ _ _ H3),
      (bind_ok _ _ _ _ _ H4), (bind_ok _ _ _ _ _ H5). exact H6.
  - rewrite L6, L5, L4, L3, L2, L1. cbn [views_in_order map].
    rewrite <- !app_assoc. reflexivity.
Qed.

(** X5: a successful response with a non-empty sequence, on a page that has
    the metric cards, the canvases with their selects and the table body, and
    whose last snapshot names a language: the load returns without an alert,
    holds the sequence, draws its six series in the order stars, followers,
    repositories, commits, languages, contributions, and fills the table
    with one row for each snapshot. The page still has everything the next
    load looks up. *)
Theorem load_shows_the_sequence (st : State) (data : list Snapshot) :
  data <> [] ->
  has_languages data ->
  page_complete st ->
  exists st',
    loadAnalyticsData_resume toLocaleString toLocaleDateString numberToString
      grid_ids language_card_ids (LoadResponded true (JsonObject (Some data))) st
    = (Ok tt, st')
    /\ analyticsData st' = data
    /\ alerts st' = alerts st
    /\ drawn_series (chartLog st')
       = (drawn_series (chartLog st)
          ++ map (fun v => (view_canvas v, view_series toLocaleDateString v data))
               views_in_order)%list
    /\ (exists tbody,
          document st' !! "table-body" = Some tbody
          /\ children tbody = map (table_row toLocaleString toLocaleDateString) data)
    /\ page_complete st'.
Proof.
  intros Hdata Hlang (Hcards & Hviews & [tbody Htbody]).
  set (st0 := set_analyticsData data st).
  assert (Hdoc0 : document st0 = document st) by reflexivity.
  destruct (head data) as [first|] eqn:Hfirst; [|destruct data; done].
  destruct (last data) as [latest|] eqn:Hlatest;
    [|apply last_None in Hlatest; done].
  pose proof (updateMetrics_run toLocaleString numberToString st0 first latest
                Hfirst Hlatest Hcards) as Hmetrics.
  set (d1 := write_change _ _ _ _ _ _) in Hmetrics.
  set (st1 := set_document d1 st0) in Hmetrics.
  assert (Hsome : forall i, is_Some (document st !! i) -> is_Some (d1 !! i)).
  { intros i Hi. subst d1. unfold write_change, write_value.
    repeat (apply lookup_alter_is_Some). exact Hi. }
  destruct (renderCharts_draws st1) as (st2 & Hcharts & Hsame & Hlog).
  { intros v. destruct (Hviews v) as [Hcanvas Hsel]. split.
    - apply Hsome, Hcanvas.
    - destruct v; try exact I; apply Hsome, Hsel. }
  { exact Hlang. }
  destruct Hsame as (_ & Hdata2 & _ & Hdoc2 & _ & Halerts2 & _).
  destruct (Hsome "table-body" (ex_intro _ tbody Htbody)) as [tbody1 Htbody1].
  assert (Htbody2 : document st2 !! "table-body" = Some tbody1)
    by (rewrite Hdoc2; exact Htbody1).
  pose proof (updateTable_run st2 tbody1 Htbody2) as Htable.
  assert (Hn : (length data =? 0)%nat = false) by (destruct data; done).
  eexists. split.
  { unfold loadAnalyticsData_resume. cbn [negb]. apply try_catch_ok.
    rewrite modify_bind, gets_bind.
    change (default [] (Some data)) with data. fold st0.
    change (analyticsData st0) with data. rewrite Hn.
    rewrite (bind_ok _ _ _ _ _ Hmetrics), (bind_ok _ _ _ _ _ Hcharts).
    exact Htable. }
  cbn [analyticsData alerts chartLog document set_document].
  split; [rewrite Hdata2; reflexivity|].
  split; [rewrite Halerts2; reflexivity|].
  split; [rewrite Hlog; reflexivity|].
  split.
  { exists (table_filled
              (map (table_row toLocaleString toLocaleDateString) data) tbody1).
    rewrite lookup_alter_eq, Htbody2, Hdata2. split; [reflexivity|].
    rewrite table_filled_eq. reflexivity. }
  assert (Hsome2 : forall i, is_Some (document st !! i) ->
            is_Some (alter (table_filled
                              (map (table_row toLocaleString toLocaleDateString)
                                 (analyticsData st2)))
                       "table-body" (document st2) !! i)).
  { intros i Hi. apply lookup_alter_is_Some. rewrite Hdoc2. apply Hsome, Hi. }
  split; [|split].
  - intros m. destruct (Hcards m). split; apply Hsome2; assumption.
  - intros v. destruct (Hviews v) as [Hcanvas Hsel]. split.
    + apply Hsome2, Hcanvas.
    + destruct v; try exact I; apply Hsome2, Hsel.
  - apply Hsome2. exists tbody. exact Htbody.
Qed.


(** A successful response with a sequence that can be shown, on a page
    that has everything the load looks up: the load adds no alert, draws the
    six series of the sequence and leaves its rows in the table. *)
Lemma complete_load_is_shown (st : State) (data : list Snapshot) :
  data <> [] ->
  has_languages data ->
  page_complete st ->
  let st' :=
    exec (loadAnalyticsData_resume toLocaleString toLocaleDateString numberToString
            grid_ids language_card_ids (LoadResponded true (JsonObject (Some data))))
      st in
  alerts st' = alerts st
  /\ drawn_series (chartLog st')
     = (drawn_series (chartLog st)
        ++ map (fun v => (view_canvas v, view_series toLocaleDateString v data))
             views_in_order)%list
  /\ children <$> document st' !! "table-body"
     = Some (map (table_row toLocaleString toLocaleDateString) data).
Proof.
  intros Hdata Hlang (Hcards & Hviews & [tbody Htbody]).
  set (st0 := set_analyticsData data st).
  destruct (head data) as [first|] eqn:Hfirst; [|destruct data; done].
  destruct (last data) as [latest|] eqn:Hlatest;
    [|apply last_None in Hlatest; done].
  pose proof (updateMetrics_run toLocaleString numberToString st0 first latest
                Hfirst Hlatest Hcards) as Hmetrics.
  set (d1 := write_change _ _ _ _ _ _) in Hmetrics.
  set (st1 := set_document d1 st0) in Hmetrics.
  assert (Hsome : forall i, is_Some (document st !! i) -> is_Some (d1 !! i)).
  { intros i Hi. subst d1. unfold write_change, write_value.
    repeat (apply lookup_alter_is_Some). exact Hi. }
  destruct (renderCharts_draws st1) as (st2 & Hcharts & Hsame & Hlog).
  { intros v. destruct (Hviews v) as [Hcanvas Hsel]. split.
    - apply Hsome, Hcanvas.
    - destruct v; try exact I; apply Hsome, Hsel. }
  { exact Hlang. }
  destruct Hsame as (_ & Hdata2 & _ & Hdoc2 & _ & Halerts2 & _).
  destruct (Hsome "table-body" (ex_intro _ tbody Htbody)) as [tbody1 Htbody1].
  assert (Htbody2 : document st2 !! "table-body" = Some tbody1)
    by (rewrite Hdoc2; exact Htbody1).
  assert (Hn : (length data =? 0)%nat = false) by (destruct data; done).
  assert (Hrun : loadAnalyticsData_resume toLocaleString toLocaleDateString
                   numberToString grid_ids language_card_ids
                   (LoadResponded true (JsonObject (Some data))) st
                 = updateTable toLocaleString toLocaleDateString st2).
  { rewrite (updateTable_run st2 tbody1 Htbody2).
    unfold loadAnalyticsData_resume. cbn [negb]. apply try_catch_ok.
    rewrite modify_bind, gets_bind.
    change (default [] (Some data)) with data. fold st0.
    change (analyticsData st0) with data. rewrite Hn.
    rewrite (bind_ok _ _ _ _ _ Hmetrics), (bind_ok _ _ _ _ _ Hcharts).
    exact (updateTable_run st2 tbody1 Htbody2). }
  cbv zeta. unfold exec. rewrite Hrun, (updateTable_run st2 tbody1 Htbody2).
  cbn [snd alerts chartLog document set_document].
  split; [rewrite Halerts2; reflexivity|].
  split; [rewrite Hlog; reflexivity|].
  rewrite lookup_alter_eq, Htbody2, Hdata2. cbn [fmap option_fmap option_map].
  rewrite table_filled_eq. reflexivity.
Qed.

(** C1, as the code has it: of two snapshot requests in flight, issued in
    either order and both answered with success, the one whose response
    arrives last decides the held sequence: it is that of the most recently
    completed load, not that of the most recently issued one. What is shown
    follows the held sequence when it can be rendered: if the late sequence
    is not empty, its last snapshot names a language and the page the first
    response left has everything a load looks up, the late load adds no
    alert, the six charts drawn last are its series and the table has its
    rows. If the late sequence is empty, it is held while the charts, and
    the rows of a table that is outside the metrics grid, stay as the first
    response left them. *)
Theorem last_completed_load_is_held (st : State) (id1 id2 : nat)
    (s1 e1 a1 s2 e2 a2 : string) (d1 d2 : option (list Snapshot)) :
  id1 <> id2 ->
  inflight st !! id1 = Some (FetchSnapshots s1 e1 a1) ->
  inflight st !! id2 = Some (FetchSnapshots s2 e2 a2) ->
  let r1 := LoadResponded true (JsonObject d1) in
  let r2 := LoadResponded true (JsonObject d2) in
  let st2 := step (SnapshotsArrive id2 r2) st in
  let st1 := run [SnapshotsArrive id2 r2; SnapshotsArrive id1 r1] st in
  analyticsData st1 = default [] d1
  /\ (default [] d1 <> [] -> has_languages (default [] d1) -> page_complete st2 ->
      alerts st1 = alerts st2
      /\ drawn_series (chartLog st1)
         = (drawn_series (chartLog st2)
            ++ map (fun v => (view_canvas v,
                              view_series toLocaleDateString v (default [] d1)))
                 views_in_order)%list
      /\ children <$> document st1 !! "table-body"
         = Some (map (table_row toLocaleString toLocaleDateString) (default [] d1)))
  /\ (default [] d1 = [] ->
      charts st1 = charts st2
      /\ chartLog st1 = chartLog st2
      /\ ("table-body" ∉ grid_ids ->
          children <$> document st1 !! "table-body"
          = children <$> document st2 !! "table-body")).
Proof.
  intros Hne H1 H2 r1 r2 st2 st1.
  assert (Hin : inflight st2 !! id1 = Some (FetchSnapshots s1 e1 a1)).
  { subst st2. cbn [step]. rewrite H2. unfold exec.
    rewrite (keeps_loadAnalyticsData_resume toLocaleString toLocaleDateString
               numberToString grid_ids language_card_ids inflight _ unrendered_inflight)
      by reflexivity.
    cbn [inflight set_inflight]. rewrite lookup_delete_ne by congruence. exact H1. }
  set (st2' := set_inflight (delete id1 (inflight st2)) (nextFetch st2) st2).
  assert (Hst1 : st1
                 = exec (loadAnalyticsData_resume toLocaleString toLocaleDateString
                           numberToString grid_ids language_card_ids r1) st2').
  { subst st1. cbn [run foldl]. fold st2. cbn [step]. rewrite Hin. reflexivity. }
  split; [|split].
  - rewrite Hst1. apply loaded_sequence_is_held.
  - intros Hdata Hlang Hpage. destruct d1 as [data|]; [|done].
    rewrite Hst1. exact (complete_load_is_shown st2' data Hdata Hlang Hpage).
  - intros Hempty. rewrite Hst1. subst r1.
    unfold exec, loadAnalyticsData_resume, showEmptyState. cbn [negb].
    rewrite Hempty. repeat (mrun; cbn [length Nat.eqb]).
    subst st2'. cbn [document set_inflight].
    destruct (document st2 !! "metrics-grid") as [grid|] eqn:Hgrid; mrun.
    + split; [reflexivity|]. split; [reflexivity|]. intros Hout.
      rewrite lookup_alter_ne by done.
      rewrite (lookup_foldr_delete_not_elem_of _ _ _ Hout). reflexivity.
    + split; [reflexivity|]. split; reflexivity.
Qed.

(** Without the [metric-stars] element [updateMetrics] raises at its first
    write and leaves the state as it was. *)
Lemma updateMetrics_without_card (st : State) :
  analyticsData st <> [] ->
  document st !! "metric-stars" = None ->
  updateMetrics toLocaleString numberToString st = (Throw TypeError, st).
Proof.
  intros Hdata Hcard.
  assert (Hn : (length (analyticsData st) =? 0)%nat = false)
    by (destruct (analyticsData st); done).
  assert (Hlast : is_Some (analyticsData st !! (length (analyticsData st) - 1)%nat)).
  { apply lookup_lt_is_Some. destruct (analyticsData st); [done|cbn [length]; lia]. }
  destruct Hlast as [latest Hlast].
  unfold updateMetrics. repeat (mrun; rewrite ?Hn, ?Hcard, ?Hlast). reflexivity.
Qed.

(** X6: the sequence is assigned before anything is drawn. When a successful
    response brings snapshots but the page has no [metric-stars] element, the
    load holds the new sequence and alerts the load failure, while the page,
    the chart registry and the chart log stay as they were: what is shown is
    no longer what is held. *)
Theorem load_holds_sequence_it_cannot_show (st : State) (data : list Snapshot) :
  data <> [] ->
  document st !! "metric-stars" = None ->
  loadAnalyticsData_resume toLocaleString toLocaleDateString numberToString
    grid_ids language_card_ids (LoadResponded true (JsonObject (Some data))) st
  = (Ok tt,
     set_alerts (alerts st ++ ["Failed to load analytics data. Please try again."])
       (set_analyticsData data st)).
Proof.
  intros Hdata Hcard.
  assert (Hn : (length data =? 0)%nat = false) by (destruct data; done).
  unfold loadAnalyticsData_resume. cbn [negb].
  change (default [] (Some data)) with data.
  cbv [try_catch]. rewrite modify_bind, gets_bind.
  change (analyticsData (set_analyticsData data st)) with data. rewrite Hn.
  cbv [mbind M_bind].
  rewrite (updateMetrics_without_card (set_analyticsData data st) Hdata Hcard).
  reflexivity.
Qed.

(** X7: the empty state of the metrics grid is final. On a page whose
    metrics grid contains the [metric-stars] element, once a successful
    response has brought an empty sequence, a later successful response
    that brings snapshots is held but cannot be shown: the load failure is
    alerted and the page, the charts and the table stay as the empty load
    left them. *)
Theorem empty_state_blocks_later_loads (st : State) (snapshots : option (list Snapshot))
    (data : list Snapshot) :
  "metric-stars" ∈ grid_ids ->
  is_Some (document st !! "metrics-grid") ->
  default [] snapshots = [] ->
  data <> [] ->
  let load r :=
    loadAnalyticsData_resume toLocaleString toLocaleDateString numberToString
      grid_ids language_card_ids (LoadResponded true (JsonObject r)) in
  let st1 := (load snapshots st).2 in
  alerts st1 = alerts st
  /\ load (Some data) st1
     = (Ok tt,
        set_alerts (alerts st1 ++ ["Failed to load analytics data. Please try again."])
          (set_analyticsData data st1)).
Proof.
  intros Hin [grid Hgrid] Hempty Hdata load st1.
  assert (Hst1 : st1 = set_document
                         (alter (set_innerHTML NoAnalyticsDataMarkup) "metrics-grid"
                            (foldr delete (document st) grid_ids))
                         (set_analyticsData [] st)).
  { subst st1 load. unfold loadAnalyticsData_resume, showEmptyState. cbn [negb].
    rewrite Hempty. repeat (mrun; cbn [length Nat.eqb]; rewrite ?Hgrid). reflexivity. }
  split; [rewrite Hst1; reflexivity|].
  assert (Hcard : document st1 !! "metric-stars" = None).
  { rewrite Hst1. cbn [document set_document].
    rewrite lookup_alter_ne by done. apply lookup_foldr_delete. exact Hin. }
  assert (Hn : (length data =? 0)%nat = false) by (destruct data; done).
  subst load. unfold loadAnalyticsData_resume. cbn [negb].
  change (default [] (Some data)) with data.
  cbv [try_catch]. rewrite modify_bind, gets_bind.
  change (analyticsData (set_analyticsData data st1)) with data. rewrite Hn.
  cbv [mbind M_bind].
  rewrite (updateMetrics_without_card (set_analyticsData data st1) Hdata Hcard).
  reflexivity.
Qed.

(** X8: the four asynchronous functions of the dashboard never reject, and
    an error inside one of them always ends in its failure alert. The part
    of [loadAnalyticsData] and of [exportData] before the request and the
    part after the response return, whatever the page lacks and whatever
    the response is. Each of them either adds its failure message to the
    alerts, and then has sent no request, or has run to its end: without a
    load failure alert the response was a success with a JSON object, its
    sequence is held and, when it is not empty, the table has its rows;
    without an export failure alert the request has left, or the download
    is recorded, the modal hidden and the success alerted. *)
Theorem requests_never_reject (st : State) (format : string) (r : LoadResponse)
    (x : ExportResponse) (now : Z) :
  let load_failure := "Failed to load analytics data. Please try again." in
  let export_failure := "Failed to export data. Please try again." in
  (exists st',
     loadAnalyticsData st = (Ok tt, st')
     /\ ((alerts st' = (alerts st ++ [load_failure])%list /\ inflight st' = inflight st)
         \/ alerts st' = alerts st))
  /\ (exists st',
        loadAnalyticsData_resume toLocaleString toLocaleDateString numberToString
          grid_ids language_card_ids r st = (Ok tt, st')
        /\ (alerts st' = (alerts st ++ [load_failure])%list
            \/ (alerts st' = alerts st
                /\ exists snapshots,
                     r = LoadResponded true (JsonObject snapshots)
                     /\ analyticsData st' = default [] snapshots
                     /\ (default [] snapshots <> [] ->
                         children <$> document st' !! "table-body"
                         = Some (map (table_row toLocaleString toLocaleDateString)
                                   (default [] snapshots))))))
  /\ (exists st',
        exportData format st = (Ok tt, st')
        /\ ((alerts st' = (alerts st ++ [export_failure])%list
             /\ inflight st' = inflight st)
            \/ (alerts st' = alerts st
                /\ exists s e,
                     inflight st'
                     = <[nextFetch st := FetchExport format s e (bearer (authToken st))]>
                         (inflight st))))
  /\ (exists st',
        exportData_resume toUpperCase format x now st = (Ok tt, st')
        /\ (alerts st' = (alerts st ++ [export_failure])%list
            \/ (alerts st'
                = (alerts st
                   ++ [("Data exported successfully as " ++ toUpperCase format)%string])%list
                /\ exists blob,
                     x = ExportResponded true (Some blob)
                     /\ downloads st'
                        = (downloads st
                           ++ [(("analytics-export-" ++ Number.digits now ++ "."
                                 ++ format)%string, blob)])%list
                     /\ display <$> document st' !! "export-modal" = Some "none"))).
Proof.
  cbv zeta. split; [|split; [|split]].
  - unfold loadAnalyticsData. mrun.
    destruct (currentUser st); [|eexists; split; [reflexivity|right; reflexivity]].
    destruct (document st !! "start-date") as [es|] eqn:Hs; repeat (mrun; rewrite ?Hs);
      [|eexists; split; [reflexivity|left; split; reflexivity]].
    destruct (document st !! "end-date") as [ee|] eqn:He; repeat (mrun; rewrite ?He);
      [|eexists; split; [reflexivity|left; split; reflexivity]].
    destruct (String.eqb (value es) "" || String.eqb (value ee) "");
      eexists; (split; [reflexivity|right; reflexivity]).
  - unfold loadAnalyticsData_resume.
    destruct r as [|[] [| |snapshots]]; cbn [negb];
      try (mrun; eexists; split; [reflexivity|left; reflexivity]).
    cbv [try_catch]. rewrite modify_bind, gets_bind.
    change (analyticsData (set_analyticsData (default [] snapshots) st))
      with (default [] snapshots).
    set (st0 := set_analyticsData (default [] snapshots) st).
    destruct (default [] snapshots) as [|d0 data] eqn:Hdata; cbn [length Nat.eqb].
    + unfold showEmptyState. mrun. subst st0. cbn [document set_analyticsData].
      destruct (document st !! "metrics-grid"); mrun;
        [|eexists; split; [reflexivity|left; reflexivity]].
      eexists; split; [reflexivity|]. right. split; [reflexivity|].
      exists snapshots. split; [reflexivity|]. rewrite Hdata.
      split; [reflexivity|]. intros H. exfalso. apply H. reflexivity.
    + assert (K1 : keeps alerts (updateMetrics toLocaleString numberToString))
        by (unfold updateMetrics, updateMetricChange; keeps_field).
      assert (K2 : keeps alerts (renderCharts toLocaleDateString language_card_ids))
        by (unfold renderCharts, renderStarsChart, renderFollowersChart,
              renderReposChart, renderCommitsChart, renderLanguageChart,
              renderContributionChart, destroy_previous, new_Chart; keeps_field).
      assert (K3 : keeps alerts (updateTable toLocaleString toLocaleDateString))
        by (unfold updateTable; keeps_field).
      pose proof (keeps_updateMetrics toLocaleString numberToString analyticsData
                    unrendered_analyticsData st0) as D1.
      pose proof (K1 st0) as A1.
      cbv [mbind M_bind].
      destruct (updateMetrics toLocaleString numberToString st0) as [[[]|e1] sa];
        cbn [snd] in A1, D1; mrun;
        [|eexists; split; [reflexivity|left; rewrite A1; reflexivity]].
      pose proof (keeps_renderCharts toLocaleDateString language_card_ids analyticsData
                    unrendered_analyticsData sa) as D2.
      pose proof (K2 sa) as A2.
      destruct (renderCharts toLocaleDateString language_card_ids sa) as [[[]|e2] sb];
        cbn [snd] in A2, D2; mrun;
        [|eexists; split; [reflexivity|left; rewrite A2, A1; reflexivity]].
      pose proof (K3 sb) as A3.
      destruct (document sb !! "table-body") as [tbody|] eqn:Htbody.
      * rewrite (updateTable_run sb tbody Htbody) in A3 |- *. cbn [snd] in A3.
        eexists; split; [reflexivity|]. right.
        split; [rewrite A3, A2, A1; reflexivity|].
        exists snapshots. split; [reflexivity|].
        cbn [analyticsData document set_document]. rewrite Hdata.
        split; [rewrite D2, D1; reflexivity|]. intros _.
        rewrite lookup_alter_eq, Htbody, D2, D1. cbn [fmap option_fmap option_map].
        rewrite table_filled_eq. reflexivity.
      * assert (Ht : updateTable toLocaleString toLocaleDateString sb
                     = (Throw TypeError, sb))
          by (unfold updateTable; mrun; rewrite Htbody; reflexivity).
        rewrite Ht. mrun.
        eexists; split; [reflexivity|left; rewrite A2, A1; reflexivity].
  - unfold exportData.
    destruct (document st !! "start-date") as [es|] eqn:Hs; repeat (mrun; rewrite ?Hs);
      [|eexists; split; [reflexivity|left; split; reflexivity]].
    destruct (document st !! "end-date") as [ee|] eqn:He; repeat (mrun; rewrite ?He);
      [|eexists; split; [reflexivity|left; split; reflexivity]].
    eexists; split; [reflexivity|]. right. split; [reflexivity|].
    eexists _, _. reflexivity.
  - unfold exportData_resume, hideExportModal.
    destruct x as [|[] [blob|]]; cbn [negb];
      try (mrun; eexists; split; [reflexivity|left; reflexivity]).
    mrun. destruct (document st !! "export-modal") as [modal|] eqn:Hmodal; mrun;
      [|eexists; split; [reflexivity|left; reflexivity]].
    eexists; split; [reflexivity|]. right. split; [reflexivity|].
    exists blob. split; [reflexivity|]. split; [reflexivity|].
    cbn [document set_document set_downloads set_alerts].
    rewrite lookup_alter_eq, Hmodal. reflexivity.
Qed.

(** ** Export *)

(** X9: a successful export response with a readable body. The download is
    recorded first, under the name [analytics-export-<now>.<format>]; with
    the export modal on the page the modal is hidden and the success is
    alerted. Without the modal the download is still recorded, but hiding
    the modal throws and the user is told that the export failed. The held
    sequence and the charts are never touched. *)
Theorem export_download (st : State) (format blob : string) (now : Z) :
  let st' :=
    (exportData_resume toUpperCase format (ExportResponded true (Some blob)) now st).2 in
  downloads st'
  = (downloads st
     ++ [(("analytics-export-" ++ Number.digits now ++ "." ++ format)%string, blob)])%list
  /\ analyticsData st' = analyticsData st
  /\ charts st' = charts st
  /\ chartLog st' = chartLog st
  /\ match document st !! "export-modal" with
     | Some modal =>
         document st' = <["export-modal" := set_display "none" modal]> (document st)
         /\ alerts st'
            = (alerts st
               ++ [("Data exported successfully as " ++ toUpperCase format)%string])%list
     | None =>
         document st' = document st
         /\ alerts st' = (alerts st ++ ["Failed to export data. Please try again."])%list
     end.
Proof.
  unfold exportData_resume, hideExportModal. cbn [negb]. mrun.
  destruct (document st !! "export-modal") as [modal|] eqn:Hmodal; mrun.
  - rewrite (alter_as_insert _ _ _ modal Hmodal). repeat split.
  - repeat split.
Qed.

(** ** Requests for snapshots *)

Lemma preserves_idle_of_keeps {A} (data : list Snapshot) (m : M A) :
  keeps currentUser m -> keeps inflight m -> keeps analyticsData m ->
  preserves (signed_out_idle data) m.
Proof.
  intros Hu Hi Hd st (HU & HI & HD). unfold signed_out_idle, no_snapshots_request.
  rewrite Hu, Hi, Hd. auto.
Qed.

Lemma preserves_idle_loadAnalyticsData (data : list Snapshot) :
  preserves (signed_out_idle data) loadAnalyticsData.
Proof.
  intros st HI. pose proof HI as (HU & _). unfold loadAnalyticsData. mrun.
  rewrite HU. exact HI.
Qed.

Lemma preserves_idle_exportData (data : list Snapshot) (format : string) :
  preserves (signed_out_idle data) (exportData format).
Proof.
  unfold exportData.
  apply preserves_try_catch; [|intros e; apply preserves_idle_of_keeps; keeps_field].
  apply preserves_bind; [apply preserves_idle_of_keeps; keeps_field|intros s].
  apply preserves_bind; [apply preserves_idle_of_keeps; keeps_field|intros e].
  apply preserves_bind; [apply preserves_idle_of_keeps; keeps_field|intros token].
  intros st (HU & HI & HD). unfold fetch. mrun. split; [exact HU|split; [|exact HD]].
  intros id s' e' a H. cbn [inflight set_inflight] in H.
  apply lookup_insert_Some in H as [[_ H]|[_ H]]; [discriminate H|].
  exact (HI _ _ _ _ H).
Qed.

Lemma step_keeps_idle (data : list Snapshot) (ev : Event) (st : State) :
  signed_out_idle data st -> signed_out_idle data (step ev st).
Proof.
  intros HI.
  assert (Hk : forall m : M unit,
            keeps currentUser m -> keeps inflight m -> keeps analyticsData m ->
            signed_out_idle data (exec m st)).
  { intros m H1 H2 H3. exact (preserves_idle_of_keeps data m H1 H2 H3 st HI). }
  destruct ev; cbn [step]; unfold on_change.
  - apply (preserves_bind (signed_out_idle data));
      [|intros _; apply preserves_idle_loadAnalyticsData|exact HI].
    apply preserves_idle_of_keeps; unfold setDefaultDateRange; keeps_field.
  - destruct (document st !! "start-date"); [|exact HI].
    apply (preserves_bind (signed_out_idle data));
      [|intros _; apply preserves_idle_loadAnalyticsData|exact HI].
    apply preserves_idle_of_keeps; keeps_field.
  - destruct (document st !! "end-date"); [|exact HI].
    apply (preserves_bind (signed_out_idle data));
      [|intros _; apply preserves_idle_loadAnalyticsData|exact HI].
    apply preserves_idle_of_keeps; keeps_field.
  - apply preserves_idle_loadAnalyticsData, HI.
  - apply Hk; unfold showExportModal; keeps_field.
  - apply Hk; unfold hideExportModal; keeps_field.
  - apply preserves_idle_exportData, HI.
  - apply Hk; unfold toggleTable; keeps_field.
  - destruct (document st !! "stars-chart-type"); [|exact HI].
    apply Hk;
      unfold updateChartType, renderStarsChart, renderFollowersChart, destroy_previous,
        new_Chart; keeps_field.
  - destruct (document st !! "followers-chart-type"); [|exact HI].
    apply Hk;
      unfold updateChartType, renderStarsChart, renderFollowersChart, destroy_previous,
        new_Chart; keeps_field.
  - destruct HI as (HU & HI & HD).
    destruct (inflight st !! id) as [[s e a|f s e a]|] eqn:Hid;
      [|exact (conj HU (conj HI HD)) ..].
    exfalso. exact (HI _ _ _ _ Hid).
  - destruct (inflight st !! id) as [[s e a|f s e a]|] eqn:Hid; try exact HI.
    apply (preserves_idle_of_keeps data (exportData_resume toUpperCase f r now));
      [unfold exportData_resume, hideExportModal; keeps_field ..|].
    destruct HI as (HU & HI & HD). split; [exact HU|split; [|exact HD]].
    intros id' s' e' a' H. cbn [inflight set_inflight] in H.
    apply lookup_delete_Some in H as [_ H]. exact (HI _ _ _ _ H).
Qed.

(** X10: signed out, the dashboard never asks for snapshots. With no user
    and no request for snapshots on its way, whatever the user does and
    whatever responses arrive, no such request is ever sent and the held
    sequence stays as it was. *)
Theorem signed_out_never_loads (evs : list Event) (st : State) :
  currentUser st = None ->
  no_snapshots_request st ->
  let st' := run evs st in
  currentUser st' = None
  /\ no_snapshots_request st'
  /\ analyticsData st' = analyticsData st.
Proof.
  intros HU HI.
  assert (H : signed_out_idle (analyticsData st) st) by (repeat split; assumption).
  clear HU HI. revert st H.
  induction evs as [|ev evs IH]; intros st H; [exact H|].
  cbn [run foldl].
  destruct (IH (step ev st)) as (H1 & H2 & H3).
  - pose proof (step_keeps_idle _ ev st H) as H'.
    destruct H' as (? & ? & Hd). repeat split; try assumption.
  - pose proof (step_keeps_idle _ ev st H) as (_ & _ & Hd).
    split; [exact H1|split; [exact H2|]]. rewrite <- Hd. exact H3.
Qed.

Lemma loadAnalyticsData_run (st : State) (u s e : string) :
  currentUser st = Some u ->
  input_value "start-date" st = Some s ->
  input_value "end-date" st = Some e ->
  loadAnalyticsData st
  = (Ok tt,
     if String.eqb s "" || String.eqb e "" then st
     else set_inflight
            (<[nextFetch st := FetchSnapshots s e (bearer (authToken st))]> (inflight st))
            (S (nextFetch st)) st).
Proof.
  unfold input_value. intros HU Hs He.
  destruct (document st !! "start-date") as [es|] eqn:Hes; [|discriminate Hs].
  destruct (document st !! "end-date") as [ee|] eqn:Hee; [|discriminate He].
  injection Hs as <-. injection He as <-.
  unfold loadAnalyticsData. repeat (mrun; rewrite ?HU, ?Hes, ?Hee).
  destruct (String.eqb (value es) "" || String.eqb (value ee) ""); reflexivity.
Qed.

(** X11: a request for snapshots carries what the two date inputs show. For
    a signed-in user on a page with both inputs, after a range click, a
    change of either date or a refresh click, the inputs show two values; if
    one is empty, nothing is sent and nothing is alerted; otherwise exactly
    one request leaves, for this range and with the stored token. *)
Theorem request_carries_shown_range (ev : Event) (st : State) (u : string) :
  asks_for_snapshots ev = true ->
  currentUser st = Some u ->
  is_Some (document st !! "start-date") ->
  is_Some (document st !! "end-date") ->
  let st' := step ev st in
  exists s e,
    input_value "start-date" st' = Some s
    /\ input_value "end-date" st' = Some e
    /\ alerts st' = alerts st
    /\ if String.eqb s "" || String.eqb e ""
       then inflight st' = inflight st /\ nextFetch st' = nextFetch st
       else inflight st'
            = <[nextFetch st := FetchSnapshots s e (bearer (authToken st))]> (inflight st)
            /\ nextFetch st' = S (nextFetch st).
Proof.
  intros Hev HU [es Hes] [ee Hee].
  assert (Hload : forall st1 s e,
    currentUser st1 = Some u ->
    input_value "start-date" st1 = Some s ->
    input_value "end-date" st1 = Some e ->
    alerts st1 = alerts st -> inflight st1 = inflight st ->
    nextFetch st1 = nextFetch st -> authToken st1 = authToken st ->
    let st' := exec loadAnalyticsData st1 in
    exists s e,
      input_value "start-date" st' = Some s
      /\ input_value "end-date" st' = Some e
      /\ alerts st' = alerts st
      /\ if String.eqb s "" || String.eqb e ""
         then inflight st' = inflight st /\ nextFetch st' = nextFetch st
         else inflight st'
              = <[nextFetch st := FetchSnapshots s e (bearer (authToken st))]>
                  (inflight st)
              /\ nextFetch st' = S (nextFetch st)).
  { intros st1 s e HU1 Hs He Ha Hi Hn Ht st'. subst st'. unfold exec.
    rewrite (loadAnalyticsData_run st1 u s e HU1 Hs He). cbn [snd].
    exists s, e.
    destruct (String.eqb s "" || String.eqb e "") eqn:Hempty.
    - repeat split; assumption.
    - unfold input_value in *. cbn [document alerts inflight nextFetch set_inflight].
      rewrite Hi, Hn, Ht. repeat split; assumption. }
  destruct ev; try discriminate Hev; cbn [step]; unfold on_change.
  - unfold exec. rewrite (bind_ok _ _ st
      (set_document
         (alter (set_value endDate) "end-date"
            (alter (set_value startDate) "start-date" (document st))) st) tt).
    + eapply Hload; [exact HU| | |reflexivity ..]; unfold input_value;
        cbn [document set_document].
      * rewrite lookup_alter_ne by done. rewrite lookup_alter_eq, Hes. reflexivity.
      * rewrite lookup_alter_eq, lookup_alter_ne by done. rewrite Hee. reflexivity.
    + unfold setDefaultDateRange. repeat (mrun; rewrite ?lookup_alter_ne by done;
                                          rewrite ?Hes, ?Hee). reflexivity.
  - rewrite Hes. unfold exec. rewrite (bind_ok _ _ st
      (set_document (alter (set_value v) "start-date" (document st)) st) tt)
      by reflexivity.
    eapply Hload; [exact HU| | |reflexivity ..]; unfold input_value;
      cbn [document set_document].
    + rewrite lookup_alter_eq, Hes. reflexivity.
    + rewrite lookup_alter_ne by done. rewrite Hee. reflexivity.
  - rewrite Hee. unfold exec. rewrite (bind_ok _ _ st
      (set_document (alter (set_value v) "end-date" (document st)) st) tt)
      by reflexivity.
    eapply Hload; [exact HU| | |reflexivity ..]; unfold input_value;
      cbn [document set_document].
    + rewrite lookup_alter_ne by done. rewrite Hes. reflexivity.
    + rewrite lookup_alter_eq, Hee. reflexivity.
  - eapply Hload; [exact HU| | |reflexivity ..]; unfold input_value.
    + rewrite Hes. reflexivity.
    + rewrite Hee. reflexivity.
Qed.

(** X12: an export is requested without the checks of a load. A click on an
    export option sends the request whether or not a user is signed in and
    whether or not the dates are empty, with whatever the two inputs show;
    nothing else changes. Only a missing date input stops it, with the
    export failure alert. *)
Theorem export_request_is_unguarded (format : string) (st : State) :
  step (ClickExportOption format) st
  = match input_value "start-date" st, input_value "end-date" st with
    | Some s, Some e =>
        set_inflight
          (<[nextFetch st := FetchExport format s e (bearer (authToken st))]> (inflight st))
          (S (nextFetch st)) st
    | _, _ => set_alerts (alerts st ++ ["Failed to export data. Please try again."]) st
    end.
Proof.
  cbn [step]. unfold exec, exportData, input_value.
  destruct (document st !! "start-date") as [es|] eqn:Hes;
    destruct (document st !! "end-date") as [ee|] eqn:Hee;
    cbn [fmap option_fmap option_map];
    repeat (mrun; rewrite ?Hes, ?Hee); reflexivity.
Qed.

(** ** The display type of the stars and followers charts *)

(** X13: the stars and the followers chart are drawn with the type their
    select shows, whatever it is. Every dataset of the chart is filled
    exactly when the type is [line], and its background is its border
    colour, solid for [bar] and with the suffix [20] for every other type. *)
Theorem chart_type_follows_select (v : View) (st : State) (sel : Element) :
  v = StarsView \/ v = FollowersView ->
  is_Some (document st !! view_canvas v) ->
  document st !! (view_canvas v ++ "-type") = Some sel ->
  exists c cfg,
    chartLog (render v st).2
    = (chartLog st ++ destroyed_previous st (view_key v)
       ++ [Created c (view_canvas v) cfg])%list
    /\ charts (render v st).2 !! view_key v = Some c
    /\ chart_type cfg = value sel
    /\ Forall (fun ds =>
                 ds_fill ds = Some (String.eqb (value sel) "line")
                 /\ ds_backgroundColor ds
                    = Solid (if String.eqb (value sel) "bar" then ds_borderColor ds
                             else ds_borderColor ds ++ "20"))
         (chart_datasets cfg).
Proof.
  intros Hv [canvas Hcanvas] Hsel.
  destruct Hv as [-> | ->]; cbn [render view_key] in *;
    vm_compute view_canvas in Hcanvas; vm_compute (view_canvas _ ++ _) in Hsel;
    unfold renderStarsChart, renderFollowersChart;
    repeat (mrun; rewrite ?Hcanvas, ?Hsel);
    rewrite destroy_previous_run; mrun;
    eexists _, _;
    (split; [rewrite <- app_assoc; reflexivity|]);
    (split; [apply lookup_insert_eq|]);
    (split; [reflexivity|]);
    cbn [chart_datasets]; repeat constructor.
Qed.

(** ** A metric that ends where it started *)

(** The difference of a number with itself is neither above nor below zero:
    it is zero, or not a number when the number is infinite or not a
    number. *)
Lemma sub_self_not_ordered (x : float) :
  PrimFloat.ltb 0%float (x - x)%float = false
  /\ PrimFloat.ltb (x - x)%float 0%float = false.
Proof.
  rewrite !FloatAxioms.ltb_spec, FloatAxioms.sub_spec.
  change (Prim2SF 0%float) with (S754_zero false).
  destruct (Prim2SF x) as [[]|[]| |s m e]; try (split; reflexivity).
  unfold SF64sub, SFsub. rewrite Z.sub_diag. split; reflexivity.
Qed.

(** X14: a metric whose last value is its first value is shown as unchanged,
    for every number and also when the value is infinite or not a number:
    the indicator gets the class [metric-change neutral] and its text starts
    with the arrow to the right. A sequence of one snapshot is such a case
    for all four metrics. *)
Theorem unchanged_metric_is_neutral (st : State) (first latest : Snapshot) (m : Metric) :
  head (analyticsData st) = Some first ->
  last (analyticsData st) = Some latest ->
  metric_cards_present st ->
  metric_of m first = metric_of m latest ->
  let d := document (updateMetrics toLocaleString numberToString st).2 in
  className <$> d !! change_id m = Some "metric-change neutral"
  /\ exists rest, textContent <$> d !! change_id m = Some ("→ " ++ rest).
Proof.
  intros Hf Hl Hcards Heq d. subst d.
  rewrite (updateMetrics_run toLocaleString numberToString st first latest Hf Hl Hcards).
  cbn [snd document set_document].
  destruct (updateMetrics_change toLocaleString numberToString st first latest m
              (proj2 (Hcards m))) as [Hclass Htext].
  rewrite Hclass, Htext. unfold change_text, className_of, symbol_of, change.
  rewrite Heq.
  destruct (sub_self_not_ordered (metric_of m latest)) as [-> ->].
  split; [reflexivity|]. eexists. reflexivity.
Qed.

(** ** What the script alerts *)

Section Alerts.

Variable P : string -> Prop.

Lemma alerts_only_keeps {A} (m : M A) : keeps alerts m -> alerts_only P m.
Proof.
  intros H st. exists []. rewrite H, app_nil_r. split; [reflexivity|constructor].
Qed.

Lemma alerts_only_alert (message : string) : P message -> alerts_only P (alert message).
Proof.
  intros H st. exists [message]. split; [reflexivity|]. repeat constructor. exact H.
Qed.

Lemma alerts_only_bind {A C} (m : M A) (k : A -> M C) :
  alerts_only P m -> (forall a, alerts_only P (k a)) -> alerts_only P (m ≫= k).
Proof.
  intros Hm Hk st. unfold mbind, M_bind. destruct (Hm st) as (l1 & H1 & P1).
  destruct (m st) as [[a|e] st1]; cbn [snd] in *; [|exists l1; split; assumption].
  destruct (Hk a st1) as (l2 & H2 & P2). exists (l1 ++ l2)%list.
  rewrite H2, H1, app_assoc. split; [reflexivity|]. apply Forall_app. split; assumption.
Qed.

Lemma alerts_only_try_catch {A} (m : M A) (h : Exn -> M A) :
  alerts_only P m -> (forall e, alerts_only P (h e)) -> alerts_only P (try_catch m h).
Proof.
  intros Hm Hh st. unfold try_catch. destruct (Hm st) as (l1 & H1 & P1).
  destruct (m st) as [[a|e] st1]; cbn [snd] in *; [exists l1; split; assumption|].
  destruct (Hh e st1) as (l2 & H2 & P2). exists (l1 ++ l2)%list.
  rewrite H2, H1, app_assoc. split; [reflexivity|]. apply Forall_app. split; assumption.
Qed.

End Alerts.

(** Splits an [alerts_only] goal along the program down to the parts that
    alert nothing and to the alerts themselves. *)
Ltac alerts_only_step :=
  first
    [ apply alerts_only_keeps;
      solve [unfold setDefaultDateRange, showExportModal, hideExportModal, toggleTable,
               updateChartType, updateMetrics, updateMetricChange, renderCharts,
               renderStarsChart, renderFollowersChart, renderReposChart,
               renderCommitsChart, renderLanguageChart, renderContributionChart,
               updateTable, showEmptyState, destroy_previous, new_Chart; keeps_field]
    | apply alerts_only_alert
    | apply alerts_only_bind; [|intros ?]
    | apply alerts_only_try_catch; [|intros ?]
    | lazymatch goal with
      | |- alerts_only _ (match ?x with _ => _ end) => destruct x
      | |- alerts_only _ (if ?x then _ else _) => destruct x
      end ].

Lemma step_alerts_only (ev : Event) (st : State) :
  exists l,
    alerts (step ev st) = (alerts st ++ l)%list /\ Forall (script_alert toUpperCase) l.
Proof.
  assert (Hnone : exists l,
            alerts st = (alerts st ++ l)%list /\ Forall (script_alert toUpperCase) l).
  { exists []. rewrite app_nil_r. split; [reflexivity|constructor]. }
  assert (Hload : script_alert toUpperCase
                    "Failed to load analytics data. Please try again.")
    by (left; reflexivity).
  assert (Hexport : script_alert toUpperCase "Failed to export data. Please try again.")
    by (right; left; reflexivity).
  assert (Hrun : forall (m : M unit) st0, alerts st0 = alerts st ->
            alerts_only (script_alert toUpperCase) m ->
            exists l, alerts (exec m st0) = (alerts st ++ l)%list
                      /\ Forall (script_alert toUpperCase) l).
  { intros m st0 <- H. exact (H st0). }
  destruct ev; cbn [step]; unfold on_change;
    repeat lazymatch goal with
           | |- context [match document st !! ?k with _ => _ end] =>
               destruct (document st !! k); [|exact Hnone]
           | |- context [match inflight st !! ?k with _ => _ end] =>
               destruct (inflight st !! k) as [[]|]; try exact Hnone
           end;
    (apply Hrun; [reflexivity|]);
    unfold loadAnalyticsData, loadAnalyticsData_resume, exportData, exportData_resume,
      showError, showSuccess;
    repeat alerts_only_step; try assumption.
  right; right. eexists. reflexivity.
Qed.

(** X15: the script alerts three messages and no other. After any sequence
    of user events and responses the alerts are those there were, followed
    by messages that are the load failure, the export failure or the
    success of an export with its format in upper case. *)
Theorem only_three_alerts (evs : list Event) (st : State) :
  exists l,
    alerts (run evs st) = (alerts st ++ l)%list /\ Forall (script_alert toUpperCase) l.
Proof.
  revert st. induction evs as [|ev evs IH]; intros st; cbn [run foldl].
  - exists []. rewrite app_nil_r. split; [reflexivity|constructor].
  - destruct (step_alerts_only ev st) as (l1 & H1 & P1).
    destruct (IH (step ev st)) as (l2 & H2 & P2).
    exists (l1 ++ l2)%list. unfold run in H2. rewrite H2, H1, app_assoc.
    split; [reflexivity|]. apply Forall_app. split; assumption.
Qed.

End Coverage.

(** * Starting the page *)

(** ** The listeners *)

Lemma register_all (d : gmap string Element) (rs : list (option string * Listener)) :
  Forall (fun id => is_Some (d !! id)) (omap fst rs) ->
  register d rs = (map snd rs, Ok tt).
Proof.
  induction rs as [|[[id|] l] rs IH]; intros H; cbn [register map snd omap fst] in *.
  - reflexivity.
  - apply Forall_cons in H as [[el Hel] H]. rewrite Hel, (IH H). reflexivity.
  - rewrite (IH H). reflexivity.
Qed.

Lemma register_stops (d : gmap string Element) (rs1 rs2 : list (option string * Listener))
    (id : string) (l : Listener) :
  Forall (fun id => is_Some (d !! id)) (omap fst rs1) ->
  d !! id = None ->
  register d (rs1 ++ (Some id, l) :: rs2) = (map snd rs1, Throw TypeError).
Proof.
  intros H Hid.
  induction rs1 as [|[[id'|] l'] rs1 IH]; cbn [register map snd omap fst app] in *.
  - rewrite Hid. reflexivity.
  - apply Forall_cons in H as [[el Hel] H]. rewrite Hel, (IH H). reflexivity.
  - rewrite (IH H). reflexivity.
Qed.

(** X16: [setupEventListeners] registers its listeners in the order of its
    statements and stops at the first element it does not find: with every
    element on the page it registers the ten listeners and returns; when the
    element of a statement is missing while those of the statements before
    are there, exactly the listeners of the statements before are
    registered and a [TypeError] is raised. *)
Theorem setup_stops_at_first_missing (d : gmap string Element) :
  (Forall (fun id => is_Some (d !! id)) listener_ids ->
   setupEventListeners d = (all_listeners, Ok tt))
  /\ (forall rs1 rs2 id l,
        registrations = (rs1 ++ (Some id, l) :: rs2)%list ->
        Forall (fun id => is_Some (d !! id)) (omap fst rs1) ->
        d !! id = None ->
        setupEventListeners d = (map snd rs1, Throw TypeError)).
Proof.
  split.
  - apply register_all.
  - intros rs1 rs2 id l Hrs H Hid. unfold setupEventListeners. rewrite Hrs.
    apply register_stops; assumption.
Qed.

Section Startup_properties.

Context (charts_grid table_card date_range_card : string).

Abbreviation showAuthWarning := (showAuthWarning charts_grid table_card date_range_card).
Abbreviation checkAuthentication :=
  (checkAuthentication charts_grid table_card date_range_card).
Abbreviation checkAuthentication_resume :=
  (checkAuthentication_resume charts_grid table_card date_range_card).
Abbreviation DOMContentLoaded := (DOMContentLoaded charts_grid table_card date_range_card).
Abbreviation DOMContentLoaded_resume :=
  (DOMContentLoaded_resume charts_grid table_card date_range_card).
Abbreviation content_present := (content_present charts_grid table_card date_range_card).
Abbreviation content_hidden := (content_hidden charts_grid table_card date_range_card).

(** ** The warning *)

Lemma alter_absent (f : Element -> Element) (k : string) (d : gmap string Element) :
  d !! k = None -> alter f k d = d.
Proof. intros H. apply alter_id. intros x Hx. rewrite H in Hx. discriminate Hx. Qed.

Lemma showAuthWarning_hide_each (st : State) :
  showAuthWarning st
  = let '(d, r) :=
      hide_each ["metrics-grid"; charts_grid; table_card; date_range_card]
        (alter (set_display "flex") "auth-warning" (document st)) in
    (r, set_document d st).
Proof.
  unfold showAuthWarning, querySelector. mrun.
  destruct (document st !! "auth-warning") as [w|] eqn:Hw; mrun;
    [|rewrite (alter_absent _ _ _ Hw)];
    cbn [hide_each];
    repeat (lazymatch goal with
            | |- context [match ?m !! ?k with _ => _ end] => destruct (m !! k)
            end; mrun; cbn [hide_each]);
    rewrite ?set_document_same; reflexivity.
Qed.

Lemma hide_each_domain (ks : list string) (d : gmap string Element) (k : string) :
  is_Some ((hide_each ks d).1 !! k) <-> is_Some (d !! k).
Proof.
  revert d. induction ks as [|k' ks IH]; intros d; cbn [hide_each]; [reflexivity|].
  destruct (d !! k'); [|reflexivity].
  rewrite IH. apply lookup_alter_is_Some.
Qed.

Lemma hide_each_present (ks : list string) (d : gmap string Element) :
  Forall (fun k => is_Some (d !! k)) ks ->
  hide_each ks d = (foldl (fun d k => alter (set_display "none") k d) d ks, Ok tt).
Proof.
  revert d. induction ks as [|k ks IH]; intros d H; cbn [hide_each foldl];
    [reflexivity|].
  apply Forall_cons in H as [[e He] H]. rewrite He. apply IH.
  eapply Forall_impl; [exact H|]. intros k' Hk'. apply lookup_alter_is_Some, Hk'.
Qed.

Lemma hide_each_missing (ks : list string) (d : gmap string Element) :
  ~ Forall (fun k => is_Some (d !! k)) ks ->
  (hide_each ks d).2 = Throw TypeError.
Proof.
  revert d. induction ks as [|k ks IH]; intros d H; cbn [hide_each].
  - exfalso. apply H. constructor.
  - destruct (d !! k) as [e|] eqn:He; [|reflexivity].
    apply IH. intros Hks. apply H. constructor; [exists e; exact He|].
    eapply Forall_impl; [exact Hks|]. intros k' Hk'.
    apply lookup_alter_is_Some in Hk'. exact Hk'.
Qed.

Lemma content_present_Forall (d : gmap string Element) (st : State) :
  (forall k, is_Some (d !! k) <-> is_Some (document st !! k)) ->
  Forall (fun k => is_Some (d !! k))
    ["metrics-grid"; charts_grid; table_card; date_range_card]
  <-> content_present st.
Proof.
  intros Hd. unfold content_present. rewrite !Forall_cons, !Hd. intuition constructor.
Qed.

Lemma showAuthWarning_run (st : State) :
  content_present st ->
  showAuthWarning st = (Ok tt, set_document (content_hidden (document st)) st).
Proof.
  intros H. rewrite showAuthWarning_hide_each, hide_each_present; [reflexivity|].
  apply (content_present_Forall _ st); [|exact H].
  intros k. apply lookup_alter_is_Some.
Qed.

(** Without one of the four sections the warning cannot be shown: the
    function raises, and the page it leaves still lacks the section. *)
Lemma showAuthWarning_throws (st : State) :
  ~ content_present st ->
  exists d,
    showAuthWarning st = (Throw TypeError, set_document d st)
    /\ forall k, is_Some (d !! k) <-> is_Some (document st !! k).
Proof.
  intros H. rewrite showAuthWarning_hide_each.
  assert (Hdom : forall k,
            is_Some (alter (set_display "flex") "auth-warning" (document st) !! k)
            <-> is_Some (document st !! k)) by (intros k; apply lookup_alter_is_Some).
  pose proof (hide_each_missing
                ["metrics-grid"; charts_grid; table_card; date_range_card]
                (alter (set_display "flex") "auth-warning" (document st))) as Hthrow.
  pose proof (hide_each_domain
                ["metrics-grid"; charts_grid; table_card; date_range_card]
                (alter (set_display "flex") "auth-warning" (document st))) as Hkeep.
  destruct (hide_each _ _) as [d r]. cbn [fst snd] in *.
  exists d. split.
  - rewrite Hthrow; [reflexivity|]. intros HF. apply H.
    apply (content_present_Forall _ st Hdom). exact HF.
  - intros k. rewrite Hkeep. apply Hdom.
Qed.

(** ** The handler *)

Lemma controls_present_document (st st' : State) :
  (forall k, is_Some (document st' !! k) <-> is_Some (document st !! k)) ->
  controls_present st -> controls_present st'.
Proof.
  intros Hd H. unfold controls_present in *.
  eapply Forall_impl; [exact H|]. intros k Hk. apply Hd, Hk.
Qed.

Lemma after_authentication_run (startDate endDate : string) (st : State) :
  controls_present st ->
  after_authentication startDate endDate st
  = {| registered := all_listeners;
       outcome := Ok tt;
       started_state :=
         let st1 := set_document (dates_set startDate endDate (document st)) st in
         match currentUser st with
         | Some _ =>
             if String.eqb startDate "" || String.eqb endDate "" then st1
             else set_inflight
                    (<[nextFetch st :=
                         FetchSnapshots startDate endDate (bearer (authToken st))]>
                       (inflight st))
                    (S (nextFetch st)) st1
         | None => st1
         end |}.
Proof.
  intros H. unfold after_authentication, setupEventListeners.
  rewrite (register_all _ _ H). fold all_listeners.
  unfold controls_present, listener_ids in H. cbn [registrations omap fst] in H.
  apply Forall_cons in H as [[es Hes] H]. apply Forall_cons in H as [[ee Hee] _].
  assert (Hdates : setDefaultDateRange startDate endDate st
                   = (Ok tt, set_document (dates_set startDate endDate (document st)) st)).
  { unfold setDefaultDateRange, dates_set.
    repeat (mrun; rewrite ?lookup_alter_ne by done; rewrite ?Hes, ?Hee). reflexivity. }
  rewrite (bind_ok _ _ _ _ _ Hdates), gets_bind.
  cbn [currentUser set_document]. cbv zeta.
  destruct (currentUser st) as [u|] eqn:Hu; [|reflexivity].
  erewrite (loadAnalyticsData_run _ u startDate endDate).
  - destruct (String.eqb startDate "" || String.eqb endDate ""); reflexivity.
  - exact Hu.
  - unfold input_value, dates_set. cbn [document set_document].
    rewrite lookup_alter_ne by done. rewrite lookup_alter_eq, Hes. reflexivity.
  - unfold input_value, dates_set. cbn [document set_document].
    rewrite lookup_alter_eq, lookup_alter_ne by done. rewrite Hee. reflexivity.
Qed.

(** X17: the page starts without a stored token (none, or an empty one). On
    a page that has the four sections and the controls, no request is sent:
    the warning is shown if the page has one, the four sections are hidden,
    the ten listeners are registered and the default range is written into
    the date inputs; nothing else changes, and no user is set. *)
Theorem start_without_token (startDate endDate : string) (st : State) :
  no_token (authToken st) = true ->
  currentUser st = None ->
  content_present st ->
  controls_present st ->
  DOMContentLoaded startDate endDate st
  = inl {| registered := all_listeners;
           outcome := Ok tt;
           started_state :=
             set_document (dates_set startDate endDate (content_hidden (document st)))
               st |}.
Proof.
  intros Htoken Huser Hcontent Hcontrols.
  unfold DOMContentLoaded, checkAuthentication.
  assert (Hcheck : (gets authToken ≫= (fun token =>
                      if no_token token then showAuthWarning;; mret None
                      else mret (Some (bearer token)))) st
                   = (Ok None, set_document (content_hidden (document st)) st)).
  { rewrite gets_bind, Htoken.
    rewrite (bind_ok _ _ _ _ _ (showAuthWarning_run st Hcontent)). reflexivity. }
  rewrite (try_catch_ok _ _ _ _ _ Hcheck).
  rewrite after_authentication_run.
  - cbn [currentUser set_document document]. rewrite Huser. reflexivity.
  - apply (controls_present_document st); [|exact Hcontrols].
    intros k. cbn [document set_document]. unfold content_hidden.
    rewrite !lookup_alter_is_Some. reflexivity.
Qed.

Lemma hideAuthWarning_run (st : State) :
  hideAuthWarning st
  = (Ok tt, set_document (alter (set_display "none") "auth-warning" (document st)) st).
Proof.
  unfold hideAuthWarning. mrun.
  destruct (document st !! "auth-warning") as [w|] eqn:Hw; mrun; [reflexivity|].
  rewrite (alter_absent _ _ _ Hw), set_document_same. reflexivity.
Qed.

(** X18: the page starts with a stored token. The profile request leaves
    with the token and nothing changes while it is on its way. When the
    response is a success with a JSON body, the body becomes the user, the
    warning is hidden, the ten listeners are registered and the default
    range is written; the snapshots of that range are requested exactly
    when the body counts as true and both dates are non-empty. A body such
    as [null] leaves the page without warning and without data. *)
Theorem start_with_profile (startDate endDate : string) (st : State)
    (user : option string) :
  no_token (authToken st) = false ->
  controls_present st ->
  DOMContentLoaded startDate endDate st = inr (bearer (authToken st), st)
  /\ DOMContentLoaded_resume (ProfileResponded true (ProfileValue user))
       startDate endDate st
     = {| registered := all_listeners;
          outcome := Ok tt;
          started_state :=
            let st1 :=
              set_document
                (dates_set startDate endDate
                   (alter (set_display "none") "auth-warning" (document st)))
                (set_currentUser user st) in
            match user with
            | Some _ =>
                if String.eqb startDate "" || String.eqb endDate "" then st1
                else set_inflight
                       (<[nextFetch st :=
                            FetchSnapshots startDate endDate (bearer (authToken st))]>
                          (inflight st))
                       (S (nextFetch st)) st1
            | None => st1
            end |}.
Proof.
  intros Htoken Hcontrols. split.
  - unfold DOMContentLoaded, checkAuthentication.
    assert (Hcheck : (gets authToken ≫= (fun token =>
                        if no_token token then showAuthWarning;; mret None
                        else mret (Some (bearer token)))) st
                     = (Ok (Some (bearer (authToken st))), st)).
    { rewrite gets_bind, Htoken. reflexivity. }
    rewrite (try_catch_ok _ _ _ _ _ Hcheck). reflexivity.
  - unfold DOMContentLoaded_resume, checkAuthentication_resume.
    assert (Hcheck : (modify (set_currentUser user);;
                      hideAuthWarning) st
                     = (Ok tt,
                        set_document
                          (alter (set_display "none") "auth-warning" (document st))
                          (set_currentUser user st))).
    { rewrite modify_bind, hideAuthWarning_run. reflexivity. }
    rewrite (try_catch_ok _ _ _ _ _ Hcheck).
    rewrite after_authentication_run.
    + cbn [currentUser set_document set_currentUser document authToken inflight
           nextFetch]. cbv zeta.
      destruct user; [destruct (String.eqb startDate "" || String.eqb endDate "")|];
        reflexivity.
    + apply (controls_present_document st); [|exact Hcontrols].
      intros k. cbn [document set_document set_currentUser].
      apply lookup_alter_is_Some.
Qed.

Lemma content_present_document (st st' : State) :
  (forall k, is_Some (document st' !! k) <-> is_Some (document st !! k)) ->
  content_present st' <-> content_present st.
Proof. intros Hd. unfold content_present. rewrite !Hd. reflexivity. Qed.

(** X19: the profile request fails (the fetch is rejected, the status is not
    a success, or the body is not JSON). On a page that has the four
    sections and the controls the page ends as it does without a token: the
    warning shown, the four sections hidden, the ten listeners registered,
    the default range written, no user and no request. *)
Theorem start_with_failed_profile (r : ProfileResponse) (startDate endDate : string)
    (st : State) :
  profile_failed r = true ->
  currentUser st = None ->
  content_present st ->
  controls_present st ->
  DOMContentLoaded_resume r startDate endDate st
  = {| registered := all_listeners;
       outcome := Ok tt;
       started_state :=
         set_document (dates_set startDate endDate (content_hidden (document st))) st |}.
Proof.
  intros Hr Huser Hcontent Hcontrols.
  assert (Hcheck : checkAuthentication_resume r st
                   = (Ok tt, set_document (content_hidden (document st)) st)).
  { unfold checkAuthentication_resume.
    destruct r as [|[] [|user]]; try discriminate Hr; cbn [negb];
      cbv [try_catch throw]; rewrite (showAuthWarning_run st Hcontent); reflexivity. }
  unfold DOMContentLoaded_resume. rewrite Hcheck, after_authentication_run.
  - cbn [currentUser set_document document]. rewrite Huser. reflexivity.
  - apply (controls_present_document st); [|exact Hcontrols].
    intros k. cbn [document set_document]. unfold content_hidden.
    rewrite !lookup_alter_is_Some. reflexivity.
Qed.

(** X20: when the warning is due (no token, or a failed profile request) on
    a page that lacks one of the four sections, [showAuthWarning] raises
    inside [checkAuthentication] and again in its handler: the
    [DOMContentLoaded] handler ends with a [TypeError] before
    [setupEventListeners], so that the page has no listener at all; the
    script has then changed nothing but the page. *)
Theorem start_rejects_without_section (startDate endDate : string) (st : State) :
  ~ content_present st ->
  (no_token (authToken st) = true ->
   exists d,
     DOMContentLoaded startDate endDate st
     = inl {| registered := []; outcome := Throw TypeError;
              started_state := set_document d st |})
  /\ (forall r, profile_failed r = true ->
      exists d,
        DOMContentLoaded_resume r startDate endDate st
        = {| registered := []; outcome := Throw TypeError;
             started_state := set_document d st |}).
Proof.
  intros Hcontent.
  destruct (showAuthWarning_throws st Hcontent) as (d1 & Hw1 & Hd1).
  assert (Hcontent1 : ~ content_present (set_document d1 st)).
  { intros H. apply Hcontent. apply (content_present_document st (set_document d1 st));
      [exact Hd1|exact H]. }
  destruct (showAuthWarning_throws _ Hcontent1) as (d2 & Hw2 & _).
  split.
  - intros Htoken. exists d2. unfold DOMContentLoaded, checkAuthentication.
    cbv [try_catch]. rewrite gets_bind, Htoken.
    cbv [mbind M_bind]. rewrite Hw1. cbv [mbind M_bind]. rewrite Hw2. reflexivity.
  - intros r Hr. unfold DOMContentLoaded_resume, checkAuthentication_resume.
    destruct r as [|[] [|user]]; try discriminate Hr; cbn [negb];
      cbv [try_catch throw]; rewrite ?Hw1, ?Hw2;
      [exists d1|exists d1|exists d2|exists d2]; reflexivity.
Qed.

End Startup_properties.

(** * The overlapping loads, held and shown *)

Lemma two_loads_page_complete :
  page_complete
    (Sample.step
       (SnapshotsArrive 1 (LoadResponded true (JsonObject (Some Sample.january_february))))
       Sample.two_loads).
Proof.
  split; [|split].
  - intros []; split; vm_compute; eexists; reflexivity.
  - intros []; split; try exact I; vm_compute; eexists; reflexivity.
  - vm_compute. eexists. reflexivity.
Defined.

(** The two overlapping loads again: the response that arrives last is held,
    and shown: no alert, and the table has the two rows of January. *)
Lemma last_completed_load_is_held_witness :
  let r1 := LoadResponded true (JsonObject (Some Sample.january)) in
  let r2 := LoadResponded true (JsonObject (Some Sample.january_february)) in
  let st2 := Sample.step (SnapshotsArrive 1 r2) Sample.two_loads in
  let st1 := Sample.run [SnapshotsArrive 1 r2; SnapshotsArrive 0 r1] Sample.two_loads in
  analyticsData st1 = Sample.january
  /\ alerts st1 = alerts st2
  /\ children <$> document st1 !! "table-body"
     = Some (map (table_row Sample.toLocaleString Sample.toLocaleDateString)
               Sample.january).
Proof.
  cbv zeta. unfold Sample.run, Sample.step.
  destruct (last_completed_load_is_held Sample.toLocaleString Sample.toLocaleDateString
              Sample.numberToString Sample.toUpperCase Sample.grid_ids
              Sample.language_card_ids Sample.two_loads 0 1
              "2024-01-01" "2024-01-31" "Bearer token"
              "2024-01-01" "2024-02-29" "Bearer token"
              (Some Sample.january) (Some Sample.january_february)
              ltac:(lia) ltac:(vm_compute; reflexivity) ltac:(vm_compute; reflexivity))
    as (Hheld & Hshown & _).
  destruct (Hshown ltac:(discriminate) ltac:(vm_compute; discriminate)
              two_loads_page_complete) as (Halerts & _ & Htable).
  exact (conj Hheld (conj Halerts Htable)).
Defined.

(** The late response may also bring nothing: February is drawn, then the
    empty answer of the earlier request arrives. The held sequence is empty
    while the six charts of the three snapshots stay, and so do the three
    rows of the table. *)
Example late_empty_load_scenario :
  let r1 := LoadResponded true (JsonObject (Some [])) in
  let r2 := LoadResponded true (JsonObject (Some Sample.january_february)) in
  let st2 := Sample.step (SnapshotsArrive 1 r2) Sample.two_loads in
  let st1 := Sample.run [SnapshotsArrive 1 r2; SnapshotsArrive 0 r1] Sample.two_loads in
  analyticsData st1 = []
  /\ chartLog st1 = chartLog st2
  /\ length (drawn_series (chartLog st1)) = 6%nat
  /\ (length <$> (children <$> document st1 !! "table-body")) = Some 3%nat.
Proof.
  cbv zeta. split; [vm_compute; reflexivity|]. split; [vm_compute; reflexivity|].
  split; vm_compute; reflexivity.
Qed.

(** * Scenarios for the rest of the script *)

(** January is loaded and the stars chart switched to bars: the second stars
    chart, number 7, was created after chart 0 had been destroyed. *)
Lemma one_live_chart_per_canvas_witness :
  let log := chartLog (Sample.run Scene.stars_as_bars Sample.init) in
  (exists cfg, log !! 7%nat = Some (Created 7 "stars-chart" cfg))
  /\ ~ live (take 7 log) 0 "stars-chart".
Proof.
  intros log.
  assert (H : {cfg | log !! 7%nat = Some (Created 7 "stars-chart" cfg)}).
  { vm_compute. eexists. reflexivity. }
  destruct H as [cfg H]. split; [exists cfg; exact H|].
  exact (proj2 (one_live_chart_per_canvas Sample.toLocaleString
                  Sample.toLocaleDateString Sample.numberToString Sample.toUpperCase
                  Sample.grid_ids Sample.language_card_ids Scene.stars_as_bars
                  Sample.init eq_refl)
           7%nat 7%nat "stars-chart" cfg H 0%nat).
Defined.

(** The table container of the sample page has no inline display: the first
    click hides it, the second shows it as a block. *)
Lemma toggleTable_alternates_witness :
  exists st1 st2 e1 e2,
    toggleTable Sample.init = (Ok tt, st1)
    /\ toggleTable st1 = (Ok tt, st2)
    /\ toggleTable st2 = (Ok tt, st1)
    /\ document st1 !! "table-container" = Some e1
    /\ document st2 !! "table-container" = Some e2
    /\ display e1 = "none"
    /\ display e2 = "block".
Proof.
  destruct (toggleTable_alternates Sample.init Sample.blank
              ltac:(vm_compute; reflexivity))
    as (st1 & st2 & e1 & e2 & H1 & H2 & H3 & He1 & He2 & Hd1 & Hd2 & _).
  exists st1, st2, e1, e2.
  exact (conj H1 (conj H2 (conj H3 (conj He1 (conj He2 (conj Hd1 Hd2)))))).
Defined.

Lemma sample_page_complete : page_complete Sample.init.
Proof.
  split; [|split].
  - intros []; split; vm_compute; eexists; reflexivity.
  - intros []; split; try exact I; vm_compute; eexists; reflexivity.
  - vm_compute. eexists. reflexivity.
Defined.

(** January arrives on the sample page: six charts, two table rows, no
    alert. *)
Lemma load_shows_the_sequence_witness :
  exists st',
    loadAnalyticsData_resume Sample.toLocaleString Sample.toLocaleDateString
      Sample.numberToString Sample.grid_ids Sample.language_card_ids
      (LoadResponded true (JsonObject (Some Sample.january))) Sample.init
    = (Ok tt, st')
    /\ analyticsData st' = Sample.january
    /\ alerts st' = []
    /\ map fst (drawn_series (chartLog st'))
       = ["stars-chart"; "followers-chart"; "repos-chart"; "commits-chart";
          "language-chart"; "contribution-chart"].
Proof.
  destruct (load_shows_the_sequence Sample.toLocaleString Sample.toLocaleDateString
              Sample.numberToString Sample.grid_ids Sample.language_card_ids
              Sample.init Sample.january
              ltac:(discriminate) ltac:(vm_compute; discriminate)
              sample_page_complete)
    as (st' & Hrun & Hdata & Halerts & Hlog & _).
  exists st'. split; [exact Hrun|]. split; [exact Hdata|]. split; [exact Halerts|].
  rewrite Hlog. reflexivity.
Defined.

(** After an empty sequence took the metric cards away, January arrives: it
    is held, and the load failure is alerted. *)
Lemma load_holds_sequence_it_cannot_show_witness :
  let st' :=
    exec (loadAnalyticsData_resume Sample.toLocaleString Sample.toLocaleDateString
            Sample.numberToString Sample.grid_ids Sample.language_card_ids
            (LoadResponded true (JsonObject (Some Sample.january)))) Scene.emptied in
  analyticsData st' = Sample.january
  /\ alerts st' = ["Failed to load analytics data. Please try again."]
  /\ chartLog st' = []
  /\ document st' = document Scene.emptied.
Proof.
  intros st'. subst st'. unfold exec.
  rewrite (load_holds_sequence_it_cannot_show Sample.toLocaleString
             Sample.toLocaleDateString Sample.numberToString Sample.grid_ids
             Sample.language_card_ids Scene.emptied Sample.january
             ltac:(discriminate) ltac:(vm_compute; reflexivity)).
  repeat split; vm_compute; reflexivity.
Defined.

(** Signed out: a refresh, a range click and a stray response leave the
    sequence empty; the export still sends its request. *)
Lemma signed_out_never_loads_witness :
  let st' :=
    Sample.run
      [ClickRefresh; ClickRange "2024-01-01" "2024-01-31"; ClickExportOption "csv";
       SnapshotsArrive 0 (LoadResponded true (JsonObject (Some Sample.january)))]
      Scene.signed_out in
  currentUser st' = None
  /\ no_snapshots_request st'
  /\ analyticsData st' = [].
Proof.
  exact (signed_out_never_loads Sample.toLocaleString Sample.toLocaleDateString
           Sample.numberToString Sample.toUpperCase Sample.grid_ids
           Sample.language_card_ids
           [ClickRefresh; ClickRange "2024-01-01" "2024-01-31"; ClickExportOption "csv";
            SnapshotsArrive 0 (LoadResponded true (JsonObject (Some Sample.january)))]
           Scene.signed_out eq_refl
           ltac:(intros id s e a H; vm_compute in H; discriminate H)).
Defined.

(** The end date moved to the end of February on the sample page. *)
Lemma request_carries_shown_range_witness :
  let st' := Sample.step (ChangeEndDate "2024-02-29") Sample.init in
  exists s e,
    input_value "start-date" st' = Some s
    /\ input_value "end-date" st' = Some e
    /\ alerts st' = []
    /\ if String.eqb s "" || String.eqb e ""
       then inflight st' = ∅ /\ nextFetch st' = 0%nat
       else inflight st' = <[0%nat := FetchSnapshots s e "Bearer token"]> ∅
            /\ nextFetch st' = 1%nat.
Proof.
  exact (request_carries_shown_range Sample.toLocaleString Sample.toLocaleDateString
           Sample.numberToString Sample.toUpperCase Sample.grid_ids
           Sample.language_card_ids (ChangeEndDate "2024-02-29") Sample.init "octocat"
           eq_refl eq_refl
           ltac:(vm_compute; eexists; reflexivity)
           ltac:(vm_compute; eexists; reflexivity)).
Defined.

(** The stars chart of the loaded sample page, drawn as a line. *)
Lemma chart_type_follows_select_witness :
  exists c cfg,
    chartLog (renderStarsChart Sample.toLocaleDateString Sample.loaded).2
    = (chartLog Sample.loaded ++ destroyed_previous Sample.loaded "stars"
       ++ [Created c "stars-chart" cfg])%list
    /\ chart_type cfg = "line"
    /\ Forall (fun ds => ds_fill ds = Some true) (chart_datasets cfg).
Proof.
  destruct (chart_type_follows_select Sample.toLocaleDateString
              Sample.language_card_ids StarsView Sample.loaded
              (set_value "line" Sample.blank) (or_introl eq_refl)
              ltac:(vm_compute; eexists; reflexivity)
              ltac:(vm_compute; reflexivity))
    as (c & cfg & Hlog & _ & Htype & Hds).
  exists c, cfg. split; [exact Hlog|]. split; [exact Htype|].
  eapply Forall_impl; [exact Hds|]. intros ds [Hfill _]. exact Hfill.
Defined.

Lemma one_snapshot_metric_cards : metric_cards_present Scene.one_snapshot.
Proof. intros []; split; vm_compute; eexists; reflexivity. Defined.

(** One snapshot: the stars indicator is neutral. *)
Lemma unchanged_metric_is_neutral_witness :
  let d :=
    document (updateMetrics Sample.toLocaleString Sample.numberToString
                Scene.one_snapshot).2 in
  className <$> d !! "metric-stars-change" = Some "metric-change neutral"
  /\ exists rest, textContent <$> d !! "metric-stars-change" = Some ("→ " ++ rest).
Proof.
  exact (unchanged_metric_is_neutral Sample.toLocaleString Sample.numberToString
           Scene.one_snapshot (Sample.snapshot "2024-01-01" 10)
           (Sample.snapshot "2024-01-01" 10) Stars
           ltac:(vm_compute; reflexivity) ltac:(vm_compute; reflexivity)
           one_snapshot_metric_cards eq_refl).
Defined.

(** The sample page has no buttons: the registration stops at the refresh
    button, after the range buttons and the two date inputs. *)
Lemma setup_stops_at_first_missing_witness :
  setupEventListeners Scene.full_page = (all_listeners, Ok tt)
  /\ setupEventListeners Sample.page
     = ([OnRangeClick; OnStartDateChange; OnEndDateChange], Throw TypeError).
Proof.
  split.
  - apply (proj1 (setup_stops_at_first_missing Scene.full_page)).
    let l := eval vm_compute in listener_ids in change listener_ids with l.
    repeat (apply Forall_cons; split; [vm_compute; eexists; reflexivity|]).
    constructor.
  - apply (proj2 (setup_stops_at_first_missing Sample.page)
             [(None, OnRangeClick); (Some "start-date", OnStartDateChange);
              (Some "end-date", OnEndDateChange)]
             [(Some "export-data-btn", OnExportClick);
              (Some "close-export-modal", OnCloseExportClick);
              (None, OnExportOptionClick);
              (Some "toggle-table-btn", OnToggleTableClick);
              (Some "stars-chart-type", OnStarsTypeChange);
              (Some "followers-chart-type", OnFollowersTypeChange)]
             "refresh-data-btn" OnRefreshClick eq_refl).
    + cbn [omap list_omap fst].
      repeat (apply Forall_cons; split; [vm_compute; eexists; reflexivity|]).
      constructor.
    + vm_compute. reflexivity.
Defined.

Lemma fresh_content_present (token : option string) :
  content_present "charts-grid" "table-card" "date-range-card" (Scene.fresh token).
Proof. repeat split; vm_compute; eexists; reflexivity. Defined.

Lemma fresh_controls_present (token : option string) :
  controls_present (Scene.fresh token).
Proof.
  unfold controls_present.
  let l := eval vm_compute in listener_ids in change listener_ids with l.
  repeat (apply Forall_cons; split; [vm_compute; eexists; reflexivity|]).
  constructor.
Defined.

(** The full page without a token. *)
Lemma start_without_token_witness :
  exists started,
    Scene.DOMContentLoaded "2024-01-01" "2024-01-31" (Scene.fresh None) = inl started
    /\ registered started = all_listeners
    /\ outcome started = Ok tt
    /\ display <$> document (started_state started) !! "auth-warning" = Some "flex"
    /\ display <$> document (started_state started) !! "charts-grid" = Some "none"
    /\ input_value "end-date" (started_state started) = Some "2024-01-31"
    /\ inflight (started_state started) = ∅.
Proof.
  eexists. split.
  - exact (start_without_token "charts-grid" "table-card" "date-range-card"
             "2024-01-01" "2024-01-31" (Scene.fresh None) eq_refl eq_refl
             (fresh_content_present None) (fresh_controls_present None)).
  - repeat split; vm_compute; reflexivity.
Defined.

(** The full page with a token: the profile names a user, and January is
    requested. *)
Lemma start_with_profile_witness :
  Scene.DOMContentLoaded "2024-01-01" "2024-01-31" (Scene.fresh (Some "token"))
  = inr ("Bearer token", Scene.fresh (Some "token"))
  /\ exists started,
       Scene.DOMContentLoaded_resume
         (ProfileResponded true (ProfileValue (Some "octocat")))
         "2024-01-01" "2024-01-31" (Scene.fresh (Some "token"))
       = started
       /\ registered started = all_listeners
       /\ currentUser (started_state started) = Some "octocat"
       /\ inflight (started_state started)
          = <[0%nat := FetchSnapshots "2024-01-01" "2024-01-31" "Bearer token"]> ∅.
Proof.
  destruct (start_with_profile "charts-grid" "table-card" "date-range-card"
              "2024-01-01" "2024-01-31" (Scene.fresh (Some "token")) (Some "octocat")
              eq_refl (fresh_controls_present (Some "token"))) as [Hsent Hresumed].
  split; [exact Hsent|]. eexists. split; [exact Hresumed|].
  repeat split.
Defined.

(** The full page with a token that the backend refuses. *)
Lemma start_with_failed_profile_witness :
  exists started,
    Scene.DOMContentLoaded_resume (ProfileResponded false ProfileInvalid)
      "2024-01-01" "2024-01-31" (Scene.fresh (Some "token"))
    = started
    /\ registered started = all_listeners
    /\ currentUser (started_state started) = None
    /\ display <$> document (started_state started) !! "table-card" = Some "none"
    /\ inflight (started_state started) = ∅.
Proof.
  eexists. split.
  - exact (start_with_failed_profile "charts-grid" "table-card" "date-range-card"
             (ProfileResponded false ProfileInvalid) "2024-01-01" "2024-01-31"
             (Scene.fresh (Some "token")) eq_refl eq_refl
             (fresh_content_present (Some "token"))
             (fresh_controls_present (Some "token"))).
  - repeat split; vm_compute; reflexivity.
Defined.

(** The sample page has none of the three sections found by class: without a
    token the handler ends with a [TypeError] and no listener. *)
Lemma start_rejects_without_section_witness :
  exists d,
    Scene.DOMContentLoaded "2024-01-01" "2024-01-31" Scene.signed_out
    = inl {| registered := []; outcome := Throw TypeError;
             started_state := set_document d Scene.signed_out |}.
Proof.
  exact (proj1 (start_rejects_without_section "charts-grid" "table-card"
                  "date-range-card" "2024-01-01" "2024-01-31" Scene.signed_out
                  ltac:(intros (_ & [e H] & _); vm_compute in H; discriminate H))
           eq_refl).
Defined.

(** January is loaded and the stars chart switched to bars: the second stars
    chart has one value for each of its two labels. *)
Lemma charts_stay_aligned_witness :
  let log := chartLog (Sample.run Scene.stars_as_bars Sample.init) in
  exists cfg,
    log !! 7%nat = Some (Created 7 "stars-chart" cfg)
    /\ length (chart_labels cfg) = 2%nat
    /\ aligned cfg.
Proof.
  intros log.
  assert (H : {cfg | log !! 7%nat = Some (Created 7 "stars-chart" cfg)
                     /\ length (chart_labels cfg) = 2%nat}).
  { vm_compute. eexists. split; reflexivity. }
  destruct H as [cfg [H Hlen]]. exists cfg. split; [exact H|]. split; [exact Hlen|].
  exact (charts_stay_aligned Sample.toLocaleString Sample.toLocaleDateString
           Sample.numberToString Sample.toUpperCase Sample.grid_ids
           Sample.language_card_ids Scene.stars_as_bars Sample.init
           ltac:(intros c canvas cfg' Hin; vm_compute in Hin;
                 exfalso; exact (not_elem_of_nil _ Hin))
           7%nat "stars-chart" cfg (list_elem_of_lookup_2 _ _ _ H)).
Defined.

(** The sample page: an empty sequence arrives, then January. *)
Lemma empty_state_blocks_later_loads_witness :
  let load r :=
    loadAnalyticsData_resume Sample.toLocaleString Sample.toLocaleDateString
      Sample.numberToString Sample.grid_ids Sample.language_card_ids
      (LoadResponded true (JsonObject r)) in
  let st1 := (load (Some []) Sample.init).2 in
  alerts st1 = []
  /\ load (Some Sample.january) st1
     = (Ok tt,
        set_alerts ["Failed to load analytics data. Please try again."]
          (set_analyticsData Sample.january st1)).
Proof.
  exact (empty_state_blocks_later_loads Sample.toLocaleString
           Sample.toLocaleDateString Sample.numberToString Sample.grid_ids
           Sample.language_card_ids Sample.init (Some []) Sample.january
           ltac:(apply (bool_decide_unpack _); vm_compute; exact I)
           ltac:(vm_compute; eexists; reflexivity) eq_refl ltac:(discriminate)).
Defined.
